(** * Apple Health workouts to TCX: a shallow embedding of
      [convert_apple_workouts.py] and the properties of its pipeline.

    The development follows the source file top to bottom: the Python values
    the converter manipulates (strings, floats, datetimes, exceptions), the
    ElementTree documents it reads and builds, then the methods of
    [AppleWorkoutConverter] in source order, and finally the theorems. *)

From Stdlib Require Import ZArith List String Ascii Bool Lia SpecFloat.
From stdpp Require Import base option strings gmap.
Import ListNotations.

Set Warnings "-register-all".

Local Open Scope string_scope.
Local Open Scope list_scope.
Local Open Scope Z_scope.

(* ===================================================================== *)
(** * Python strings *)
(* ===================================================================== *)

(** A [str] is modelled by its UTF-8 bytes.  Substring search, prefix tests
    and replacement agree on code points and on UTF-8 bytes, so the model is
    exact for the operators below. *)
Module PyStr.

(** [s.startswith(p)] *)
Fixpoint startswith (p s : string) : bool :=
  match p, s with
  | EmptyString, _ => true
  | String a p', String b s' => if Ascii.eqb a b then startswith p' s' else false
  | String _ _, EmptyString => false
  end.

(** [needle in hay] *)
Fixpoint contains (needle hay : string) : bool :=
  startswith needle hay ||
  match hay with
  | EmptyString => false
  | String _ hay' => contains needle hay'
  end.

(** Drop the first [n] bytes. *)
Fixpoint drop (n : nat) (s : string) : string :=
  match n, s with
  | O, _ => s
  | S n', String _ s' => drop n' s'
  | S _, EmptyString => EmptyString
  end.

(** [s.replace(old, new)] for a non-empty [old]: left to right, without
    overlap.  [skip] counts the bytes of a match still to be dropped. *)
Fixpoint replace_from (old new : string) (skip : nat) (s : string) : string :=
  match s with
  | EmptyString => EmptyString
  | String c s' =>
      match skip with
      | S k => replace_from old new k s'
      | O =>
          if startswith old s
          then new ++ replace_from old new (String.length old - 1) s'
          else String c (replace_from old new O s')
      end
  end.

Definition replace (old new s : string) : string := replace_from old new O s.

(** [if s:] *)
Definition truthy (s : string) : bool :=
  match s with EmptyString => false | _ => true end.

End PyStr.

(* ===================================================================== *)
(** * Python numbers *)
(* ===================================================================== *)

(** A Python [float] is an IEEE 754 binary64 value. *)
Definition float : Type := spec_float.

Module PyFloat.

Definition prec : Z := 53.
Definition emax : Z := 1024.

Definition t : Type := float.

(** [float(z)] for an integer literal of the source. *)
Definition of_Z (z : Z) : t :=
  binary_normalize prec emax z 0 false.

Definition mul (x y : t) : t := SFmul prec emax x y.
Definition div (x y : t) : t := SFdiv prec emax x y.

(** [if x:] -- a float is false exactly when it is a zero. *)
Definition truthy (x : t) : bool :=
  match x with S754_zero _ => false | _ => true end.

Definition is_finite (x : t) : bool :=
  match x with S754_zero _ | S754_finite _ _ _ => true | _ => false end.

(** The integer part, rounding toward zero. *)
Definition trunc (x : t) : Z :=
  match x with
  | S754_finite s m e =>
      let mag := match e with
                 | Zneg k => Z.shiftr (Zpos m) (Zpos k)
                 | _ => Z.shiftl (Zpos m) e
                 end in
      if s then - mag else mag
  | _ => 0
  end.

End PyFloat.

(** [elevation] of a track point is [float(text)] or the integer literal
    [0]; both print differently, so the sum is kept. *)
Inductive num : Type :=
| NInt (z : Z)
| NFloat (x : float).

(** [str(z)] for an integer. *)
Module PyInt.

Definition digit (d : Z) : ascii := ascii_of_nat (48 + Z.to_nat d).

Fixpoint digits (fuel : nat) (z : Z) (acc : string) : string :=
  match fuel with
  | O => acc
  | S fuel' =>
      let acc' := String (digit (z mod 10)) acc in
      if z <? 10 then acc' else digits fuel' (z / 10) acc'
  end.

Definition str_nonneg (z : Z) : string :=
  digits (S (Z.to_nat (Z.log2 z))) z EmptyString.

Definition str (z : Z) : string :=
  if z <? 0 then String "-" (str_nonneg (- z)) else str_nonneg z.

(** A field of fixed width, zero padded: [%02d], [%04d], [%06d]. *)
Fixpoint pad (width : nat) (z : Z) (acc : string) : string :=
  match width with
  | O => acc
  | S w => pad w (z / 10) (String (digit (z mod 10)) acc)
  end.

End PyInt.

(* ===================================================================== *)
(** * Exceptions *)
(* ===================================================================== *)

(** The classes of exception the converter can meet.  All of them derive
    from [Exception], which is what the [except Exception] clauses of the
    source catch.  [OSError] carries the errno the platform reported. *)
Inductive exn : Type :=
| ValueError
| TypeError
| AttributeError
| OverflowError
| ParseError
| OSError (errno : Z).

Inductive result (A : Type) : Type :=
| Ok (a : A)
| Raise (e : exn).
Arguments Ok {A} a.
Arguments Raise {A} e.

Definition rbind {A B} (c : result A) (k : A -> result B) : result B :=
  match c with
  | Ok a => k a
  | Raise e => Raise e
  end.

Declare Scope result_scope.
Delimit Scope result_scope with res.
Notation "'let*' x := c 'in' k" := (rbind c (fun x => k))
  (at level 10, x name, c at level 100, k at level 200) : result_scope.

Definition is_ok {A} (r : result A) : bool :=
  match r with Ok _ => true | Raise _ => false end.

(** Run a fallible step over a list, left to right, stopping at the first
    exception: the shape of a [for] loop that appends to a list. *)
Fixpoint rmap {A B} (f : A -> result B) (l : list A) : result (list B) :=
  match l with
  | [] => Ok []
  | a :: l' => (let* b := f a in
                let* bs := rmap f l' in
                Ok (b :: bs))%res
  end.

(* ===================================================================== *)
(** * Dates and times *)
(* ===================================================================== *)

(** A [datetime.datetime].  [tzinfo] is [None] for a naive value and
    otherwise the fixed UTC offset of its [timezone], in microseconds. *)
Record datetime : Type := mkDatetime {
  year : Z; month : Z; day : Z;
  hour : Z; minute : Z; second : Z; microsecond : Z;
  tzinfo : option Z
}.

Definition is_aware (d : datetime) : bool :=
  match tzinfo d with Some _ => true | None => false end.

(** ** [datetime.fromisoformat]

    The source calls the interpreter's [datetime.fromisoformat], which is not
    part of the repository.  The model below follows the routine CPython 3.11
    runs for it ([Modules/_datetimemodule.c]: [datetime_fromisoformat] and
    its helpers), function by function and under the same names.  The C code
    walks a NUL-terminated buffer with pointers; here a pointer is an index
    into the string and reading at or past the end gives NUL.  Every failure
    of the routine is a [ValueError]. *)
Module ISO.

Definition NUL : ascii := "000"%char.

Definition char_at (s : string) (i : nat) : ascii :=
  match String.get i s with Some c => c | None => NUL end.

Definition is_digit (c : ascii) : bool :=
  let n := nat_of_ascii c in ((48 <=? n) && (n <=? 57))%nat.

Definition digit_val (c : ascii) : Z := Z.of_nat (nat_of_ascii c) - 48.

Definition is_char (c : ascii) (lit : ascii) : bool := Ascii.eqb c lit.

(** [parse_digits(ptr, var, num_digits)]: [None] is the NULL result. *)
Fixpoint parse_digits (s : string) (p : nat) (var : Z) (num_digits : nat)
  : option (nat * Z) :=
  match num_digits with
  | O => Some (p, var)
  | S n =>
      let c := char_at s p in
      if is_digit c
      then parse_digits s (S p) (var * 10 + digit_val c) n
      else None
  end.

(** *** Calendar arithmetic *)

Definition is_leap (y : Z) : bool :=
  (y mod 4 =? 0) && (negb (y mod 100 =? 0) || (y mod 400 =? 0)).

Definition days_in_month_table : list Z :=
  [0; 31; 28; 31; 30; 31; 30; 31; 31; 30; 31; 30; 31].

Definition days_before_month_table : list Z :=
  [0; 0; 31; 59; 90; 120; 151; 181; 212; 243; 273; 304; 334].

Definition days_in_month (y m : Z) : Z :=
  if (m =? 2) && is_leap y then 29
  else nth (Z.to_nat m) days_in_month_table 0.

Definition days_before_month (y m : Z) : Z :=
  nth (Z.to_nat m) days_before_month_table 0
  + (if (2 <? m) && is_leap y then 1 else 0).

Definition days_before_year (y : Z) : Z :=
  let y := y - 1 in
  y * 365 + y / 4 - y / 100 + y / 400.

Definition ymd_to_ord (y m d : Z) : Z :=
  days_before_year y + days_before_month y m + d.

Definition DI4Y : Z := 1461.
Definition DI100Y : Z := 36524.
Definition DI400Y : Z := 146097.

Definition ord_to_ymd (ordinal : Z) : Z * Z * Z :=
  let ordinal := ordinal - 1 in
  let n400 := ordinal / DI400Y in
  let n := ordinal mod DI400Y in
  let n100 := n / DI100Y in
  let n := n mod DI100Y in
  let n4 := n / DI4Y in
  let n := n mod DI4Y in
  let n1 := n / 365 in
  let n := n mod 365 in
  let y := n400 * 400 + 1 + n100 * 100 + n4 * 4 + n1 in
  if (n1 =? 4) || (n100 =? 4) then (y - 1, 12, 31)
  else
    let leapyear := (n1 =? 3) && (negb (n4 =? 24) || (n100 =? 3)) in
    let m := Z.shiftr (n + 50) 5 in
    let preceding :=
      nth (Z.to_nat m) days_before_month_table 0
      + (if (2 <? m) && leapyear then 1 else 0) in
    let '(m, preceding) :=
      if n <? preceding
      then (m - 1, preceding - days_in_month y (m - 1))
      else (m, preceding) in
    (y, m, n - preceding + 1).

(** 0 for a Monday. *)
Definition weekday (y m d : Z) : Z := (ymd_to_ord y m d + 6) mod 7.

Definition iso_week1_monday (y : Z) : Z :=
  let first_day := ymd_to_ord y 1 1 in
  let first_weekday := (first_day + 6) mod 7 in
  let week1_monday := first_day - first_weekday in
  if 3 <? first_weekday then week1_monday + 7 else week1_monday.

(** [iso_to_ymd].  For an ISO year below 1 the C arithmetic leaves the
    calendar's range and the constructor rejects whatever comes out; the
    guard on the first line gives that [ValueError] directly. *)
Definition iso_to_ymd (iso_year iso_week iso_day : Z) : option (Z * Z * Z) :=
  if iso_year <? 1 then None
  else
    let out_of_range :=
      if (iso_week <=? 0) || (53 <=? iso_week)
      then
        negb ((iso_week =? 53) &&
              (let first_weekday := weekday iso_year 1 1 in
               (first_weekday =? 3) ||
               ((first_weekday =? 2) && is_leap iso_year)))
      else false in
    if out_of_range then None
    else if (iso_day <=? 0) || (8 <=? iso_day) then None
    else
      let day_1 := iso_week1_monday iso_year in
      let day_offset := (iso_week - 1) * 7 + iso_day - 1 in
      Some (ord_to_ymd (day_1 + day_offset)).

(** *** Splitting date from time *)

(** [_find_isoformat_datetime_separator]: [None] is the result -1. *)
Definition find_isoformat_datetime_separator (s : string) (len : nat)
  : option nat :=
  if (len =? 7)%nat then Some 7%nat
  else if is_char (char_at s 4) "-" then
    if is_char (char_at s 5) "W" then
      if (len <? 8)%nat then None
      else if (8 <? len)%nat && is_char (char_at s 8) "-" then
        if (len =? 9)%nat then None
        else if (10 <? len)%nat && is_digit (char_at s 10) then Some 8%nat
        else Some 10%nat
      else Some 8%nat
    else Some 10%nat
  else if is_char (char_at s 4) "W" then
    let idx :=
      (fix scan (fuel idx : nat) : nat :=
         match fuel with
         | O => idx
         | S fuel' =>
             if (idx <? len)%nat && is_digit (char_at s idx)
             then scan fuel' (S idx) else idx
         end) len 7%nat in
    if (idx <? 9)%nat then Some idx
    else if Nat.even idx then Some 7%nat
    else Some 8%nat
  else Some 8%nat.

(** [parse_isoformat_date(dtstr, len, &year, &month, &day)] *)
Definition parse_isoformat_date (s : string) (len : nat)
  : option (Z * Z * Z) :=
  match parse_digits s 0 0 4 with
  | None => None
  | Some (p, y) =>
      let uses_separator := is_char (char_at s p) "-" in
      let p := if uses_separator then S p else p in
      if is_char (char_at s p) "W" then
        match parse_digits s (S p) 0 2 with
        | None => None
        | Some (p, iso_week) =>
            if (p <? len)%nat then
              if uses_separator && negb (is_char (char_at s p) "-")
              then None
              else
                let p := if uses_separator then S p else p in
                match parse_digits s p 0 1 with
                | None => None
                | Some (_, iso_day) => iso_to_ymd y iso_week iso_day
                end
            else iso_to_ymd y iso_week 1
        end
      else
        match parse_digits s p 0 2 with
        | None => None
        | Some (p, m) =>
            if uses_separator && negb (is_char (char_at s p) "-")
            then None
            else
              let p := if uses_separator then S p else p in
              match parse_digits s p 0 2 with
              | None => None
              | Some (_, d) => Some (y, m, d)
              end
        end
  end.

(** *** Time of day and offset *)

(** What the loop over hour, minute and second of [parse_hh_mm_ss_ff]
    ends with: a [return] inside the loop (negative, or 0/1), or a fall
    through to the fraction at position [p]. *)
Inductive hms_exit : Type :=
| HmsError
| HmsReturn (not_at_end : bool) (vals : Z * Z * Z)
| HmsFraction (p : nat) (vals : Z * Z * Z).

Definition set_val (i : nat) (v : Z) (vals : Z * Z * Z) : Z * Z * Z :=
  let '(h, m, sec) := vals in
  match i with
  | O => (v, m, sec)
  | 1%nat => (h, v, sec)
  | _ => (h, m, v)
  end.

(** Iterations [i], [i+1], ..., 2 of the loop; [left] is [3 - i]. *)
Fixpoint hms_loop (s : string) (p_end : nat) (left i p : nat)
    (has_separator : bool) (vals : Z * Z * Z) : hms_exit :=
  match left with
  | O => HmsFraction p vals
  | S left' =>
      match parse_digits s p 0 2 with
      | None => HmsError
      | Some (p, v) =>
          let vals := set_val i v vals in
          let c := char_at s p in
          let p := S p in
          let has_separator :=
            if (i =? 0)%nat then is_char c ":" else has_separator in
          if (p_end <=? p)%nat then HmsReturn (negb (is_char c NUL)) vals
          else if has_separator && is_char c ":"
          then hms_loop s p_end left' (S i) p has_separator vals
          else if is_char c "." || is_char c ","
          then HmsFraction p vals
          else if negb has_separator
          then hms_loop s p_end left' (S i) (pred p) has_separator vals
          else HmsError
      end
  end.

Definition correction : list Z := [100000; 10000; 1000; 100; 10].

Fixpoint skip_digits (s : string) (fuel p : nat) : nat :=
  match fuel with
  | O => p
  | S fuel' => if is_digit (char_at s p) then skip_digits s fuel' (S p) else p
  end.

(** [parse_hh_mm_ss_ff(tstr, tstr_end, ...)]: [None] for a negative
    result, else whether text remains (result 1) and the four fields. *)
Definition parse_hh_mm_ss_ff (s : string) (tstr tstr_end : nat)
  : option (bool * (Z * Z * Z * Z)) :=
  match hms_loop s tstr_end 3 0 tstr true (0, 0, 0) with
  | HmsError => None
  | HmsReturn r vals => Some (r, (vals, 0))
  | HmsFraction p vals =>
      let len_remains := (tstr_end - p)%nat in
      let to_parse := if (6 <=? len_remains)%nat then 6%nat else len_remains in
      match parse_digits s p 0 to_parse with
      | None => None
      | Some (p, us) =>
          let us :=
            if (to_parse <? 6)%nat
            then us * nth (to_parse - 1) correction 0
            else us in
          let p := skip_digits s (String.length s) p in
          Some (negb (is_char (char_at s p) NUL), (vals, us))
      end
  end.

Definition is_tz_char (c : ascii) : bool :=
  is_char c "Z" || is_char c "+" || is_char c "-".

(** The [do ... while (++tzinfo_pos < p_end)] scan. *)
Fixpoint find_tzinfo (s : string) (p_end : nat) (fuel pos : nat) : nat :=
  if is_tz_char (char_at s pos) then pos
  else
    match fuel with
    | O => S pos
    | S fuel' =>
        if (S pos <? p_end)%nat then find_tzinfo s p_end fuel' (S pos)
        else S pos
    end.

(** [parse_isoformat_time(dtstr, dtlen, ...)] on the text from [p]:
    the four fields and, when an offset was given, its seconds and
    microseconds. *)
Definition parse_isoformat_time (s : string) (p dtlen : nat)
  : option (Z * Z * Z * Z * option (Z * Z)) :=
  let p_end := (p + dtlen)%nat in
  let tzinfo_pos := find_tzinfo s p_end dtlen p in
  match parse_hh_mm_ss_ff s p tzinfo_pos with
  | None => None
  | Some (rv, comps) =>
      if (tzinfo_pos =? p_end)%nat then
        if rv then None else Some (comps, None)
      else if is_char (char_at s tzinfo_pos) "Z" then
        if negb (is_char (char_at s (S tzinfo_pos)) NUL) then None
        else Some (comps, Some (0, 0))
      else
        let tzsign := if is_char (char_at s tzinfo_pos) "-" then -1 else 1 in
        match parse_hh_mm_ss_ff s (S tzinfo_pos) p_end with
        | None => None
        | Some (rv, (tzhour, tzminute, tzsecond, tzmicrosecond)) =>
            if rv then None
            else Some (comps,
                       Some (tzsign * (tzhour * 3600 + tzminute * 60 + tzsecond),
                             tzsign * tzmicrosecond))
        end
  end.

(** [tzinfo_from_isoformat_results]: an offset of zero seconds is UTC,
    any other must lie strictly within a day. *)
Definition tzinfo_from_isoformat_results (tz : option (Z * Z))
  : option (option Z) :=
  match tz with
  | None => Some None
  | Some (tzoffset, tz_useconds) =>
      if tzoffset =? 0 then Some (Some 0)
      else
        let us := tzoffset * 1000000 + tz_useconds in
        if (-86400000000 <? us) && (us <? 86400000000)
        then Some (Some us) else None
  end.

(** The range checks of the [datetime] constructor. *)
Definition check_date_args (y m d : Z) : bool :=
  (1 <=? y) && (y <=? 9999) && (1 <=? m) && (m <=? 12) &&
  (1 <=? d) && (d <=? days_in_month y m).

Definition check_time_args (h mi sec us : Z) : bool :=
  (0 <=? h) && (h <=? 23) && (0 <=? mi) && (mi <=? 59) &&
  (0 <=? sec) && (sec <=? 59) && (0 <=? us) && (us <=? 999999).

(** Bytes taken by the separator: one UTF-8 encoded character. *)
Definition separator_width (c : ascii) : nat :=
  let n := nat_of_ascii c in
  if (n <? 128)%nat then 1%nat
  else if (224 <=? n)%nat && (n <? 240)%nat then 3%nat
  else if (240 <=? n)%nat then 4%nat
  else 2%nat.

Definition fromisoformat (s : string) : result datetime :=
  let len := String.length s in
  if (len <? 7)%nat then Raise ValueError
  else
    match find_isoformat_datetime_separator s len with
    | None => Raise ValueError
    | Some separator_location =>
        match parse_isoformat_date s separator_location with
        | None => Raise ValueError
        | Some (y, m, d) =>
            let time :=
              if (separator_location <? len)%nat then
                let p := (separator_location
                          + separator_width (char_at s separator_location))%nat in
                parse_isoformat_time s p (len - p)
              else Some (0, 0, 0, 0, None) in
            match time with
            | None => Raise ValueError
            | Some (h, mi, sec, us, tz) =>
                match tzinfo_from_isoformat_results tz with
                | None => Raise ValueError
                | Some tzi =>
                    if check_date_args y m d && check_time_args h mi sec us
                    then Ok (mkDatetime y m d h mi sec us tzi)
                    else Raise ValueError
                end
            end
        end
    end.

End ISO.

(** ** [strftime]

    The two formats of the source.  [%Y] is printed the way the C library
    of Linux prints it, without padding; the other fields have a fixed
    width. *)
Definition strftime_tcx (d : datetime) : string :=
  (* '%Y-%m-%dT%H:%M:%S.%fZ' *)
  PyInt.str (year d) ++ "-" ++ PyInt.pad 2 (month d) "" ++ "-" ++
  PyInt.pad 2 (day d) "" ++ "T" ++ PyInt.pad 2 (hour d) "" ++ ":" ++
  PyInt.pad 2 (minute d) "" ++ ":" ++ PyInt.pad 2 (second d) "" ++ "." ++
  PyInt.pad 6 (microsecond d) "" ++ "Z".

Definition strftime_file (d : datetime) : string :=
  (* '%Y-%m-%d_%H%M%S' *)
  PyInt.str (year d) ++ "-" ++ PyInt.pad 2 (month d) "" ++ "-" ++
  PyInt.pad 2 (day d) "" ++ "_" ++ PyInt.pad 2 (hour d) "" ++
  PyInt.pad 2 (minute d) "" ++ PyInt.pad 2 (second d) "".

(* ===================================================================== *)
(** * ElementTree documents *)
(* ===================================================================== *)

(** An [xml.etree.ElementTree.Element]: tag, attributes in insertion order,
    text and children.  A namespaced tag is spelled ["{uri}local"], as
    ElementTree stores it. *)
Inductive Element : Type :=
| Elem (tag : string) (attrib : list (string * string))
       (text : option string) (children : list Element).

Definition tag (e : Element) : string :=
  match e with Elem t _ _ _ => t end.
Definition attrib (e : Element) : list (string * string) :=
  match e with Elem _ a _ _ => a end.
Definition text (e : Element) : option string :=
  match e with Elem _ _ t _ => t end.
Definition children (e : Element) : list Element :=
  match e with Elem _ _ _ c => c end.

Module ET.

(** [elem.get(key)] *)
Fixpoint lookup (key : string) (a : list (string * string)) : option string :=
  match a with
  | [] => None
  | (k, v) :: a' => if String.eqb k key then Some v else lookup key a'
  end.

Definition get (e : Element) (key : string) : option string :=
  lookup key (attrib e).

(** [elem.get(key, default)] with a string default. *)
Definition get_default (e : Element) (key default : string) : string :=
  match get e key with Some v => v | None => default end.

Definition has_tag (t : string) (e : Element) : bool := String.eqb (tag e) t.

(** [elem.iter()]: the element and its descendants in document order. *)
Fixpoint iter (e : Element) : list Element :=
  match e with
  | Elem _ _ _ cs => e :: flat_map iter cs
  end.

(** The elements [.//*] ranges over: every descendant, not [e] itself. *)
Definition descendants (e : Element) : list Element :=
  flat_map iter (children e).

(** [e.findall('.//t')] *)
Definition findall_desc (t : string) (e : Element) : list Element :=
  List.filter (has_tag t) (descendants e).

(** [e.findall('./t')] *)
Definition findall_child (t : string) (e : Element) : list Element :=
  List.filter (has_tag t) (children e).

(** [e.find('./t')] *)
Definition find_child (t : string) (e : Element) : option Element :=
  head (findall_child t e).

(** [e.find('.//t[@key="value"]')] *)
Definition find_desc_attr (t key value : string) (e : Element)
  : option Element :=
  head (List.filter
          (fun x => match get x key with
                    | Some v => String.eqb v value
                    | None => false
                    end)
          (findall_desc t e)).

(** [e.find('.//t1/t2')] *)
Definition find_desc_child (t1 t2 : string) (e : Element) : option Element :=
  head (flat_map (findall_child t2) (findall_desc t1 e)).

End ET.

(* ===================================================================== *)
(** * The interpreter and the platform *)
(* ===================================================================== *)

(** What the converter takes from outside the repository: the text form
    of numbers, the lower-case form of a text, [pathlib] paths and the file
    system under them.  The converter is defined, and its properties are
    proved, for every implementation of this interface; an operation on
    files may raise any exception. *)
Class Runtime : Type := {
  (** [float(s)] and [int(s)] on a string; [None] is a [ValueError]. *)
  float_of_str : string -> option float;
  int_of_str : string -> option Z;
  (** [str(x)] on a float. *)
  str_of_float : float -> string;
  (** [s.lower()], the lower-case form Unicode gives a text. *)
  str_lower : string -> string;
  (** [pathlib.Path] and its [/] operator. *)
  Path : Type;
  joinpath : Path -> string -> Path;
  (** The state of the file system. *)
  FS : Type;
  (** [p.exists()]: the file system answers that the path is there or is
      not, or the question itself fails.  [pathlib] turns the errors that
      mean the path is missing into [False] and raises every other
      [OSError], such as the one for a name that is too long. *)
  path_exists : FS -> Path -> result bool;
  (** [ET.parse(p).getroot()] *)
  ET_parse : FS -> Path -> result Element;
  (** [p.mkdir(parents=..., exist_ok=True)] *)
  mkdir : bool -> Path -> FS -> result unit * FS;
  (** [ET.indent(tree, space="  ", level=0)] followed by
      [tree.write(p, encoding='utf-8', xml_declaration=True)] for the tree
      rooted at the given element. *)
  ET_write : Path -> Element -> FS -> result unit * FS
}.

(* ===================================================================== *)
(** * Records of the pipeline *)
(* ===================================================================== *)

Module HeartRate.
(** The value of [workout_data['heart_rate']] when it is not [None]. *)
Record t : Type := mk { avg : float; min : Z; max : Z }.
End HeartRate.

Section Records.
Context {R : Runtime}.

(** The dict built by [extract_workout_data]. *)
Record workout : Type := mkWorkout {
  sport : string;
  start_time : datetime;
  end_time : datetime;
  duration_minutes : float;
  heart_rate : option HeartRate.t;
  distance : option float;
  calories : option float;
  elevation_gain : option float;
  gpx_file : option Path
}.

(** The dict appended by [parse_gpx_file] for one track point. *)
Record trackpoint : Type := mkTrackpoint {
  lat : float;
  lon : float;
  elevation : num;
  time : datetime;
  speed : option float
}.

(** The fields set by [__init__]. *)
Record AppleWorkoutConverter : Type := mkConverter {
  export_dir : Path;
  export_xml : Path;
  routes_dir : Path
}.

Definition init (export_dir : Path) : AppleWorkoutConverter :=
  {| export_dir := export_dir;
     export_xml := joinpath export_dir "export.xml";
     routes_dir := joinpath export_dir "workout-routes" |}.

(** One constructor for each [print] of the source, holding the values
    the f-string interpolates. *)
Inductive Line : Type :=
| FoundTotal (n : nat)
| WorkoutSource (i : nat) (source_name : string)
| FoundAppleWatch (n : nat)
| ParsedWithData (n : nat)
| GpxError (gpx_file : Path) (e : exn)
| NoHrError (start_time : datetime) (e : exn)
| Converted (filename : string)
| SportLine (sport : string)
| DurationLine (duration_minutes : float)
| DistanceLine (distance : float)
| HrLine (hr : HeartRate.t)
| BlankLine
| ConvertError (start_time : datetime) (e : exn)
| SummaryHeader
| SummaryWithHr (converted_count : Z) (output_dir : Path)
| SummaryNoHr (no_hr_count : Z) (no_hr_dir : Path)
| SummaryTotal (total : Z).

(** What a method can change: the lines printed so far, oldest first,
    and the file system. *)
Record World : Type := mkWorld {
  stdout : list Line;
  fs : FS
}.

(** A method that may print, touch the file system and raise. *)
Definition M (A : Type) : Type := World -> result A * World.

Definition ret {A} (a : A) : M A := fun w => (Ok a, w).

Definition bind {A B} (c : M A) (k : A -> M B) : M B :=
  fun w =>
    match c w with
    | (Ok a, w') => k a w'
    | (Raise e, w') => (Raise e, w')
    end.

Definition lift {A} (r : result A) : M A := fun w => (r, w).

Definition print (l : Line) : M unit :=
  fun w => (Ok tt, {| stdout := stdout w ++ [l]; fs := fs w |}).

(** A file-system operation of the runtime as a method step. *)
Definition on_fs {A} (op : FS -> result A * FS) : M A :=
  fun w =>
    let '(r, fs') := op (fs w) in
    (r, {| stdout := stdout w; fs := fs' |}).

(** [try: body / except Exception as e: handler(e)] *)
Definition try_except {A} (body : M A) (handler : exn -> M A) : M A :=
  fun w =>
    match body w with
    | (Ok a, w') => (Ok a, w')
    | (Raise e, w') => handler e w'
    end.

End Records.

Declare Scope io_scope.
Delimit Scope io_scope with io.
Notation "'let*' x := c 'in' k" := (bind c (fun x => k))
  (at level 10, x name, c at level 100, k at level 200) : io_scope.

(* ===================================================================== *)
(** * The converter *)
(* ===================================================================== *)

(** [int(x)] on a float. *)
Definition int_of_float (x : float) : result Z :=
  match x with
  | S754_infinity _ => Raise OverflowError
  | S754_nan => Raise ValueError
  | _ => Ok (PyFloat.trunc x)
  end.

(** [f"{z:02d}"] *)
Definition format_02d (z : Z) : string :=
  if (0 <=? z) && (z <? 10) then "0" ++ PyInt.str z else PyInt.str z.

(** The dict literal of [convert_activity_type]. *)
Definition mapping : gmap string string :=
  <["HKWorkoutActivityTypeSwimming" := "Swimming"]>
  (<["HKWorkoutActivityTypeHiking" := "Other"]>
  (<["HKWorkoutActivityTypeCycling" := "Biking"]>
  (<["HKWorkoutActivityTypeWalking" := "Walking"]>
  (<["HKWorkoutActivityTypeRunning" := "Running"]> ∅)))).

(** [mapping.get(apple_type, 'Other')] *)
Definition convert_activity_type (apple_type : string) : string :=
  default "Other" (mapping !! apple_type).

Definition parse_apple_date (date_str : string) : result datetime :=
  ISO.fromisoformat date_str.

(** The tags the GPX namespace map [ns] expands to. *)
Definition gpx_ns : string := "{http://www.topografix.com/GPX/1/1}".
Definition gpx_trkpt : string := gpx_ns ++ "trkpt".
Definition gpx_ele : string := gpx_ns ++ "ele".
Definition gpx_time : string := gpx_ns ++ "time".
Definition gpx_extensions : string := gpx_ns ++ "extensions".

Section Converter.
Context {R : Runtime}.

(** [float(s)] *)
Definition float_str (s : string) : result float :=
  match float_of_str s with Some x => Ok x | None => Raise ValueError end.

(** [int(s)] *)
Definition int_str (s : string) : result Z :=
  match int_of_str s with Some z => Ok z | None => Raise ValueError end.

(** [float(elem.get(key, 0))] *)
Definition float_get (elem : Element) (key : string) : result float :=
  match ET.get elem key with
  | Some s => float_str s
  | None => Ok (PyFloat.of_Z 0)
  end.

(** [int(elem.get(key, 0))] *)
Definition int_get (elem : Element) (key : string) : result Z :=
  match ET.get elem key with
  | Some s => int_str s
  | None => Ok 0
  end.

(** [float(elem.text)]: [float(None)] is a [TypeError]. *)
Definition float_text (elem : Element) : result float :=
  match text elem with
  | Some s => float_str s
  | None => Raise TypeError
  end.

(** ** [extract_workout_data] *)

(** The body of the loop over [WorkoutStatistics]: the three optional
    fields before and after one [stat]. *)
Definition extract_stat (stat : Element)
    (acc : option HeartRate.t * option float * option float)
  : result (option HeartRate.t * option float * option float) :=
  let '(hr, dist, cal) := acc in
  let stat_type := ET.get_default stat "type" "" in
  if PyStr.contains "HeartRate" stat_type then
    (let* a := float_get stat "average" in
     let* mn := int_get stat "minimum" in
     let* mx := int_get stat "maximum" in
     Ok (Some (HeartRate.mk a mn mx), dist, cal))%res
  else if PyStr.contains "DistanceWalkingRunning" stat_type then
    (let* d := float_get stat "sum" in Ok (hr, Some d, cal))%res
  else if PyStr.contains "ActiveEnergyBurned" stat_type then
    (let* c := float_get stat "sum" in Ok (hr, dist, Some c))%res
  else Ok acc.

Fixpoint extract_stats (stats : list Element)
    (acc : option HeartRate.t * option float * option float)
  : result (option HeartRate.t * option float * option float) :=
  match stats with
  | [] => Ok acc
  | stat :: stats' =>
      (let* acc' := extract_stat stat acc in extract_stats stats' acc')%res
  end.

Definition extract_workout_data (self : AppleWorkoutConverter)
    (workout_elem : Element) : result (option workout) :=
  let activity_type := ET.get_default workout_elem "workoutActivityType" "" in
  let start_date := ET.get_default workout_elem "startDate" "" in
  let end_date := ET.get_default workout_elem "endDate" "" in
  (let* duration := float_get workout_elem "duration" in
   if negb (PyStr.truthy start_date) || negb (PyStr.truthy end_date)
   then Ok None
   else
     let sport := convert_activity_type activity_type in
     let* start_dt := parse_apple_date start_date in
     let* end_dt := parse_apple_date end_date in
     let* stats :=
       extract_stats (ET.findall_desc "WorkoutStatistics" workout_elem)
                     (None, None, None) in
     let '(hr, dist, cal) := stats in
     let* elevation_gain :=
       match ET.find_desc_attr "MetadataEntry" "key" "HKElevationAscended"
                               workout_elem with
       | Some elevation_elem =>
           let elevation_str := ET.get_default elevation_elem "value" "0 cm" in
           let* elevation_cm := float_str (PyStr.replace " cm" "" elevation_str) in
           Ok (Some (PyFloat.div elevation_cm (PyFloat.of_Z 100)))
       | None => Ok None
       end in
     let gpx :=
       match ET.find_desc_child "WorkoutRoute" "FileReference" workout_elem with
       | Some route_elem =>
           let gpx_path := ET.get_default route_elem "path" "" in
           if PyStr.startswith "/workout-routes/" gpx_path
           then Some (joinpath (routes_dir self)
                               (PyStr.replace "/workout-routes/" "" gpx_path))
           else None
       | None => None
       end in
     Ok (Some {| sport := sport;
                 start_time := start_dt;
                 end_time := end_dt;
                 duration_minutes := duration;
                 heart_rate := hr;
                 distance := dist;
                 calories := cal;
                 elevation_gain := elevation_gain;
                 gpx_file := gpx |}))%res.

(** ** [parse_apple_workouts] *)

(** The test of the source on [sourceName]. *)
Definition is_apple_watch (workout : Element) : bool :=
  let source_name := ET.get_default workout "sourceName" "" in
  PyStr.contains "Apple Watch" source_name
  || PyStr.contains "Bharat" source_name.

(** The [for i, workout in enumerate(all_workouts)] loop, from index [i]
    on, with the values of [apple_watch_count] and [workouts] so far. *)
Fixpoint parse_loop (self : AppleWorkoutConverter) (i : nat)
    (all_workouts : list Element) (apple_watch_count : nat)
    (workouts : list workout) : M (nat * list workout) :=
  match all_workouts with
  | [] => ret (apple_watch_count, workouts)
  | workout :: rest =>
      let source_name := ET.get_default workout "sourceName" "" in
      (let* _ := (if (i <? 5)%nat
                  then print (WorkoutSource i source_name)
                  else ret tt) in
       if is_apple_watch workout then
         let* workout_data := lift (extract_workout_data self workout) in
         parse_loop self (S i) rest (S apple_watch_count)
                    (match workout_data with
                     | Some w => workouts ++ [w]
                     | None => workouts
                     end)
       else parse_loop self (S i) rest apple_watch_count workouts)%io
  end.

Definition parse_apple_workouts (self : AppleWorkoutConverter)
  : M (list workout) :=
  (let* root := (fun w => (ET_parse (fs w) (export_xml self), w)) in
   let all_workouts := ET.findall_desc "Workout" root in
   let* _ := print (FoundTotal (length all_workouts)) in
   let* r := parse_loop self 0 all_workouts 0 [] in
   let* _ := print (FoundAppleWatch (fst r)) in
   let* _ := print (ParsedWithData (length (snd r))) in
   ret (snd r))%io.

(** ** [parse_gpx_file] *)

(** One pass of the loop over [trkpt] elements: [None] is the
    [continue] taken when the point has no [time] child. *)
Definition parse_trkpt (trkpt : Element) : result (option trackpoint) :=
  (let* lat := float_get trkpt "lat" in
   let* lon := float_get trkpt "lon" in
   let* elevation :=
     match ET.find_child gpx_ele trkpt with
     | Some ele_elem => let* x := float_text ele_elem in Ok (NFloat x)
     | None => Ok (NInt 0)
     end in
   match ET.find_child gpx_time trkpt with
   | None => Ok None
   | Some time_elem =>
       let* timestamp :=
         match text time_elem with
         | Some s => ISO.fromisoformat (PyStr.replace "Z" "+00:00" s)
         | None => Raise AttributeError
         end in
       let* speed :=
         match ET.find_child gpx_extensions trkpt with
         | Some extensions =>
             match ET.find_child "speed" extensions with
             | Some speed_elem =>
                 let* x := float_text speed_elem in Ok (Some x)
             | None => Ok None
             end
         | None => Ok None
         end in
       Ok (Some {| lat := lat; lon := lon; elevation := elevation;
                   time := timestamp; speed := speed |})
   end)%res.

Fixpoint trkpt_loop (trkpts : list Element) (trackpoints : list trackpoint)
  : result (list trackpoint) :=
  match trkpts with
  | [] => Ok trackpoints
  | trkpt :: rest =>
      (let* r := parse_trkpt trkpt in
       trkpt_loop rest (match r with
                        | Some tp => trackpoints ++ [tp]
                        | None => trackpoints
                        end))%res
  end.

(** The statements of the [try] block after [root = tree.getroot()]. *)
Definition parse_gpx_root (root : Element) : result (list trackpoint) :=
  trkpt_loop (ET.findall_desc gpx_trkpt root) [].

Definition parse_gpx_file (self : AppleWorkoutConverter)
    (gpx_file : option Path) : M (list trackpoint) :=
  match gpx_file with
  | None => ret []
  | Some f =>
      (let* there := (fun w => (path_exists (fs w) f, w)) in
       if negb there then ret []
       else
         try_except
           (let* root := (fun w => (ET_parse (fs w) f, w)) in
            lift (parse_gpx_root root))
           (fun e => let* _ := print (GpxError f e) in ret []))%io
  end.

End Converter.

Section Builders.
Context {R : Runtime}.

(** An element without attributes or children holding a text:
    [e = ET.SubElement(parent, tag); e.text = s]. *)
Definition leaf (t s : string) : Element := Elem t [] (Some s) [].

(** [str(x)] for the elevation of a track point. *)
Definition str_of_num (n : num) : string :=
  match n with
  | NInt z => PyInt.str z
  | NFloat x => str_of_float x
  end.

(** The attributes set on the root element. *)
Definition tcx_attrib : list (string * string) :=
  [("xmlns", "http://www.garmin.com/xmlschemas/TrainingCenterDatabase/v2");
   ("xmlns:xsi", "http://www.w3.org/2001/XMLSchema-instance");
   ("xsi:schemaLocation",
    ("http://www.garmin.com/xmlschemas/TrainingCenterDatabase/v2 " ++
     "http://www.garmin.com/xmlschemas/TrainingCenterDatabasev2.xsd")%string)].

(** The [Creator] block closing the activity. *)
Definition creator : Element :=
  Elem "Creator" [("xsi:type", "Device_t")] None
    [leaf "Name" "Apple Watch"; leaf "UnitId" "0"; leaf "ProductID" "0"].

(** [TotalTimeSeconds] *)
Definition total_time_elem (workout_data : workout) : Element :=
  leaf "TotalTimeSeconds"
    (str_of_float (PyFloat.mul (duration_minutes workout_data) (PyFloat.of_Z 60))).

(** [if workout_data['distance']: ...] *)
Definition distance_elems (workout_data : workout) : list Element :=
  match distance workout_data with
  | Some d =>
      if PyFloat.truthy d
      then [leaf "DistanceMeters" (str_of_float (PyFloat.mul d (PyFloat.of_Z 1000)))]
      else []
  | None => []
  end.

(** [if workout_data['calories']: ...] *)
Definition calories_elems (workout_data : workout) : result (list Element) :=
  match calories workout_data with
  | Some c =>
      if PyFloat.truthy c
      then (let* n := int_of_float c in Ok [leaf "Calories" (PyInt.str n)])%res
      else Ok []
  | None => Ok []
  end.

(** [if workout_data['heart_rate']: ...] in the lap: a dict with three
    keys is true, so the test is on presence. *)
Definition heart_rate_elems (workout_data : workout) : result (list Element) :=
  match heart_rate workout_data with
  | Some hr =>
      (let* a := int_of_float (HeartRate.avg hr) in
       Ok [Elem "AverageHeartRateBpm" [] None [leaf "Value" (PyInt.str a)];
           Elem "MaximumHeartRateBpm" [] None
             [leaf "Value" (PyInt.str (HeartRate.max hr))]])%res
  | None => Ok []
  end.

(** The children every [Trackpoint] gets: time, position, altitude. *)
Definition trackpoint_base (tp : trackpoint) : list Element :=
  [leaf "Time" (strftime_tcx (time tp));
   Elem "Position" [] None
     [leaf "LatitudeDegrees" (str_of_float (lat tp));
      leaf "LongitudeDegrees" (str_of_float (lon tp))];
   leaf "AltitudeMeters" (str_of_num (elevation tp))].

(** One pass of the track point loop of [create_tcx]. *)
Definition trackpoint_elem (workout_data : workout) (tp : trackpoint)
  : result Element :=
  match heart_rate workout_data with
  | Some hr =>
      (let* a := int_of_float (HeartRate.avg hr) in
       Ok (Elem "Trackpoint" [] None
             (trackpoint_base tp ++
              [Elem "HeartRateBpm" [] None [leaf "Value" (PyInt.str a)]])))%res
  | None => Ok (Elem "Trackpoint" [] None (trackpoint_base tp))
  end.

(** One pass of the track point loop of [create_tcx_no_hr]. *)
Definition trackpoint_elem_no_hr (tp : trackpoint) : Element :=
  Elem "Trackpoint" [] None (trackpoint_base tp).

(** The tree around the children of the lap. *)
Definition tcx_document (workout_data : workout) (lap_children : list Element)
  : Element :=
  Elem "TrainingCenterDatabase" tcx_attrib None
    [Elem "Activities" [] None
       [Elem "Activity" [("Sport", sport workout_data)] None
          [leaf "Id" (strftime_tcx (start_time workout_data));
           Elem "Lap" [("StartTime", strftime_tcx (start_time workout_data))]
                None lap_children;
           creator]]].

Definition create_tcx (self : AppleWorkoutConverter) (workout_data : workout)
  : M Element :=
  (let total_time := total_time_elem workout_data in
   let distance_m := distance_elems workout_data in
   let* calories := lift (calories_elems workout_data) in
   let* hr := lift (heart_rate_elems workout_data) in
   let* trackpoints := parse_gpx_file self (gpx_file workout_data) in
   let* track :=
     lift (match trackpoints with
           | [] => Ok []
           | _ :: _ =>
               (let* tps := rmap (trackpoint_elem workout_data) trackpoints in
                Ok [Elem "Track" [] None tps])%res
           end) in
   ret (tcx_document workout_data
          (total_time :: distance_m ++ calories ++ hr ++ track)))%io.

Definition create_tcx_no_hr (self : AppleWorkoutConverter)
    (workout_data : workout) : M Element :=
  (let total_time := total_time_elem workout_data in
   let distance_m := distance_elems workout_data in
   let* calories := lift (calories_elems workout_data) in
   let* trackpoints := parse_gpx_file self (gpx_file workout_data) in
   let track :=
     match trackpoints with
     | [] => []
     | _ :: _ => [Elem "Track" [] None (map trackpoint_elem_no_hr trackpoints)]
     end in
   ret (tcx_document workout_data
          (total_time :: distance_m ++ calories ++ track)))%io.

(** ** [convert_workouts] *)

(** [{start_time_str}_{workout['sport']}.tcx] *)
Definition tcx_filename (workout : workout) : string :=
  strftime_file (start_time workout) ++ "_" ++ sport workout ++ ".tcx".

(** [base / str(start_time.year) / f"{start_time.month:02d}"] *)
Definition year_month (base : Path) (workout : workout) : Path :=
  joinpath (joinpath base (PyInt.str (year (start_time workout))))
           (format_02d (month (start_time workout))).

(** The [try] block of a workout without heart rate. *)
Definition write_no_hr (self : AppleWorkoutConverter) (no_hr_dir : Path)
    (workout : workout) : M unit :=
  (let* tcx := create_tcx_no_hr self workout in
   let year_month_no_hr_dir := year_month no_hr_dir workout in
   let* _ := on_fs (mkdir true year_month_no_hr_dir) in
   let output_file := joinpath year_month_no_hr_dir (tcx_filename workout) in
   on_fs (ET_write output_file tcx))%io.

(** The [try] block of a workout with heart rate. *)
Definition write_hr (self : AppleWorkoutConverter) (output_dir : Path)
    (workout : workout) : M unit :=
  (let* tcx := create_tcx self workout in
   let year_month_dir := year_month output_dir workout in
   let* _ := on_fs (mkdir true year_month_dir) in
   let filename := tcx_filename workout in
   let output_file := joinpath year_month_dir filename in
   let* _ := on_fs (ET_write output_file tcx) in
   let* _ := print (Converted filename) in
   let* _ := print (SportLine (sport workout)) in
   let* _ := print (DurationLine (duration_minutes workout)) in
   let* _ := match distance workout with
             | Some d => if PyFloat.truthy d then print (DistanceLine d) else ret tt
             | None => ret tt
             end in
   let* _ := match heart_rate workout with
             | Some hr => print (HrLine hr)
             | None => ret tt
             end in
   print BlankLine)%io.

(** The [for workout in workouts] loop, with the two counters. *)
Fixpoint convert_loop (self : AppleWorkoutConverter)
    (output_dir no_hr_dir : Path) (workouts : list workout)
    (converted_count no_hr_count : Z) : M (Z * Z) :=
  match workouts with
  | [] => ret (converted_count, no_hr_count)
  | workout :: rest =>
      match heart_rate workout with
      | None =>
          (let* no_hr_count :=
             try_except
               (let* _ := write_no_hr self no_hr_dir workout in
                ret (no_hr_count + 1))
               (fun e =>
                  let* _ := print (NoHrError (start_time workout) e) in
                  ret no_hr_count) in
           convert_loop self output_dir no_hr_dir rest
                        converted_count no_hr_count)%io
      | Some _ =>
          (let* converted_count :=
             try_except
               (let* _ := write_hr self output_dir workout in
                ret (converted_count + 1))
               (fun e =>
                  let* _ := print (ConvertError (start_time workout) e) in
                  ret converted_count) in
           convert_loop self output_dir no_hr_dir rest
                        converted_count no_hr_count)%io
      end
  end.

(** Lines 345 to 406: the counters, the loop, the summary, the result. *)
Definition convert_all (self : AppleWorkoutConverter)
    (output_dir no_hr_dir : Path) (workouts : list workout) : M Z :=
  (let* counts := convert_loop self output_dir no_hr_dir workouts 0 0 in
   let '(converted_count, no_hr_count) := counts in
   let* _ := print SummaryHeader in
   let* _ := print (SummaryWithHr converted_count output_dir) in
   let* _ := print (SummaryNoHr no_hr_count no_hr_dir) in
   let* _ := print (SummaryTotal (converted_count + no_hr_count)) in
   ret (converted_count + no_hr_count))%io.

Definition convert_workouts (self : AppleWorkoutConverter)
    (output_dir : option Path) (activity_filter : option string) : M Z :=
  (let output_dir :=
     match output_dir with
     | None => joinpath (export_dir self) "tcx_files"
     | Some d => d
     end in
   let* _ := on_fs (mkdir false output_dir) in
   let* workouts := parse_apple_workouts self in
   let workouts :=
     match activity_filter with
     | Some f =>
         if PyStr.truthy f
         then List.filter
                (fun w => PyStr.contains (str_lower f) (str_lower (sport w)))
                workouts
         else workouts
     | None => workouts
     end in
   let no_hr_dir := joinpath output_dir "no_heart_rate" in
   let* _ := on_fs (mkdir false no_hr_dir) in
   convert_all self output_dir no_hr_dir workouts)%io.

End Builders.

(* ===================================================================== *)
(** * A runtime to compute with *)
(* ===================================================================== *)

(** An implementation of [Runtime] on which the converter can be run:
    decimal text for floats, paths as lists of components and a file system
    held in a finite map.  It serves the examples; no theorem about the
    converter depends on it. *)
Module Sample.

(** *** Text to float *)

(** The float nearest to [num / den], ties to even. *)
Definition float_of_ratio (neg : bool) (num den : Z) : float :=
  match num with
  | Zpos _ =>
      let '(q, e, l) :=
        SFdiv_core_binary PyFloat.prec PyFloat.emax num 0 den 0 in
      binary_round_aux PyFloat.prec PyFloat.emax neg q e l
  | _ => S754_zero neg
  end.

(** The float nearest to [n * 10^e]. *)
Definition float_of_decimal (neg : bool) (n e : Z) : float :=
  match e with
  | Zneg k => float_of_ratio neg n (10 ^ Zpos k)
  | _ => float_of_ratio neg (n * 10 ^ e) 1
  end.

(** Leading decimal digits of [s]: their value, their count, the rest. *)
Fixpoint read_digits (s : string) (acc : Z) (count : nat) : Z * nat * string :=
  match s with
  | String c s' =>
      if ISO.is_digit c
      then read_digits s' (acc * 10 + ISO.digit_val c) (S count)
      else (acc, count, s)
  | EmptyString => (acc, count, s)
  end.

Definition read_sign (s : string) : bool * string :=
  match s with
  | String "-" s' => (true, s')
  | String "+" s' => (false, s')
  | _ => (false, s)
  end.

(** [int(s)] for an optional sign and decimal digits. *)
Definition int_of_str (s : string) : option Z :=
  let '(neg, s1) := read_sign s in
  match read_digits s1 0 0 with
  | (n, S _, EmptyString) => Some (if neg then - n else n)
  | _ => None
  end.

(** [float(s)] for [sign digits [. digits] [e sign digits]], [inf] and
    [nan].  Python also accepts surrounding blanks, underscores between
    digits and other spellings of the special values; those are refused
    here. *)
Definition float_of_str (s : string) : option float :=
  let '(neg, s1) := read_sign s in
  if String.eqb s1 "inf" then Some (S754_infinity neg)
  else if String.eqb s1 "nan" then Some S754_nan
  else
    let '(ip, icount, s2) := read_digits s1 0 0 in
    let '(n, fcount, s3) :=
      match s2 with
      | String "." s2' =>
          let '(n, fcount, s3) := read_digits s2' ip 0 in (n, fcount, s3)
      | _ => (ip, O, s2)
      end in
    if (icount + fcount =? 0)%nat then None
    else
      match s3 with
      | EmptyString => Some (float_of_decimal neg n (- Z.of_nat fcount))
      | String c s4 =>
          if Ascii.eqb c "e" || Ascii.eqb c "E" then
            let '(eneg, s5) := read_sign s4 in
            match read_digits s5 0 0 with
            | (ex, S _, EmptyString) =>
                Some (float_of_decimal neg n
                        ((if eneg then - ex else ex) - Z.of_nat fcount))
            | _ => None
            end
          else None
      end.

(** *** Float to text *)

(** [num / den] rounded to the nearest integer, ties to even. *)
Definition round_ratio (num den : Z) : Z :=
  let q := num / den in
  let r := num mod den in
  match 2 * r ?= den with
  | Lt => q
  | Gt => q + 1
  | Eq => if Z.even q then q else q + 1
  end.

(** [num / den * 10^p] as a ratio. *)
Definition scale10 (num den p : Z) : Z * Z :=
  match p with
  | Zneg k => (num, den * 10 ^ Zpos k)
  | _ => (num * 10 ^ p, den)
  end.

(** The largest [k] with [10^k <= num / den], searched from [k] down.
    The search starts just above the estimate the binary logarithms give. *)
Fixpoint exponent10 (fuel : nat) (num den k : Z) : Z :=
  match fuel with
  | O => k
  | S fuel' =>
      let '(a, b) := scale10 num den (- k) in
      if b <=? a then k else exponent10 fuel' num den (k - 1)
  end.

(** The shortest run of [n], [n+1], ... 17 digits that reads back as
    [x]: the digits as a number and their decimal exponent. *)
Fixpoint shortest (fuel : nat) (x : float) (num den k : Z) (n : Z) : Z * Z :=
  let '(a, b) := scale10 num den (n - 1 - k) in
  let q := round_ratio a b in
  match fuel with
  | O => (q, k - n + 1)
  | S fuel' =>
      if SFeqb (float_of_decimal false q (k - n + 1)) x
      then (q, k - n + 1)
      else shortest fuel' x num den k (n + 1)
  end.

Fixpoint strip_zeros (fuel : nat) (q e : Z) : Z * Z :=
  match fuel with
  | O => (q, e)
  | S fuel' =>
      if (q mod 10 =? 0) && negb (q =? 0)
      then strip_zeros fuel' (q / 10) (e + 1) else (q, e)
  end.

Fixpoint zeros (n : nat) : string :=
  match n with O => "" | S n' => String "0" (zeros n') end.

(** The layout [repr] gives to the digits [q] times [10^e]. *)
Definition layout (q e : Z) : string :=
  let ds := PyInt.str q in
  let nd := Z.of_nat (String.length ds) in
  let decpt := nd + e in
  if (decpt <=? -4) || (16 <? decpt) then
    let ex := decpt - 1 in
    let mant :=
      match ds with
      | String d EmptyString => String d ""
      | String d rest => String d ("." ++ rest)
      | EmptyString => ""
      end in
    mant ++ "e" ++ (if ex <? 0 then "-" else "+")
         ++ (if Z.abs ex <? 10 then "0" else "") ++ PyInt.str (Z.abs ex)
  else if decpt <=? 0 then "0." ++ zeros (Z.to_nat (- decpt)) ++ ds
  else if nd <=? decpt then ds ++ zeros (Z.to_nat (decpt - nd)) ++ ".0"
  else substring 0 (Z.to_nat decpt) ds ++ "."
       ++ substring (Z.to_nat decpt) (Z.to_nat (nd - decpt)) ds.

(** [str(x)]: the fewest digits that read back as [x]. *)
Definition str_of_float (x : float) : string :=
  match x with
  | S754_zero s => if s then "-0.0" else "0.0"
  | S754_infinity s => if s then "-inf" else "inf"
  | S754_nan => "nan"
  | S754_finite s m e =>
      let '(num, den) :=
        match e with
        | Zneg k => (Zpos m, 2 ^ Zpos k)
        | _ => (Zpos m * 2 ^ e, 1)
        end in
      let k := exponent10 8 num den
                 ((Z.log2 num - Z.log2 den + 1) * 30103 / 100000 + 1) in
      let '(q, qe) := shortest 16 (S754_finite false m e) num den k 1 in
      let '(q, qe) := strip_zeros 20 q qe in
      (if s then "-" else "") ++ layout q qe
  end.

(** *** Lower case *)

(** [s.lower()] for a text of ASCII characters.  The bytes of other
    characters are left as they are: the texts of the examples have none. *)
Definition lower_ascii (c : ascii) : ascii :=
  let n := nat_of_ascii c in
  if ((65 <=? n) && (n <=? 90))%nat then ascii_of_nat (n + 32) else c.

Fixpoint str_lower (s : string) : string :=
  match s with
  | EmptyString => EmptyString
  | String c s' => String (lower_ascii c) (str_lower s')
  end.

(** *** Paths and files *)

(** The components of a path text, without the empty ones and ["."]. *)
Fixpoint components (s cur : string) : list string :=
  let flush := if String.eqb cur "" || String.eqb cur "." then [] else [cur] in
  match s with
  | EmptyString => flush
  | String c s' =>
      if Ascii.eqb c "/" then flush ++ components s' ""
      else components s' (cur ++ String c "")
  end.

(** [a / b]: an absolute [b] replaces [a]. *)
Definition joinpath (a : list string) (b : string) : list string :=
  if PyStr.startswith "/" b then components b "" else a ++ components b "".

(** A directory, or a file: a well-formed document with its root, or
    text that is not well-formed markup. *)
Inductive node : Type :=
| Dir
| File (content : option Element).

Definition ENOENT : Z := 2.
Definition EEXIST : Z := 17.
Definition ENOTDIR : Z := 20.
Definition EISDIR : Z := 21.
Definition ENAMETOOLONG : Z := 36.

(** A component of the path has more than the 255 bytes a name may have:
    every operation on such a path fails with [ENAMETOOLONG]. *)
Definition name_too_long (p : list string) : bool :=
  existsb (fun c => (255 <? String.length c)%nat) p.

Definition is_dir (fs : gmap (list string) node) (p : list string) : bool :=
  match p with
  | [] => true
  | _ => match fs !! p with Some Dir => true | _ => false end
  end.

Definition present (fs : gmap (list string) node) (p : list string) : bool :=
  match p with
  | [] => true
  | _ => match fs !! p with Some _ => true | None => false end
  end.

(** [p.exists()]: [stat] fails with [ENOENT] on a missing path, which
    [pathlib] turns into [False], and with [ENAMETOOLONG] on a name that is
    too long, which it raises. *)
Definition path_exists (fs : gmap (list string) node) (p : list string)
  : result bool :=
  if name_too_long p then Raise (OSError ENAMETOOLONG) else Ok (present fs p).

Definition ET_parse (fs : gmap (list string) node) (p : list string)
  : result Element :=
  if name_too_long p then Raise (OSError ENAMETOOLONG)
  else
    match fs !! p with
    | Some (File (Some root)) => Ok root
    | Some (File None) => Raise ParseError
    | Some Dir => Raise (OSError EISDIR)
    | None => if is_dir fs p then Raise (OSError EISDIR) else Raise (OSError ENOENT)
    end.

(** Create the directories [pre ++ [c1]], [pre ++ [c1; c2]], ... *)
Fixpoint mkdir_from (pre rest : list string) (fs : gmap (list string) node)
  : result unit * gmap (list string) node :=
  match rest with
  | [] => (Ok tt, fs)
  | c :: rest' =>
      let p := pre ++ [c] in
      match fs !! p with
      | Some Dir => mkdir_from p rest' fs
      | Some (File _) =>
          (Raise (OSError (match rest' with [] => EEXIST | _ => ENOTDIR end)), fs)
      | None => mkdir_from p rest' (<[p := Dir]> fs)
      end
  end.

Definition mkdir (parents : bool) (p : list string)
    (fs : gmap (list string) node) : result unit * gmap (list string) node :=
  if name_too_long p then (Raise (OSError ENAMETOOLONG), fs)
  else if parents then mkdir_from [] p fs
  else
    match fs !! p with
    | Some Dir => (Ok tt, fs)
    | Some (File _) => (Raise (OSError EEXIST), fs)
    | None =>
        match p with
        | [] => (Ok tt, fs)
        | _ =>
            if is_dir fs (removelast p) then (Ok tt, <[p := Dir]> fs)
            else if present fs (removelast p)
                 then (Raise (OSError ENOTDIR), fs)
                 else (Raise (OSError ENOENT), fs)
        end
    end.

Definition ET_write (p : list string) (root : Element)
    (fs : gmap (list string) node) : result unit * gmap (list string) node :=
  if name_too_long p then (Raise (OSError ENAMETOOLONG), fs)
  else if is_dir fs p then (Raise (OSError EISDIR), fs)
  else if is_dir fs (removelast p) then (Ok tt, <[p := File (Some root)]> fs)
  else if present fs (removelast p) then (Raise (OSError ENOTDIR), fs)
  else (Raise (OSError ENOENT), fs).

Definition runtime : Runtime :=
  Build_Runtime float_of_str int_of_str str_of_float str_lower
                (list string) joinpath
                (gmap (list string) node) path_exists ET_parse mkdir ET_write.

End Sample.

(** The documents of the repository's test suite
    ([test_convert_apple_workouts.py]); white space between elements is
    left out. *)
Module Fixture.

Definition stat (attrs : list (string * string)) : Element :=
  Elem "WorkoutStatistics" attrs None [].

Definition running : Element :=
  Elem "Workout"
    [("workoutActivityType", "HKWorkoutActivityTypeRunning");
     ("duration", "30.0"); ("durationUnit", "min");
     ("sourceName", "Bharat's Apple Watch"); ("sourceVersion", "10.0");
     ("creationDate", "2024-01-15 10:30:00 +0000");
     ("startDate", "2024-01-15 10:00:00 +0000");
     ("endDate", "2024-01-15 10:30:00 +0000")] None
    [Elem "MetadataEntry" [("key", "HKIndoorWorkout"); ("value", "0")] None [];
     Elem "MetadataEntry" [("key", "HKElevationAscended"); ("value", "500 cm")] None [];
     stat [("type", "HKQuantityTypeIdentifierHeartRate");
           ("startDate", "2024-01-15 10:00:00 +0000");
           ("endDate", "2024-01-15 10:30:00 +0000");
           ("average", "150"); ("minimum", "120"); ("maximum", "180");
           ("unit", "count/min")];
     stat [("type", "HKQuantityTypeIdentifierDistanceWalkingRunning");
           ("startDate", "2024-01-15 10:00:00 +0000");
           ("endDate", "2024-01-15 10:30:00 +0000");
           ("sum", "5.0"); ("unit", "km")];
     stat [("type", "HKQuantityTypeIdentifierActiveEnergyBurned");
           ("startDate", "2024-01-15 10:00:00 +0000");
           ("endDate", "2024-01-15 10:30:00 +0000");
           ("sum", "300"); ("unit", "Cal")];
     Elem "WorkoutRoute"
       [("sourceName", "Bharat's Apple Watch"); ("sourceVersion", "10.0");
        ("creationDate", "2024-01-15 10:30:01 +0000");
        ("startDate", "2024-01-15 10:00:00 +0000");
        ("endDate", "2024-01-15 10:30:00 +0000")] None
       [Elem "FileReference"
          [("path", "/workout-routes/route_2024-01-15_10.00am.gpx")] None []]].

Definition walking : Element :=
  Elem "Workout"
    [("workoutActivityType", "HKWorkoutActivityTypeWalking");
     ("duration", "45.0"); ("durationUnit", "min");
     ("sourceName", "Bharat's Apple Watch"); ("sourceVersion", "10.0");
     ("creationDate", "2024-01-16 14:00:00 +0000");
     ("startDate", "2024-01-16 13:15:00 +0000");
     ("endDate", "2024-01-16 14:00:00 +0000")] None
    [Elem "MetadataEntry" [("key", "HKIndoorWorkout"); ("value", "0")] None [];
     stat [("type", "HKQuantityTypeIdentifierDistanceWalkingRunning");
           ("startDate", "2024-01-16 13:15:00 +0000");
           ("endDate", "2024-01-16 14:00:00 +0000");
           ("sum", "3.0"); ("unit", "km")];
     Elem "WorkoutRoute"
       [("sourceName", "Bharat's Apple Watch"); ("sourceVersion", "10.0")] None
       [Elem "FileReference"
          [("path", "/workout-routes/route_2024-01-16_1.15pm.gpx")] None []]].

Definition strava : Element :=
  Elem "Workout"
    [("workoutActivityType", "HKWorkoutActivityTypeRunning");
     ("duration", "25.0"); ("durationUnit", "min");
     ("sourceName", "Strava"); ("sourceVersion", "1.0");
     ("creationDate", "2024-01-17 09:30:00 +0000");
     ("startDate", "2024-01-17 09:00:00 +0000");
     ("endDate", "2024-01-17 09:25:00 +0000")] None [].

Definition export_xml : Element :=
  Elem "HealthData" [] None
    [Elem "ExportDate" [("value", "2024-01-01 12:00:00 +0000")] None [];
     Elem "Me" [("HKCharacteristicTypeIdentifierDateOfBirth", "1990-01-01")] None [];
     running; walking; strava].

Definition gpx (local : string) : string := gpx_ns ++ local.

Definition trkpt (lon lat ele time speed course : string) : Element :=
  Elem (gpx "trkpt") [("lon", lon); ("lat", lat)] None
    [Elem (gpx "ele") [] (Some ele) [];
     Elem (gpx "time") [] (Some time) [];
     Elem (gpx "extensions") [] None
       [Elem (gpx "speed") [] (Some speed) [];
        Elem (gpx "course") [] (Some course) []]].

Definition route : Element :=
  Elem (gpx "gpx") [("version", "1.1"); ("creator", "Apple Health Export")] None
    [Elem (gpx "trk") [] None
       [Elem (gpx "name") [] (Some "Route 2024-01-15 10:00am") [];
        Elem (gpx "trkseg") [] None
          [trkpt "-2.60000" "51.44000" "100.0" "2024-01-15T10:00:00Z" "3.0" "45.0";
           trkpt "-2.59950" "51.44050" "101.0" "2024-01-15T10:00:10Z" "3.2" "47.0";
           trkpt "-2.59900" "51.44100" "102.0" "2024-01-15T10:00:20Z" "2.8" "43.0"]]].

(** The directory [setUp] prepares. *)
Definition files : gmap (list string) Sample.node :=
  <[["export"; "workout-routes"; "route_2024-01-15_10.00am.gpx"] :=
      Sample.File (Some route)]>
  (<[["export"; "workout-routes"] := Sample.Dir]>
  (<[["export"; "export.xml"] := Sample.File (Some export_xml)]>
  (<[["export"] := Sample.Dir]> ∅))).

Definition converter : @AppleWorkoutConverter Sample.runtime :=
  @init Sample.runtime ["export"].

Definition world : @World Sample.runtime :=
  @mkWorld Sample.runtime [] files.

(** The records the two Apple Watch entries of the archive give. *)
Definition running_record : @workout Sample.runtime :=
  @mkWorkout Sample.runtime
    "Running"
    (mkDatetime 2024 1 15 10 0 0 0 (Some 0))
    (mkDatetime 2024 1 15 10 30 0 0 (Some 0))
    (PyFloat.of_Z 30)
    (Some (HeartRate.mk (PyFloat.of_Z 150) 120 180))
    (Some (PyFloat.of_Z 5))
    (Some (PyFloat.of_Z 300))
    (Some (PyFloat.of_Z 5))
    (Some ["export"; "workout-routes"; "route_2024-01-15_10.00am.gpx"]).

Definition walking_record : @workout Sample.runtime :=
  @mkWorkout Sample.runtime
    "Walking"
    (mkDatetime 2024 1 16 13 15 0 0 (Some 0))
    (mkDatetime 2024 1 16 14 0 0 0 (Some 0))
    (PyFloat.of_Z 45)
    None
    (Some (PyFloat.of_Z 3))
    None
    None
    (Some ["export"; "workout-routes"; "route_2024-01-16_1.15pm.gpx"]).

(** *** Further entries *)

(** A workout on the spot: the distance statistic is there and is zero. *)
Definition still_walk : Element :=
  Elem "Workout"
    [("workoutActivityType", "HKWorkoutActivityTypeWalking");
     ("duration", "45.0"); ("sourceName", "Apple Watch");
     ("startDate", "2024-01-16 13:15:00 +0000");
     ("endDate", "2024-01-16 14:00:00 +0000")] None
    [stat [("type", "HKQuantityTypeIdentifierDistanceWalkingRunning");
           ("sum", "0"); ("unit", "km")]].

Definition still_walk_record : @workout Sample.runtime :=
  @mkWorkout Sample.runtime
    "Walking"
    (mkDatetime 2024 1 16 13 15 0 0 (Some 0))
    (mkDatetime 2024 1 16 14 0 0 0 (Some 0))
    (PyFloat.of_Z 45)
    None
    (Some (PyFloat.of_Z 0))
    None
    None
    None.

(** An Apple Watch entry without [endDate]. *)
Definition no_end_date : Element :=
  Elem "Workout"
    [("workoutActivityType", "HKWorkoutActivityTypeRunning");
     ("duration", "30.0"); ("sourceName", "Apple Watch");
     ("startDate", "2024-01-15 10:00:00 +0000")] None [].

(** An Apple Watch entry whose [startDate] is written day first. *)
Definition day_first : Element :=
  Elem "Workout"
    [("workoutActivityType", "HKWorkoutActivityTypeRunning");
     ("duration", "30.0"); ("sourceName", "Apple Watch");
     ("startDate", "15/01/2024 10:00:00 +0000");
     ("endDate", "2024-01-15 10:30:00 +0000")] None [].

(** The world of [setUp] with another archive in [export.xml]. *)
Definition world_of (workouts : list Element) : @World Sample.runtime :=
  @mkWorld Sample.runtime []
    (<[["export"; "export.xml"] :=
         Sample.File (Some (Elem "HealthData" [] None workouts))]> files).

(** A track of three points, the third without [time]. *)
Definition route_missing_time : Element :=
  Elem (gpx "gpx") [("version", "1.1")] None
    [Elem (gpx "trk") [] None
       [Elem (gpx "trkseg") [] None
          [trkpt "-2.60000" "51.44000" "100.0" "2024-01-15T10:00:00Z" "3.0" "45.0";
           trkpt "-2.59950" "51.44050" "101.0" "2024-01-15T10:00:10Z" "3.2" "47.0";
           Elem (gpx "trkpt") [("lon", "-2.59900"); ("lat", "51.44100")] None
             [Elem (gpx "ele") [] (Some "102.0") []]]]].

Definition missing_time_path : list string :=
  ["export"; "workout-routes"; "missing_time.gpx"].

Definition missing_time_world : @World Sample.runtime :=
  @mkWorld Sample.runtime []
    (<[missing_time_path := Sample.File (Some route_missing_time)]> files).

(** A record whose calories are infinite, as [sum="inf"] gives. *)
Definition endless_record : @workout Sample.runtime :=
  @mkWorkout Sample.runtime
    "Walking"
    (mkDatetime 2024 1 16 9 0 0 0 (Some 0))
    (mkDatetime 2024 1 16 9 30 0 0 (Some 0))
    (PyFloat.of_Z 30)
    None
    None
    (Some (S754_infinity false))
    None
    None.

End Fixture.

(* ===================================================================== *)
(** * Vocabulary of the specification *)
(* ===================================================================== *)

(** The five identifiers the specification calls known, and the sport
    categories of the output format. *)
Definition known_types : list string :=
  ["HKWorkoutActivityTypeRunning"; "HKWorkoutActivityTypeWalking";
   "HKWorkoutActivityTypeCycling"; "HKWorkoutActivityTypeHiking";
   "HKWorkoutActivityTypeSwimming"].

Definition categories : list string :=
  ["Running"; "Walking"; "Biking"; "Swimming"; "Other"].

(** [AverageHeartRateBpm], [MaximumHeartRateBpm] and [HeartRateBpm]: the
    elements that carry a heart rate. *)
Definition is_heart_rate_elem (e : Element) : bool :=
  String.eqb (tag e) "AverageHeartRateBpm"
  || String.eqb (tag e) "MaximumHeartRateBpm"
  || String.eqb (tag e) "HeartRateBpm".

(** A list of children without its heart-rate elements, the others
    transformed by [f]. *)
Definition remove_from (f : Element -> Element) : list Element -> list Element :=
  fix go (l : list Element) : list Element :=
    match l with
    | [] => []
    | c :: l' => if is_heart_rate_elem c then go l' else f c :: go l'
    end.

(** A document with the heart-rate elements removed at every depth. *)
Fixpoint remove_heart_rate (e : Element) : Element :=
  match e with
  | Elem t a x cs => Elem t a x (remove_from remove_heart_rate cs)
  end.

Section RecordVocabulary.
Context {R : Runtime}.

(** The record [w] with the minimum of its heart-rate statistic, when it
    has one, replaced by [m]. *)
Definition set_hr_min (m : Z) (w : workout) : workout :=
  {| sport := sport w;
     start_time := start_time w;
     end_time := end_time w;
     duration_minutes := duration_minutes w;
     heart_rate :=
       match heart_rate w with
       | Some hr => Some (HeartRate.mk (HeartRate.avg hr) m (HeartRate.max hr))
       | None => None
       end;
     distance := distance w;
     calories := calories w;
     elevation_gain := elevation_gain w;
     gpx_file := gpx_file w |}.

(** [int(heart_rate['avg'])] is defined: the average is finite, or there
    is no heart rate to print. *)
Definition hr_avg_finite (w : workout) : bool :=
  match heart_rate w with
  | Some hr => PyFloat.is_finite (HeartRate.avg hr)
  | None => true
  end.

End RecordVocabulary.

Section TrackVocabulary.
Context {R : Runtime}.

(** The point elements of a track document, in document order. *)
Definition track_points (root : Element) : list Element :=
  ET.findall_desc gpx_trkpt root.

(** The point has a timestamp child. *)
Definition has_time (trkpt : Element) : bool :=
  match ET.find_child gpx_time trkpt with Some _ => true | None => false end.

(** The attribute is missing or reads as a float. *)
Definition float_attr_ok (e : Element) (key : string) : bool :=
  match ET.get e key with
  | Some s => match float_of_str s with Some _ => true | None => false end
  | None => true
  end.

(** The element has a text that reads as a float. *)
Definition float_text_ok (e : Element) : bool :=
  match text e with
  | Some s => match float_of_str s with Some _ => true | None => false end
  | None => false
  end.

(** The values of a point read as what the format says they are: numeric
    coordinates, a numeric elevation when there is one and, for a point
    that has a timestamp, an ISO 8601 instant and a numeric speed when
    the extension the parser looks for is there. *)
Definition well_formed_trkpt (trkpt : Element) : bool :=
  float_attr_ok trkpt "lat" && float_attr_ok trkpt "lon" &&
  match ET.find_child gpx_ele trkpt with
  | Some ele_elem => float_text_ok ele_elem
  | None => true
  end &&
  match ET.find_child gpx_time trkpt with
  | Some time_elem =>
      match text time_elem with
      | Some s => is_ok (ISO.fromisoformat (PyStr.replace "Z" "+00:00" s))
      | None => false
      end &&
      match ET.find_child gpx_extensions trkpt with
      | Some extensions =>
          match ET.find_child "speed" extensions with
          | Some speed_elem => float_text_ok speed_elem
          | None => true
          end
      | None => true
      end
  | None => true
  end.

(** A well-formed track document: every point of it is well formed. *)
Definition well_formed_track (root : Element) : bool :=
  forallb well_formed_trkpt (track_points root).

(** The track point [tp] was read from the element [trkpt]. *)
Definition read_from (trkpt : Element) (tp : trackpoint) : Prop :=
  parse_trkpt trkpt = Ok (Some tp).

(** The float an attribute stands for: the one its text reads as, and 0.0
    when the element has no such attribute. *)
Definition attr_value (e : Element) (key : string) : option float :=
  match ET.get e key with
  | Some s => float_of_str s
  | None => Some (PyFloat.of_Z 0)
  end.

(** The float the text of an element reads as. *)
Definition text_value (e : Element) : option float :=
  match text e with
  | Some s => float_of_str s
  | None => None
  end.

(** The track point [tp] holds the values of the point element [trkpt],
    said without the parser: its latitude and longitude are the floats of
    the attributes [lat] and [lon]; its elevation is the float of the
    [ele] child, and the integer 0 when the point has none; its time is the
    instant written in the [time] child, [Z] standing for UTC; its speed is
    the float of the [speed] child of [extensions], and none when there is
    no such child. *)
Definition denotes (trkpt : Element) (tp : trackpoint) : Prop :=
  attr_value trkpt "lat" = Some (lat tp) ∧
  attr_value trkpt "lon" = Some (lon tp) ∧
  match ET.find_child gpx_ele trkpt with
  | Some ele_elem => ∃ x, text_value ele_elem = Some x ∧ elevation tp = NFloat x
  | None => elevation tp = NInt 0
  end ∧
  (∃ time_elem s,
     ET.find_child gpx_time trkpt = Some time_elem ∧
     text time_elem = Some s ∧
     ISO.fromisoformat (PyStr.replace "Z" "+00:00" s) = Ok (time tp)) ∧
  match ET.find_child gpx_extensions trkpt with
  | Some extensions =>
      match ET.find_child "speed" extensions with
      | Some speed_elem => ∃ x, text_value speed_elem = Some x ∧ speed tp = Some x
      | None => speed tp = None
      end
  | None => speed tp = None
  end.

(** The test [not gpx_file or not gpx_file.exists()] of [parse_gpx_file]
    gives an answer: there is no path, or the file system says whether the
    file is there. *)
Definition probe_answers (files : FS) (gpx_file : option Path) : bool :=
  match gpx_file with
  | Some f => is_ok (path_exists files f)
  | None => true
  end.

(** What the [try] block of [parse_gpx_file] computes for the file [f]. *)
Definition gpx_try_block (fs : FS) (f : Path) : result (list trackpoint) :=
  (let* root := ET_parse fs f in parse_gpx_root root)%res.

End TrackVocabulary.

Section BuilderVocabulary.
Context {R : Runtime}.

(** An optional number that passes the test [if x:] of the builders: it is
    there and it is not zero. *)
Definition present_nonzero (o : option float) : option float :=
  match o with
  | Some x => if PyFloat.truthy x then Some x else None
  | None => None
  end.

(** [int(calories)] is defined whenever the builders compute it. *)
Definition calories_printable (w : workout) : bool :=
  match present_nonzero (calories w) with
  | Some c => PyFloat.is_finite c
  | None => true
  end.

(** [doc.find('Activities/Activity/Lap')] *)
Definition lap_of (doc : Element) : option Element :=
  match ET.find_child "Activities" doc with
  | Some activities =>
      match ET.find_child "Activity" activities with
      | Some activity => ET.find_child "Lap" activity
      | None => None
      end
  | None => None
  end.

(** [lap.findall('Track/Trackpoint')] *)
Definition trackpoints_of (lap : Element) : list Element :=
  flat_map (ET.findall_child "Trackpoint") (ET.findall_child "Track" lap).

(** The element has exactly one [AltitudeMeters] child. *)
Definition has_altitude (trackpoint : Element) : Prop :=
  ∃ s, ET.findall_child "AltitudeMeters" trackpoint = [leaf "AltitudeMeters" s].

(** The lap of [doc] has a [DistanceMeters] element, holding the distance
    times 1000, exactly when the distance is there and not zero; a
    [Calories] element exactly when the calories are there and not zero;
    and each of its track points has an altitude. *)
Definition lap_fields_emitted (w : workout) (doc : Element) : Prop :=
  ∃ lap,
    lap_of doc = Some lap ∧
    ET.findall_child "DistanceMeters" lap =
      match present_nonzero (distance w) with
      | Some d => [leaf "DistanceMeters"
                     (str_of_float (PyFloat.mul d (PyFloat.of_Z 1000)))]
      | None => []
      end ∧
    ET.findall_child "Calories" lap =
      match present_nonzero (calories w) with
      | Some c => [leaf "Calories" (PyInt.str (PyFloat.trunc c))]
      | None => []
      end ∧
    Forall has_altitude (trackpoints_of lap).

(** The lap of [doc] has the two heart-rate summary elements exactly when
    the record has a heart rate. *)
Definition hr_summary_emitted (w : workout) (doc : Element) : Prop :=
  ∃ lap,
    lap_of doc = Some lap ∧
    ET.findall_child "AverageHeartRateBpm" lap =
      match heart_rate w with
      | Some hr => [Elem "AverageHeartRateBpm" [] None
                      [leaf "Value" (PyInt.str (PyFloat.trunc (HeartRate.avg hr)))]]
      | None => []
      end ∧
    ET.findall_child "MaximumHeartRateBpm" lap =
      match heart_rate w with
      | Some hr => [Elem "MaximumHeartRateBpm" [] None
                      [leaf "Value" (PyInt.str (HeartRate.max hr))]]
      | None => []
      end.

(** The children of the lap of a built document that have the tag [t]. *)
Definition lap_children_named (t : string) (r : result Element)
  : option (list Element) :=
  match r with
  | Ok doc =>
      match lap_of doc with
      | Some lap => Some (ET.findall_child t lap)
      | None => None
      end
  | Raise _ => None
  end.

End BuilderVocabulary.

Section RunVocabulary.
Context {R : Runtime}.

(** What the loop of [convert_workouts] tries for one workout: the [try]
    block of its branch. *)
Definition attempt (self : AppleWorkoutConverter) (output_dir no_hr_dir : Path)
    (w : workout) : M unit :=
  match heart_rate w with
  | None => write_no_hr self no_hr_dir w
  | Some _ => write_hr self output_dir w
  end.

(** Building the document of a workout and writing it where it belongs,
    without the progress lines. *)
Definition build_and_write (self : AppleWorkoutConverter)
    (output_dir no_hr_dir : Path) (w : workout) : M unit :=
  (let* tcx := match heart_rate w with
               | None => create_tcx_no_hr self w
               | Some _ => create_tcx self w
               end in
   let dir := year_month (match heart_rate w with
                          | None => no_hr_dir
                          | Some _ => output_dir
                          end) w in
   let* _ := on_fs (mkdir true dir) in
   on_fs (ET_write (joinpath dir (tcx_filename w)) tcx))%io.

(** The line that reports the exception [e] for the workout [w]. *)
Definition error_line (w : workout) (e : exn) : Line :=
  match heart_rate w with
  | None => NoHrError (start_time w) e
  | Some _ => ConvertError (start_time w) e
  end.

(** A run that isolates the workouts from one another: each is attempted
    in the world the previous ones left; an exception is reported on a line
    and the run goes on.  The result lists every workout with the outcome
    of its attempt. *)
Fixpoint isolated_run (self : AppleWorkoutConverter)
    (output_dir no_hr_dir : Path) (ws : list workout) (world : World)
  : list (workout * result unit) * World :=
  match ws with
  | [] => ([], world)
  | w :: rest =>
      let '(r, world1) := attempt self output_dir no_hr_dir w world in
      let world2 :=
        match r with
        | Ok _ => world1
        | Raise e => {| stdout := stdout world1 ++ [error_line w e];
                        fs := fs world1 |}
        end in
      let '(outcomes, world3) :=
        isolated_run self output_dir no_hr_dir rest world2 in
      ((w, r) :: outcomes, world3)
  end.

(** The workouts whose attempt went through. *)
Definition written (outcomes : list (workout * result unit)) : list workout :=
  map fst (List.filter (fun o => is_ok (snd o)) outcomes).

Definition with_hr (ws : list workout) : list workout :=
  List.filter (fun w => match heart_rate w with Some _ => true | None => false end) ws.

Definition without_hr (ws : list workout) : list workout :=
  List.filter (fun w => match heart_rate w with Some _ => false | None => true end) ws.

(** A method step only ever adds lines to what was printed. *)
Definition grows {A} (c : M A) : Prop :=
  ∀ world, ∃ l, stdout (snd (c world)) = stdout world ++ l.

(** The four lines of the summary. *)
Definition summary (output_dir no_hr_dir : Path) (converted_count no_hr_count : Z)
  : list Line :=
  [SummaryHeader;
   SummaryWithHr converted_count output_dir;
   SummaryNoHr no_hr_count no_hr_dir;
   SummaryTotal (converted_count + no_hr_count)].

End RunVocabulary.

Section ExtractionVocabulary.
Context {R : Runtime}.

(** The attributes of a workout entry the extraction tests. *)
Definition source_name (e : Element) : string := ET.get_default e "sourceName" "".
Definition start_date (e : Element) : string := ET.get_default e "startDate" "".
Definition end_date (e : Element) : string := ET.get_default e "endDate" "".

(** The source name contains the device name or the secondary pattern. *)
Definition names_device (e : Element) : Prop :=
  ∃ a b : string,
    source_name e = (a ++ "Apple Watch" ++ b)%string
    ∨ source_name e = (a ++ "Bharat" ++ b)%string.

(** Both boundary timestamps are present: neither attribute is missing or
    empty. *)
Definition has_boundaries (e : Element) : bool :=
  PyStr.truthy (start_date e) && PyStr.truthy (end_date e).

(** Both boundary timestamps parse. *)
Definition boundaries_parse (e : Element) : bool :=
  is_ok (parse_apple_date (start_date e)) && is_ok (parse_apple_date (end_date e)).

(** The workout entries of an archive, in document order, and those of
    them that qualify. *)
Definition entries (root : Element) : list Element :=
  ET.findall_desc "Workout" root.

Definition qualifying (root : Element) : list Element :=
  List.filter is_apple_watch (entries root).

(** The record [w] was extracted from the entry [e]. *)
Definition extracted_from (self : AppleWorkoutConverter) (e : Element)
    (w : workout) : Prop :=
  extract_workout_data self e = Ok (Some w).

(** The records among the results of the extraction. *)
Fixpoint records (rs : list (option workout)) : list workout :=
  match rs with
  | [] => []
  | Some w :: rs' => w :: records rs'
  | None :: rs' => records rs'
  end.

End ExtractionVocabulary.

(** The shape ["YYYY-MM-DD HH:MM:SS ±HHMM"] of a date of the archive: a
    digit, a given character or a sign at each of its 25 positions. *)
Inductive shape_char : Type :=
| Digit
| Lit (c : ascii)
| Sign.

Definition char_matches (k : shape_char) (c : ascii) : bool :=
  match k with
  | Digit => ISO.is_digit c
  | Lit l => Ascii.eqb c l
  | Sign => Ascii.eqb c "+" || Ascii.eqb c "-"
  end.

Fixpoint matches (pattern : list shape_char) (s : string) : bool :=
  match pattern, s with
  | [], EmptyString => true
  | k :: pattern', String c s' => char_matches k c && matches pattern' s'
  | _, _ => false
  end.

Definition apple_pattern : list shape_char :=
  [Digit; Digit; Digit; Digit; Lit "-"; Digit; Digit; Lit "-"; Digit; Digit;
   Lit " ";
   Digit; Digit; Lit ":"; Digit; Digit; Lit ":"; Digit; Digit;
   Lit " "; Sign; Digit; Digit; Digit; Digit].

Definition apple_shape (s : string) : bool := matches apple_pattern s.

(** The number written with [len] digits from position [start] of [s]. *)
Fixpoint field_from (s : string) (start len : nat) (acc : Z) : Z :=
  match len with
  | O => acc
  | S len' =>
      field_from s (S start) len' (acc * 10 + ISO.digit_val (ISO.char_at s start))
  end.

Definition field (s : string) (start len : nat) : Z := field_from s start len 0.

(** The offset a text of the shape gives, in seconds east of UTC. *)
Definition apple_offset (s : string) : Z :=
  (if Ascii.eqb (ISO.char_at s 20) "-" then -1 else 1)
  * (field s 21 2 * 3600 + field s 23 2 * 60).

(** The instant a text of the shape denotes. *)
Definition apple_instant (s : string) : datetime :=
  {| year := field s 0 4; month := field s 5 2; day := field s 8 2;
     hour := field s 11 2; minute := field s 14 2; second := field s 17 2;
     microsecond := 0;
     tzinfo := Some (apple_offset s * 1000000) |}.

(** The fields of a text of the shape denote a day of the calendar, a time
    of the day and an offset of less than a day. *)
Definition apple_fields_valid (s : string) : bool :=
  (1 <=? field s 0 4) &&
  (1 <=? field s 5 2) && (field s 5 2 <=? 12) &&
  (1 <=? field s 8 2) &&
  (field s 8 2 <=? ISO.days_in_month (field s 0 4) (field s 5 2)) &&
  (field s 11 2 <=? 23) && (field s 14 2 <=? 59) && (field s 17 2 <=? 59) &&
  (field s 21 2 * 60 + field s 23 2 <? 1440).

(* ===================================================================== *)
(** * Vocabulary of the further properties *)
(* ===================================================================== *)

Section RunReportVocabulary.
Context {R : Runtime}.

(** A line that reports an exception caught by the loop of
    [convert_workouts]. *)
Definition is_error_line (l : Line) : bool :=
  match l with
  | NoHrError _ _ | ConvertError _ _ => true
  | _ => false
  end.

Definition error_lines (out : list Line) : list Line :=
  List.filter is_error_line out.

(** A method step adds lines to what was printed, none of them the report
    of a caught exception. *)
Definition quiet {A} (c : M A) : Prop :=
  ∀ world, ∃ l, stdout (snd (c world)) = stdout world ++ l ∧ error_lines l = [].

(** The reports an isolated run owes: one line for each attempt that raised,
    in the order of the workouts. *)
Definition reports (outcomes : list (workout * result unit)) : list Line :=
  flat_map (fun o => match snd o with
                     | Ok _ => []
                     | Raise e => [error_line (fst o) e]
                     end) outcomes.

End RunReportVocabulary.

Section ArchiveLogVocabulary.
Context {R : Runtime}.

(** The lines [parse_apple_workouts] prints while it walks the entries: the
    source name of each of the first five, with its index. *)
Definition source_lines (es : list Element) : list Line :=
  imap (fun i e => WorkoutSource i (source_name e)) (take 5 es).

(** Everything [parse_apple_workouts] prints for an archive whose qualifying
    entries gave the results [rs]. *)
Definition archive_log (root : Element) (rs : list (option workout)) : list Line :=
  [FoundTotal (length (entries root))] ++ source_lines (entries root) ++
  [FoundAppleWatch (length (qualifying root));
   ParsedWithData (length (records rs))].

(** The directory [convert_workouts] writes under. *)
Definition output_root (self : AppleWorkoutConverter) (output_dir : option Path)
  : Path :=
  match output_dir with
  | None => joinpath (export_dir self) "tcx_files"
  | Some d => d
  end.

End ArchiveLogVocabulary.

Section FilterVocabulary.
Context {R : Runtime}.

(** The workouts [convert_workouts] keeps for an activity filter: all of
    them without a filter or with an empty one, otherwise those whose sport
    in lower case contains the filter in lower case. *)
Definition selected (activity_filter : option string) (ws : list workout)
  : list workout :=
  match activity_filter with
  | Some f =>
      if PyStr.truthy f
      then List.filter
             (fun w => PyStr.contains (str_lower f) (str_lower (sport w))) ws
      else ws
  | None => ws
  end.

End FilterVocabulary.

(** The three kinds of statistic [extract_workout_data] reads. *)
Inductive stat_kind : Type :=
| HeartRateStat
| DistanceStat
| EnergyStat.

Definition stat_kind_eqb (a b : stat_kind) : bool :=
  match a, b with
  | HeartRateStat, HeartRateStat
  | DistanceStat, DistanceStat
  | EnergyStat, EnergyStat => true
  | _, _ => false
  end.

(** The kind a statistic counts as: the first of the three names, in the
    order the source tests them, that its [type] attribute contains. *)
Definition kind_of (stat : Element) : option stat_kind :=
  let stat_type := ET.get_default stat "type" "" in
  if PyStr.contains "HeartRate" stat_type then Some HeartRateStat
  else if PyStr.contains "DistanceWalkingRunning" stat_type then Some DistanceStat
  else if PyStr.contains "ActiveEnergyBurned" stat_type then Some EnergyStat
  else None.

Definition is_kind (k : stat_kind) (stat : Element) : bool :=
  match kind_of stat with
  | Some k' => stat_kind_eqb k k'
  | None => false
  end.

(** The statistics of an entry, in document order, and the last of a kind. *)
Definition statistics (e : Element) : list Element :=
  ET.findall_desc "WorkoutStatistics" e.

Definition last_of_kind (k : stat_kind) (stats : list Element) : option Element :=
  last (List.filter (is_kind k) stats).

(** The first metadata entry of an entry that gives the elevation ascended,
    and the first file reference of its routes. *)
Definition elevation_entry (e : Element) : option Element :=
  ET.find_desc_attr "MetadataEntry" "key" "HKElevationAscended" e.

Definition route_reference (e : Element) : option Element :=
  ET.find_desc_child "WorkoutRoute" "FileReference" e.

(** The Apple identifier of a sport category other than ["Other"]. *)
Definition apple_type_of (sport : string) : string :=
  "HKWorkoutActivityType" ++ (if String.eqb sport "Biking" then "Cycling" else sport).

Section StatisticsVocabulary.
Context {R : Runtime}.

(** The heart rate, and the sum, a statistic gives. *)
Definition heart_rate_of (stat : Element) (hr : HeartRate.t) : Prop :=
  float_get stat "average" = Ok (HeartRate.avg hr) ∧
  int_get stat "minimum" = Ok (HeartRate.min hr) ∧
  int_get stat "maximum" = Ok (HeartRate.max hr).

Definition sum_of (stat : Element) (x : float) : Prop :=
  float_get stat "sum" = Ok x.

(** An optional field is the value of the last statistic of its kind, or
    is absent (or left as [before]) when there is none. *)
Definition field_from_last {A} (P : Element → A → Prop) (k : stat_kind)
    (stats : list Element) (before field : option A) : Prop :=
  match last_of_kind k stats with
  | Some stat => ∃ x, P stat x ∧ field = Some x
  | None => field = before
  end.

End StatisticsVocabulary.

Section DocumentVocabulary.
Context {R : Runtime}.

(** [doc.find('Activities/Activity')] *)
Definition activity_of (doc : Element) : option Element :=
  match ET.find_child "Activities" doc with
  | Some activities => ET.find_child "Activity" activities
  | None => None
  end.

(** The heart-rate child every [Trackpoint] of a workout gets: the average
    of the whole workout, as an integer. *)
Definition trackpoint_heart_rate (w : workout) : list Element :=
  match heart_rate w with
  | Some hr =>
      [Elem "HeartRateBpm" [] None
         [leaf "Value" (PyInt.str (PyFloat.trunc (HeartRate.avg hr)))]]
  | None => []
  end.

(** The element [e] is a [Trackpoint] that says the point [p]: its children
    are the time of the point, in the format
    ['%Y-%m-%dT%H:%M:%S.%fZ']; the position, holding the latitude and then
    the longitude as [str] writes them; the altitude, as [str] writes the
    elevation; and after them the elements [hr]. *)
Definition says_point (hr : list Element) (p : trackpoint) (e : Element)
  : Prop :=
  tag e = "Trackpoint" ∧
  children e =
    [Elem "Time" [] (Some (strftime_tcx (time p))) [];
     Elem "Position" [] None
       [Elem "LatitudeDegrees" [] (Some (str_of_float (lat p))) [];
        Elem "LongitudeDegrees" [] (Some (str_of_float (lon p))) []];
     Elem "AltitudeMeters" []
       (Some match elevation p with
             | NInt z => PyInt.str z
             | NFloat x => str_of_float x
             end) []]
    ++ hr.

(** The lap of [doc] has a [Track] exactly when there are points, and then
    one [Trackpoint] for each point, in order, that says the point and ends
    with the elements [hr]. *)
Definition track_mirrors (hr : list Element) (pts : list trackpoint)
    (doc : Element) : Prop :=
  ∃ lap,
    lap_of doc = Some lap ∧
    length (ET.findall_child "Track" lap)
    = match pts with [] => 0 | _ :: _ => 1 end%nat ∧
    Forall2 (says_point hr) pts (trackpoints_of lap).

(** The record [w] with other values for the two fields the builders do not
    read. *)
Definition set_unread (end_time : datetime) (elevation_gain : option float)
    (w : workout) : workout :=
  {| sport := sport w;
     start_time := start_time w;
     end_time := end_time;
     duration_minutes := duration_minutes w;
     heart_rate := heart_rate w;
     distance := distance w;
     calories := calories w;
     elevation_gain := elevation_gain;
     gpx_file := gpx_file w |}.

(** The frame every built document has around the children of its lap. *)
Definition has_frame (w : workout) (doc : Element) : Prop :=
  tag doc = "TrainingCenterDatabase" ∧
  ∃ activities activity lap,
    children doc = [activities] ∧ tag activities = "Activities" ∧
    children activities = [activity] ∧ tag activity = "Activity" ∧
    attrib activity = [("Sport", sport w)] ∧
    children activity = [leaf "Id" (strftime_tcx (start_time w)); lap; creator] ∧
    tag lap = "Lap" ∧
    attrib lap = [("StartTime", strftime_tcx (start_time w))] ∧
    head (children lap) = Some (total_time_elem w) ∧
    ET.findall_child "TotalTimeSeconds" lap = [total_time_elem w].

End DocumentVocabulary.

(** The shape ["YYYY-MM-DDTHH:MM:SSZ"] of a timestamp of a track file. *)
Definition gpx_time_pattern : list shape_char :=
  [Digit; Digit; Digit; Digit; Lit "-"; Digit; Digit; Lit "-"; Digit; Digit;
   Lit "T";
   Digit; Digit; Lit ":"; Digit; Digit; Lit ":"; Digit; Digit;
   Lit "Z"].

Definition gpx_time_shape (s : string) : bool := matches gpx_time_pattern s.

(** The instant a text of that shape denotes: its fields, in UTC. *)
Definition gpx_instant (s : string) : datetime :=
  {| year := field s 0 4; month := field s 5 2; day := field s 8 2;
     hour := field s 11 2; minute := field s 14 2; second := field s 17 2;
     microsecond := 0;
     tzinfo := Some 0 |}.

(** The fields of a text of either shape denote a day of the calendar and a
    time of the day. *)
Definition wall_clock_valid (s : string) : bool :=
  (1 <=? field s 0 4) &&
  (1 <=? field s 5 2) && (field s 5 2 <=? 12) &&
  (1 <=? field s 8 2) &&
  (field s 8 2 <=? ISO.days_in_month (field s 0 4) (field s 5 2)) &&
  (field s 11 2 <=? 23) && (field s 14 2 <=? 59) && (field s 17 2 <=? 59).

Section ProgressVocabulary.
Context {R : Runtime}.

(** What [parse_gpx_file] may print while a document is built: nothing, or
    the one line that reports a track file it could not read. *)
Definition track_report (l : list Line) : Prop :=
  l = [] ∨ ∃ f e, l = [GpxError f e].

(** The lines [convert_workouts] prints for a workout it has written: none
    for a workout without heart rate, and for one with heart rate the file
    name, the sport, the duration, the distance when it is there and not
    zero, the heart rate and a blank line. *)
Definition progress_lines (w : workout) : list Line :=
  match heart_rate w with
  | Some hr =>
      [Converted (tcx_filename w); SportLine (sport w);
       DurationLine (duration_minutes w)] ++
      match present_nonzero (distance w) with
      | Some d => [DistanceLine d]
      | None => []
      end ++
      [HrLine hr; BlankLine]
  | None => []
  end.

End ProgressVocabulary.

(** The fields of a [datetime] are in the ranges its constructor checks. *)
Definition is_datetime (d : datetime) : bool :=
  ISO.check_date_args (year d) (month d) (day d)
  && ISO.check_time_args (hour d) (minute d) (second d) (microsecond d).

(** Two instants show the same second on the wall clock. *)
Definition same_wall_clock_second (d1 d2 : datetime) : Prop :=
  year d1 = year d2 ∧ month d1 = month d2 ∧ day d1 = day d2 ∧
  hour d1 = hour d2 ∧ minute d1 = minute d2 ∧ second d1 = second d2.

(** Every byte of a text is a decimal digit. *)
Fixpoint all_digits (s : string) : bool :=
  match s with
  | EmptyString => true
  | String c s' => ISO.is_digit c && all_digits s'
  end.

(** The number a text of digits writes, after the digits [acc]. *)
Fixpoint digits_value (s : string) (acc : Z) : Z :=
  match s with
  | EmptyString => acc
  | String c s' => digits_value s' (acc * 10 + ISO.digit_val c)
  end.

(** Further inputs the properties are applied to. *)
Module Cases.

(** The evening ride of the comment of [parse_apple_date], an hour east of
    UTC, with two heart-rate statistics. *)
Definition evening_ride : Element :=
  Elem "Workout"
    [("workoutActivityType", "HKWorkoutActivityTypeCycling");
     ("duration", "30.0"); ("sourceName", "Apple Watch");
     ("startDate", "2022-10-06 20:04:10 +0100");
     ("endDate", "2022-10-06 20:34:10 +0100")] None
    [Fixture.stat [("type", "HKQuantityTypeIdentifierHeartRate");
                   ("average", "140"); ("minimum", "100"); ("maximum", "160")];
     Fixture.stat [("type", "HKQuantityTypeIdentifierHeartRate");
                   ("average", "150"); ("minimum", "110"); ("maximum", "170")]].

Definition evening_ride_record : @workout Sample.runtime :=
  @mkWorkout Sample.runtime
    "Biking"
    (mkDatetime 2022 10 6 20 4 10 0 (Some 3600000000))
    (mkDatetime 2022 10 6 20 34 10 0 (Some 3600000000))
    (PyFloat.of_Z 30)
    (Some (HeartRate.mk (PyFloat.of_Z 150) 110 170))
    None
    None
    None
    None.

(** A point with nothing but its timestamp. *)
Definition bare_trkpt : Element :=
  Elem gpx_trkpt [] None
    [Elem gpx_time [] (Some "2024-01-15T10:00:00Z") []].

Definition bare_point : trackpoint :=
  mkTrackpoint (PyFloat.of_Z 0) (PyFloat.of_Z 0) (NInt 0)
    (mkDatetime 2024 1 15 10 0 0 0 (Some 0)) None.

(** The workouts of the test suite with one between them that cannot be
    built. *)
Definition three_workouts : list (@workout Sample.runtime) :=
  [Fixture.running_record; Fixture.endless_record; Fixture.walking_record].

(** A track of three points, the third with a timestamp that is not one. *)
Definition broken_route : Element :=
  Elem (Fixture.gpx "gpx") [("version", "1.1")] None
    [Elem (Fixture.gpx "trk") [] None
       [Elem (Fixture.gpx "trkseg") [] None
          [Fixture.trkpt "-2.60000" "51.44000" "100.0" "2024-01-15T10:00:00Z"
             "3.0" "45.0";
           Fixture.trkpt "-2.59950" "51.44050" "101.0" "2024-01-15T10:00:10Z"
             "3.2" "47.0";
           Fixture.trkpt "-2.59900" "51.44100" "102.0" "ten past ten"
             "2.8" "43.0"]]].

Definition broken_path : @Path Sample.runtime :=
  ["export"; "workout-routes"; "broken.gpx"].

Definition broken_world : @World Sample.runtime :=
  @mkWorld Sample.runtime []
    (<[broken_path := Sample.File (Some broken_route)]> Fixture.files).

(** A file name of 300 characters, more than the 255 a name may have. *)
Definition long_name : string := (Sample.zeros 296 ++ ".gpx")%string.

(** An Apple Watch entry whose route refers to a file of that name. *)
Definition long_route_walk : Element :=
  Elem "Workout"
    [("workoutActivityType", "HKWorkoutActivityTypeWalking");
     ("duration", "45.0"); ("sourceName", "Apple Watch");
     ("startDate", "2024-01-16 13:15:00 +0000");
     ("endDate", "2024-01-16 14:00:00 +0000")] None
    [Elem "WorkoutRoute" [("sourceName", "Apple Watch")] None
       [Elem "FileReference"
          [("path", ("/workout-routes/" ++ long_name)%string)] None []]].

Definition long_path : @Path Sample.runtime :=
  ["export"; "workout-routes"; long_name].

Definition long_route_record : @workout Sample.runtime :=
  @mkWorkout Sample.runtime
    "Walking"
    (mkDatetime 2024 1 16 13 15 0 0 (Some 0))
    (mkDatetime 2024 1 16 14 0 0 0 (Some 0))
    (PyFloat.of_Z 45)
    None
    None
    None
    None
    (Some long_path).

End Cases.


(* ===================================================================== *)
(** * Properties *)
(* ===================================================================== *)

(** ** The activity type mapper *)

Lemma mapping_unknown (s : string) :
  s ∉ known_types → mapping !! s = None.
Proof.
  unfold known_types, mapping. intros Hs.
  repeat (apply not_elem_of_cons in Hs; destruct Hs as [? Hs]).
  repeat (rewrite lookup_insert_ne by congruence).
  apply lookup_empty.
Qed.

(** C8.  [convert_activity_type] is a function from strings to sport
    categories defined on every string: the five known identifiers go to
    Running, Walking, Biking, Other (for Hiking) and Swimming, and every
    other string, the empty one included, goes to Other. *)
Theorem convert_activity_type_total :
  convert_activity_type "HKWorkoutActivityTypeRunning" = "Running" ∧
  convert_activity_type "HKWorkoutActivityTypeWalking" = "Walking" ∧
  convert_activity_type "HKWorkoutActivityTypeCycling" = "Biking" ∧
  convert_activity_type "HKWorkoutActivityTypeSwimming" = "Swimming" ∧
  convert_activity_type "HKWorkoutActivityTypeHiking" = "Other" ∧
  convert_activity_type "" = "Other" ∧
  (∀ s, s ∉ known_types → convert_activity_type s = "Other") ∧
  (∀ s, convert_activity_type s ∈ categories).
Proof.
  assert (Hother : ∀ s, s ∉ known_types → convert_activity_type s = "Other").
  { intros s Hs. unfold convert_activity_type.
    now rewrite (mapping_unknown s Hs). }
  repeat split; try (vm_compute; reflexivity); [exact Hother|].
  intros s. destruct (decide (s ∈ known_types)) as [Hin | Hout].
  - unfold known_types in Hin.
    repeat (apply elem_of_cons in Hin; destruct Hin as [-> | Hin]);
      [ .. | now apply elem_of_nil in Hin ];
      vm_compute;
      repeat first [ apply list_elem_of_here | apply list_elem_of_further ].
  - rewrite (Hother s Hout). unfold categories.
    repeat first [ apply list_elem_of_here | apply list_elem_of_further ].
Qed.

(** An unknown identifier at which the theorem applies. *)
Lemma convert_activity_type_total_witness :
  ("HKWorkoutActivityTypeUnknown" ∉ known_types) ∧
  (convert_activity_type "HKWorkoutActivityTypeUnknown" = "Other").
Proof.
  assert (H : "HKWorkoutActivityTypeUnknown" ∉ known_types).
  { unfold known_types. repeat (apply not_elem_of_cons; split; [discriminate|]).
    apply not_elem_of_nil. }
  split; [exact H|].
  exact (proj1 (proj2 (proj2 (proj2 (proj2 (proj2 (proj2
           convert_activity_type_total)))))) _ H).
Defined.

(** ** The document builders *)

Section BuilderProperties.
Context {R : Runtime}.

Lemma int_of_float_finite (x : float) :
  PyFloat.is_finite x = true → int_of_float x = Ok (PyFloat.trunc x).
Proof. destruct x; simpl; congruence. Qed.

Lemma int_of_float_not_finite (x : float) :
  PyFloat.is_finite x = false → ∃ e, int_of_float x = Raise e.
Proof. destruct x; simpl; try congruence; eauto. Qed.

(** C10.  The minimum of the heart-rate statistic reaches no document:
    two records that differ in that value alone give the same result, in
    the same world, with either builder. *)
Theorem hr_min_never_emitted (self : AppleWorkoutConverter) (w : workout)
    (m1 m2 : Z) (world : World) :
  create_tcx self (set_hr_min m1 w) world
  = create_tcx self (set_hr_min m2 w) world
  ∧ create_tcx_no_hr self (set_hr_min m1 w) world
    = create_tcx_no_hr self (set_hr_min m2 w) world.
Proof.
  destruct w as [sp st en du [[a mn mx]|] di ca el gp]; split; reflexivity.
Qed.

(** *** Removing the heart-rate elements *)

Lemma remove_from_app (f : Element → Element) (l1 l2 : list Element) :
  remove_from f (l1 ++ l2) = remove_from f l1 ++ remove_from f l2.
Proof.
  induction l1 as [|c l1 IH]; simpl; [reflexivity|].
  destruct (is_heart_rate_elem c); simpl; now rewrite IH.
Qed.

Lemma remove_leaf (t s : string) : remove_heart_rate (leaf t s) = leaf t s.
Proof. reflexivity. Qed.

Lemma remove_distance (w : workout) :
  remove_from remove_heart_rate (distance_elems w) = distance_elems w.
Proof.
  unfold distance_elems. destruct (distance w) as [d|]; [|reflexivity].
  destruct (PyFloat.truthy d); reflexivity.
Qed.

Lemma remove_calories (w : workout) (l : list Element) :
  calories_elems w = Ok l → remove_from remove_heart_rate l = l.
Proof.
  unfold calories_elems. destruct (calories w) as [c|].
  - destruct (PyFloat.truthy c).
    + destruct (int_of_float c); simpl; intros [= <-]; reflexivity.
    + intros [= <-]; reflexivity.
  - intros [= <-]; reflexivity.
Qed.

Lemma remove_summary (w : workout) (l : list Element) :
  heart_rate_elems w = Ok l → remove_from remove_heart_rate l = [].
Proof.
  unfold heart_rate_elems. destruct (heart_rate w) as [hr|].
  - destruct (int_of_float (HeartRate.avg hr)); simpl; intros [= <-]; reflexivity.
  - intros [= <-]; reflexivity.
Qed.

Lemma heart_rate_elems_ok (w : workout) :
  hr_avg_finite w = true → ∃ l, heart_rate_elems w = Ok l.
Proof.
  unfold hr_avg_finite, heart_rate_elems. destruct (heart_rate w) as [hr|].
  - intros H. rewrite (int_of_float_finite _ H). simpl. eauto.
  - eauto.
Qed.

Lemma heart_rate_elems_raise (w : workout) :
  hr_avg_finite w = false → ∃ e, heart_rate_elems w = Raise e.
Proof.
  unfold hr_avg_finite, heart_rate_elems. destruct (heart_rate w) as [hr|].
  - intros H. destruct (int_of_float_not_finite _ H) as [e ->]. simpl. eauto.
  - discriminate.
Qed.

(** With a finite average the track point loop of [create_tcx] cannot
    raise, and once the heart-rate elements are removed its elements are
    those of [create_tcx_no_hr]. *)
Lemma trackpoint_loop_refines (w : workout) (tps : list trackpoint) :
  hr_avg_finite w = true →
  ∃ els, rmap (trackpoint_elem w) tps = Ok els ∧
         remove_from remove_heart_rate els = map trackpoint_elem_no_hr tps.
Proof.
  intros Hfin. induction tps as [|tp tps (els & Hels & Hrem)]; simpl.
  - exists []. split; reflexivity.
  - unfold trackpoint_elem at 1. unfold hr_avg_finite in Hfin.
    destruct (heart_rate w) as [hr|].
    + rewrite (int_of_float_finite _ Hfin). simpl. rewrite Hels. simpl.
      eexists. split; [reflexivity|]. simpl. now rewrite Hrem.
    + simpl. rewrite Hels. simpl.
      eexists. split; [reflexivity|]. simpl. now rewrite Hrem.
Qed.

(** C9.  Whenever the average heart rate can be turned into an integer
    (it is finite, or the record has no heart rate), the two builders raise
    together or return together, in the same world, and the document of
    [create_tcx] with its [AverageHeartRateBpm], [MaximumHeartRateBpm] and
    [HeartRateBpm] elements removed is the document of [create_tcx_no_hr].
    Otherwise [create_tcx] raises and produces no document. *)
Theorem create_tcx_refines_no_hr (self : AppleWorkoutConverter) (w : workout)
    (world : World) :
  if hr_avg_finite w
  then create_tcx_no_hr self w world
       = (match fst (create_tcx self w world) with
          | Ok doc => Ok (remove_heart_rate doc)
          | Raise e => Raise e
          end, snd (create_tcx self w world))
  else ∃ e world', create_tcx self w world = (Raise e, world').
Proof.
  destruct (hr_avg_finite w) eqn:Hfin.
  - unfold create_tcx, create_tcx_no_hr, bind, lift, ret.
    destruct (calories_elems w) as [cal|e] eqn:Hcal; [|reflexivity].
    destruct (heart_rate_elems_ok w Hfin) as [hr Hhr]. rewrite Hhr.
    destruct (parse_gpx_file self (gpx_file w) world) as [[tps|e] world'];
      [|reflexivity].
    destruct tps as [|tp tps].
    + simpl. f_equal. f_equal. unfold tcx_document. simpl.
      rewrite !remove_from_app, remove_distance,
        (remove_calories w cal Hcal), (remove_summary w hr Hhr).
      simpl. now rewrite app_nil_r.
    + destruct (trackpoint_loop_refines w (tp :: tps) Hfin) as (els & Hels & Hrem).
      rewrite Hels. simpl. f_equal. f_equal. unfold tcx_document. simpl.
      rewrite !remove_from_app, remove_distance,
        (remove_calories w cal Hcal), (remove_summary w hr Hhr).
      simpl. now rewrite Hrem.
  - unfold create_tcx, bind, lift, ret.
    destruct (calories_elems w) as [cal|e]; [|eauto].
    destruct (heart_rate_elems_raise w Hfin) as [e ->]. eauto.
Qed.

End BuilderProperties.

(** ** The track parser *)

Section TrackProperties.
Context {R : Runtime}.

Lemma parse_gpx_file_unfold (self : AppleWorkoutConverter) (f : Path)
    (world : World) :
  parse_gpx_file self (Some f) world =
  match path_exists (fs world) f with
  | Ok true =>
      match gpx_try_block (fs world) f with
      | Ok pts => (Ok pts, world)
      | Raise e =>
          (Ok [], {| stdout := stdout world ++ [GpxError f e]; fs := fs world |})
      end
  | Ok false => (Ok [], world)
  | Raise e => (Raise e, world)
  end.
Proof.
  unfold parse_gpx_file, gpx_try_block, try_except, bind, lift, ret, print, rbind.
  destruct (path_exists (fs world) f) as [[|]|e]; simpl; try reflexivity.
  destruct (ET_parse (fs world) f) as [root|e]; simpl; [|reflexivity].
  destruct (parse_gpx_root root); reflexivity.
Qed.

(** [parse_gpx_file] returns exactly when its test of the path gives an
    answer: what the [try] block raises is caught, what [exists] raises is
    not. *)
Lemma parse_gpx_file_is_ok (self : AppleWorkoutConverter)
    (gpx_file : option Path) (world : World) :
  is_ok (fst (parse_gpx_file self gpx_file world))
  = probe_answers (fs world) gpx_file.
Proof.
  destruct gpx_file as [f|]; [|reflexivity].
  rewrite parse_gpx_file_unfold. unfold probe_answers.
  destruct (path_exists (fs world) f) as [[|]|e]; try reflexivity.
  destruct (gpx_try_block (fs world) f); reflexivity.
Qed.

(** Once the test of the path has answered, [parse_gpx_file] returns a
    list, and the file system is left as it was: the list is empty and
    nothing is printed when the path is [None] or names no existing file;
    when the file exists and the [try] block raises, the list is empty and
    one line naming the file and the exception is printed. *)
Lemma parse_gpx_file_answered (self : AppleWorkoutConverter)
    (gpx_file : option Path) (world : World) :
  probe_answers (fs world) gpx_file = true →
  ∃ pts world',
    parse_gpx_file self gpx_file world = (Ok pts, world') ∧
    fs world' = fs world ∧
    match gpx_file with
    | None => pts = [] ∧ world' = world
    | Some f =>
        match path_exists (fs world) f with
        | Ok true =>
            match gpx_try_block (fs world) f with
            | Ok pts' => pts = pts' ∧ world' = world
            | Raise e => pts = [] ∧ stdout world' = stdout world ++ [GpxError f e]
            end
        | _ => pts = [] ∧ world' = world
        end
    end.
Proof.
  destruct gpx_file as [f|].
  - unfold probe_answers. rewrite parse_gpx_file_unfold.
    destruct (path_exists (fs world) f) as [[|]|e]; [| |discriminate]; intros _.
    + destruct (gpx_try_block (fs world) f) as [pts|e].
      * exists pts, world. auto.
      * eexists [], _. split; [reflexivity|]. simpl. auto.
    + exists [], world. auto.
  - intros _. exists [], world. simpl. auto.
Qed.

(** One pass of the loop on a well-formed point: a track point exactly
    when the point has a timestamp. *)
Lemma parse_trkpt_well_formed (trkpt : Element) :
  well_formed_trkpt trkpt = true →
  if has_time trkpt
  then ∃ tp, parse_trkpt trkpt = Ok (Some tp)
  else parse_trkpt trkpt = Ok None.
Proof.
  unfold well_formed_trkpt, has_time, parse_trkpt, float_get, float_text,
    float_str, float_attr_ok, float_text_ok.
  intros H. repeat (apply andb_prop in H; destruct H as [H ?]).
  destruct (ET.get trkpt "lat") as [s|];
    [destruct (float_of_str s); [|discriminate]|]; simpl;
  (destruct (ET.get trkpt "lon") as [s'|];
    [destruct (float_of_str s'); [|discriminate]|]; simpl);
  (destruct (ET.find_child gpx_ele trkpt) as [ele|];
    [destruct (text ele) as [t|]; [|discriminate];
     destruct (float_of_str t); [|discriminate]|]; simpl);
  (destruct (ET.find_child gpx_time trkpt) as [time_elem|]; [|reflexivity]);
  (match goal with H : _ && _ = true |- _ =>
     apply andb_prop in H; destruct H as [Ht Hs] end);
  (destruct (text time_elem) as [t'|]; [|discriminate]);
  (destruct (ISO.fromisoformat (PyStr.replace "Z" "+00:00" t')); [|discriminate]);
  simpl;
  (destruct (ET.find_child gpx_extensions trkpt) as [ext|]; [|eauto]);
  (destruct (ET.find_child "speed" ext) as [sp|]; [|eauto]);
  (destruct (text sp) as [t''|]; [|discriminate]);
  (destruct (float_of_str t''); [|discriminate]); simpl; eauto.
Qed.

(** The loop from any point on: the points read so far, followed by one
    track point for each remaining element that has a timestamp. *)
Lemma trkpt_loop_well_formed (trkpts : list Element) (acc : list trackpoint) :
  forallb well_formed_trkpt trkpts = true →
  ∃ pts, trkpt_loop trkpts acc = Ok (acc ++ pts) ∧
         Forall2 read_from (List.filter has_time trkpts) pts.
Proof.
  revert acc. induction trkpts as [|trkpt rest IH]; simpl; intros acc H.
  - exists []. rewrite app_nil_r. split; [reflexivity|constructor].
  - apply andb_prop in H. destruct H as [Hwf Hrest].
    pose proof (parse_trkpt_well_formed trkpt Hwf) as Hone.
    destruct (has_time trkpt).
    + destruct Hone as [tp Htp]. rewrite Htp. simpl.
      destruct (IH (acc ++ [tp]) Hrest) as (pts & Hloop & Hall).
      exists (tp :: pts). rewrite Hloop, <- app_assoc. simpl.
      split; [reflexivity|]. constructor; assumption.
    + rewrite Hone. simpl. apply IH, Hrest.
Qed.

(** On a point that is not well formed the pass raises. *)
Lemma parse_trkpt_ill_formed (trkpt : Element) :
  well_formed_trkpt trkpt = false → ∃ e, parse_trkpt trkpt = Raise e.
Proof.
  unfold well_formed_trkpt, parse_trkpt, float_get, float_text,
    float_str, float_attr_ok, float_text_ok, is_ok, rbind.
  intros H.
  repeat match goal with
         | |- context [match ?x with _ => _ end] =>
             lazymatch x with
             | context [match _ with _ => _ end] => fail
             | _ => destruct x; simpl in H |- *; try discriminate H; eauto
             end
         | H : context [match ?x with _ => _ end] |- _ =>
             lazymatch x with
             | context [match _ with _ => _ end] => fail
             | _ => destruct x; simpl in H |- *; try discriminate H; eauto
             end
         end.
Qed.

(** A document with a point that is not well formed gives no track point
    at all: the loop raises, and [parse_gpx_file] reports it. *)
Lemma trkpt_loop_ill_formed (trkpts : list Element) (acc : list trackpoint) :
  forallb well_formed_trkpt trkpts = false →
  ∃ e, trkpt_loop trkpts acc = Raise e.
Proof.
  revert acc. induction trkpts as [|trkpt rest IH]; simpl; intros acc H;
    [discriminate H|].
  destruct (well_formed_trkpt trkpt) eqn:Hwf; simpl in H.
  - pose proof (parse_trkpt_well_formed trkpt Hwf) as Hone.
    destruct (has_time trkpt).
    + destruct Hone as [tp ->]. simpl. apply IH, H.
    + rewrite Hone. simpl. apply IH, H.
  - destruct (parse_trkpt_ill_formed trkpt Hwf) as [e ->]. simpl. eauto.
Qed.

Lemma ill_formed_track_gives_nothing (self : AppleWorkoutConverter)
    (f : Path) (world : World) (root : Element) :
  path_exists (fs world) f = Ok true →
  ET_parse (fs world) f = Ok root →
  well_formed_track root = false →
  ∃ e, parse_gpx_file self (Some f) world
       = (Ok [], {| stdout := stdout world ++ [GpxError f e]; fs := fs world |}).
Proof.
  intros Hex Hparse Hwf.
  destruct (trkpt_loop_ill_formed (track_points root) [] Hwf) as [e He].
  exists e. rewrite parse_gpx_file_unfold, Hex. unfold gpx_try_block.
  rewrite Hparse. simpl. unfold parse_gpx_root.
  unfold track_points in He. now rewrite He.
Qed.

(** A point the parser read holds the values of its element. *)
Lemma read_from_denotes (trkpt : Element) (tp : trackpoint) :
  read_from trkpt tp → denotes trkpt tp.
Proof.
  unfold read_from, denotes, parse_trkpt, float_get, float_text, float_str,
    attr_value, text_value, rbind.
  intros H.
  destruct (ET.get trkpt "lat") as [s|];
    [destruct (float_of_str s) as [la|]; [|discriminate]|];
  (destruct (ET.get trkpt "lon") as [s'|];
    [destruct (float_of_str s') as [lo|]; [|discriminate]|]);
  (destruct (ET.find_child gpx_ele trkpt) as [ele|];
    [destruct (text ele) as [t|]; [|discriminate];
     destruct (float_of_str t) as [el|]; [|discriminate]|]);
  (destruct (ET.find_child gpx_time trkpt) as [time_elem|]; [|discriminate]);
  (destruct (text time_elem) as [t'|] eqn:Ht; [|discriminate]);
  (destruct (ISO.fromisoformat (PyStr.replace "Z" "+00:00" t')) as [d|] eqn:Hd;
    [|discriminate]);
  (destruct (ET.find_child gpx_extensions trkpt) as [ext|];
    [destruct (ET.find_child "speed" ext) as [sp|];
      [destruct (text sp) as [t''|]; [|discriminate];
       destruct (float_of_str t'') as [v|]; [|discriminate]|]|]);
  injection H as <-; cbn [lat lon elevation time speed];
  repeat split; eauto;
  exists time_elem, t'; auto.
Qed.

(** The values of an element are those of one point only. *)
Lemma denotes_functional (trkpt : Element) (tp1 tp2 : trackpoint) :
  denotes trkpt tp1 → denotes trkpt tp2 → tp1 = tp2.
Proof.
  unfold denotes.
  intros (Hla1 & Hlo1 & Hel1 & (te1 & s1 & Hte1 & Hs1 & Ht1) & Hsp1)
         (Hla2 & Hlo2 & Hel2 & (te2 & s2 & Hte2 & Hs2 & Ht2) & Hsp2).
  destruct tp1 as [la1 lo1 el1 t1 sp1], tp2 as [la2 lo2 el2 t2 sp2].
  cbn [lat lon elevation time speed] in *.
  assert (la1 = la2) as -> by congruence.
  assert (lo1 = lo2) as -> by congruence.
  assert (t1 = t2) as -> by congruence.
  assert (el1 = el2) as ->.
  { destruct (ET.find_child gpx_ele trkpt); [|congruence].
    destruct Hel1 as (x1 & Hx1 & ->), Hel2 as (x2 & Hx2 & ->). congruence. }
  assert (sp1 = sp2) as ->.
  { destruct (ET.find_child gpx_extensions trkpt) as [ext|]; [|congruence].
    destruct (ET.find_child "speed" ext); [|congruence].
    destruct Hsp1 as (x1 & Hx1 & ->), Hsp2 as (x2 & Hx2 & ->). congruence. }
  reflexivity.
Qed.

(** C6, as the code has it.  For a file that exists and holds a track
    document in which the values of every point can be read,
    [parse_gpx_file] returns, without printing, one track point for each
    point element that has a timestamp child and for no other, in the order
    of the document, each holding the values of its element.  In particular,
    when the document has three points of which only the third lacks a
    timestamp, the result has length two: the point of the first element,
    then the point of the second. *)
Theorem parse_gpx_file_document_order (self : AppleWorkoutConverter)
    (f : Path) (world : World) (root : Element) :
  path_exists (fs world) f = Ok true →
  ET_parse (fs world) f = Ok root →
  well_formed_track root = true →
  ∃ pts,
    parse_gpx_file self (Some f) world = (Ok pts, world) ∧
    Forall2 denotes (List.filter has_time (track_points root)) pts ∧
    (∀ p1 p2 p3,
       track_points root = [p1; p2; p3] →
       has_time p1 = true → has_time p2 = true → has_time p3 = false →
       ∃ tp1 tp2, pts = [tp1; tp2] ∧ denotes p1 tp1 ∧ denotes p2 tp2).
Proof.
  intros Hex Hparse Hwf.
  destruct (trkpt_loop_well_formed (track_points root) [] Hwf)
    as (pts & Hloop & Hread).
  assert (Hall : Forall2 denotes (List.filter has_time (track_points root)) pts).
  { clear Hloop. induction Hread; constructor; auto using read_from_denotes. }
  exists pts. split; [|split].
  - rewrite parse_gpx_file_unfold, Hex. unfold gpx_try_block.
    rewrite Hparse. simpl. unfold parse_gpx_root.
    unfold track_points in Hloop. now rewrite Hloop.
  - exact Hall.
  - intros p1 p2 p3 Hpts H1 H2 H3. rewrite Hpts in Hall. simpl in Hall.
    rewrite H1, H2, H3 in Hall.
    inversion Hall as [|? tp1 ? pts1 Hr1 Hall1]; subst.
    inversion Hall1 as [|? tp2 ? pts2 Hr2 Hall2]; subst.
    inversion Hall2; subst. eauto.
Qed.

End TrackProperties.

(** ** Optional fields of the lap *)

Section EmissionProperties.
Context {R : Runtime}.

Lemma parse_gpx_file_returns (self : AppleWorkoutConverter)
    (gpx_file : option Path) (world : World) :
  probe_answers (fs world) gpx_file = true →
  ∃ pts world', parse_gpx_file self gpx_file world = (Ok pts, world').
Proof.
  intros H. destruct (parse_gpx_file_answered self gpx_file world H)
    as (pts & world' & Heq & _). eauto.
Qed.

Lemma parse_gpx_file_raises (self : AppleWorkoutConverter)
    (gpx_file : option Path) (world : World) :
  probe_answers (fs world) gpx_file = false →
  ∃ e world', parse_gpx_file self gpx_file world = (Raise e, world').
Proof.
  intros H. rewrite <- (parse_gpx_file_is_ok self) in H.
  destruct (parse_gpx_file self gpx_file world) as [[pts|e] world'];
    [discriminate H | eauto].
Qed.

Lemma calories_elems_spec (w : workout) :
  match present_nonzero (calories w) with
  | Some c =>
      if PyFloat.is_finite c
      then calories_elems w = Ok [leaf "Calories" (PyInt.str (PyFloat.trunc c))]
      else ∃ e, calories_elems w = Raise e
  | None => calories_elems w = Ok []
  end.
Proof.
  unfold present_nonzero, calories_elems.
  destruct (calories w) as [c|]; [|reflexivity].
  destruct (PyFloat.truthy c); [|reflexivity].
  destruct (PyFloat.is_finite c) eqn:Hfin.
  - now rewrite (int_of_float_finite _ Hfin).
  - destruct (int_of_float_not_finite _ Hfin) as [e ->]. simpl. eauto.
Qed.

Lemma heart_rate_elems_spec (w : workout) :
  hr_avg_finite w = true →
  heart_rate_elems w =
  Ok match heart_rate w with
     | Some hr =>
         [Elem "AverageHeartRateBpm" [] None
            [leaf "Value" (PyInt.str (PyFloat.trunc (HeartRate.avg hr)))];
          Elem "MaximumHeartRateBpm" [] None
            [leaf "Value" (PyInt.str (HeartRate.max hr))]]
     | None => []
     end.
Proof.
  unfold hr_avg_finite, heart_rate_elems. destruct (heart_rate w) as [hr|].
  - intros H. now rewrite (int_of_float_finite _ H).
  - reflexivity.
Qed.

(** The elements of the track point loop are [Trackpoint] elements with an
    altitude. *)
Lemma trackpoint_loop_altitude (w : workout) (tps : list trackpoint)
    (els : list Element) :
  rmap (trackpoint_elem w) tps = Ok els →
  List.filter (ET.has_tag "Trackpoint") els = els ∧ Forall has_altitude els.
Proof.
  revert els. induction tps as [|tp tps IH]; simpl; intros els.
  - intros [= <-]. split; [reflexivity|constructor].
  - unfold trackpoint_elem at 1.
    destruct (heart_rate w) as [hr|];
      [destruct (int_of_float (HeartRate.avg hr)); simpl; [|discriminate]|];
      simpl;
      (destruct (rmap (trackpoint_elem w) tps) as [els'|]; simpl; [|discriminate]);
      intros [= <-]; destruct (IH els' eq_refl) as [Hf Ha];
      (split; [simpl; now rewrite Hf | constructor; [eexists; reflexivity | exact Ha]]).
Qed.

Lemma trackpoint_map_altitude (tps : list trackpoint) :
  List.filter (ET.has_tag "Trackpoint") (map trackpoint_elem_no_hr tps)
  = map trackpoint_elem_no_hr tps
  ∧ Forall has_altitude (map trackpoint_elem_no_hr tps).
Proof.
  induction tps as [|tp tps [Hf Ha]]; simpl.
  - split; [reflexivity|constructor].
  - split; [now rewrite Hf | constructor; [eexists; reflexivity | exact Ha]].
Qed.

(** The children a builder gives the lap: the total time, then the
    optional elements in a fixed order, then at most one track. *)
Lemma lap_children_fields (w : workout) (cal hr : list Element)
    (els : list Element) (track : list Element) :
  calories_elems w = Ok cal →
  (hr = [] ∨ (hr_avg_finite w = true ∧ heart_rate_elems w = Ok hr)) →
  (track = [] ∨ track = [Elem "Track" [] None els]) →
  List.filter (ET.has_tag "Trackpoint") els = els →
  Forall has_altitude els →
  lap_fields_emitted w
    (tcx_document w (total_time_elem w :: distance_elems w ++ cal ++ hr ++ track)).
Proof.
  intros Hcal Hhr Htrack Hf Ha.
  eexists. split; [reflexivity|].
  unfold ET.findall_child, trackpoints_of, ET.findall_child. simpl.
  rewrite !List.filter_app.
  assert (Hhr' : ∀ t, t = "DistanceMeters" ∨ t = "Calories" ∨ t = "Track" →
                      List.filter (ET.has_tag t) hr = []).
  { intros t Ht. destruct Hhr as [-> | [Hfin Hhr]]; [reflexivity|].
    rewrite (heart_rate_elems_spec w Hfin) in Hhr. injection Hhr as <-.
    destruct (heart_rate w); destruct Ht as [-> | [-> | ->]]; reflexivity. }
  rewrite !Hhr' by auto.
  pose proof (calories_elems_spec w) as Hcs.
  unfold distance_elems, present_nonzero in *.
  repeat split.
  - destruct (distance w) as [d|]; [destruct (PyFloat.truthy d)|];
      (destruct (calories w) as [c|]; [destruct (PyFloat.truthy c)|];
       [destruct (PyFloat.is_finite c); [|destruct Hcs as [e Hcs]]| |];
       rewrite Hcs in Hcal; try discriminate; injection Hcal as <-);
      destruct Htrack as [-> | ->]; reflexivity.
  - destruct (distance w) as [d|]; [destruct (PyFloat.truthy d)|];
      (destruct (calories w) as [c|]; [destruct (PyFloat.truthy c)|];
       [destruct (PyFloat.is_finite c); [|destruct Hcs as [e Hcs]]| |];
       rewrite Hcs in Hcal; try discriminate; injection Hcal as <-);
      destruct Htrack as [-> | ->]; reflexivity.
  - destruct (distance w) as [d|]; [destruct (PyFloat.truthy d)|];
      (destruct (calories w) as [c|]; [destruct (PyFloat.truthy c)|];
       [destruct (PyFloat.is_finite c); [|destruct Hcs as [e Hcs]]| |];
       rewrite Hcs in Hcal; try discriminate; injection Hcal as <-);
      destruct Htrack as [-> | ->]; simpl;
      rewrite ?app_nil_r; try rewrite Hf; try exact Ha; constructor.
Qed.

Lemma lap_children_summary (w : workout) (cal track : list Element)
    (els : list Element) :
  calories_elems w = Ok cal →
  hr_avg_finite w = true →
  (track = [] ∨ track = [Elem "Track" [] None els]) →
  ∀ hr, heart_rate_elems w = Ok hr →
  hr_summary_emitted w
    (tcx_document w (total_time_elem w :: distance_elems w ++ cal ++ hr ++ track)).
Proof.
  intros Hcal Hfin Htrack hr Hhr.
  eexists. split; [reflexivity|].
  unfold ET.findall_child. simpl. rewrite !List.filter_app.
  rewrite (heart_rate_elems_spec w Hfin) in Hhr. injection Hhr as <-.
  pose proof (calories_elems_spec w) as Hcs.
  unfold distance_elems, present_nonzero in *.
  split.
  - destruct (distance w) as [d|]; [destruct (PyFloat.truthy d)|];
      (destruct (calories w) as [c|]; [destruct (PyFloat.truthy c)|];
       [destruct (PyFloat.is_finite c); [|destruct Hcs as [e Hcs]]| |];
       rewrite Hcs in Hcal; try discriminate; injection Hcal as <-);
      destruct Htrack as [-> | ->]; destruct (heart_rate w); reflexivity.
  - destruct (distance w) as [d|]; [destruct (PyFloat.truthy d)|];
      (destruct (calories w) as [c|]; [destruct (PyFloat.truthy c)|];
       [destruct (PyFloat.is_finite c); [|destruct Hcs as [e Hcs]]| |];
       rewrite Hcs in Hcal; try discriminate; injection Hcal as <-);
      destruct Htrack as [-> | ->]; destruct (heart_rate w); reflexivity.
Qed.

Lemma calories_elems_is_ok (w : workout) :
  is_ok (calories_elems w) = calories_printable w.
Proof.
  pose proof (calories_elems_spec w) as H. unfold calories_printable.
  destruct (present_nonzero (calories w)) as [c|]; [|now rewrite H].
  destruct (PyFloat.is_finite c); [now rewrite H|].
  destruct H as [e ->]. reflexivity.
Qed.

Lemma remove_trackpoints_no_hr (tps : list trackpoint) :
  remove_from remove_heart_rate (map trackpoint_elem_no_hr tps)
  = map trackpoint_elem_no_hr tps.
Proof.
  induction tps as [|tp tps IH]; simpl; [reflexivity | now rewrite IH].
Qed.

Lemma remove_no_hr_document (w : workout) (cal : list Element)
    (tps : list trackpoint) :
  calories_elems w = Ok cal →
  let doc :=
    tcx_document w
      (total_time_elem w :: distance_elems w ++ cal ++
       match tps with
       | [] => []
       | _ :: _ => [Elem "Track" [] None (map trackpoint_elem_no_hr tps)]
       end) in
  remove_heart_rate doc = doc.
Proof.
  intros Hcal. unfold tcx_document. simpl.
  rewrite !remove_from_app, remove_distance, (remove_calories w cal Hcal).
  destruct tps as [|tp tps]; [reflexivity|].
  cbn [remove_from is_heart_rate_elem tag String.eqb Ascii.eqb Bool.eqb orb
       remove_heart_rate].
  now rewrite (remove_trackpoints_no_hr (tp :: tps)).
Qed.

Lemma create_tcx_no_hr_fields (w : workout) (cal : list Element)
    (tps : list trackpoint) :
  calories_elems w = Ok cal →
  lap_fields_emitted w
    (tcx_document w
       (total_time_elem w :: distance_elems w ++ cal ++
        match tps with
        | [] => []
        | _ :: _ => [Elem "Track" [] None (map trackpoint_elem_no_hr tps)]
        end)).
Proof.
  intros Hcal. destruct (trackpoint_map_altitude tps) as [Hf Ha].
  assert (H : lap_fields_emitted w
                (tcx_document w
                   (total_time_elem w :: distance_elems w ++ cal ++ [] ++
                    match tps with
                    | [] => []
                    | _ :: _ => [Elem "Track" [] None (map trackpoint_elem_no_hr tps)]
                    end))).
  { apply (lap_children_fields w cal [] (map trackpoint_elem_no_hr tps)); auto.
    destruct tps; auto. }
  exact H.
Qed.

(** C5, as the code has it.  [create_tcx] returns a document exactly when
    the calories it has to print and the average heart rate are finite and
    the test [exists] of the track file gives an answer, and
    [create_tcx_no_hr] exactly when the calories are and the test does.  In
    a document either of them returns, the lap has a [DistanceMeters]
    element, holding the distance times 1000, exactly when the distance is
    present and not zero, and a [Calories] element exactly when the calories
    are present and not zero; an absent field leaves no element, and every
    track point has an [AltitudeMeters] element.  The lap of [create_tcx]
    has the two heart-rate summary elements exactly when the record has a
    heart rate; a document of [create_tcx_no_hr] has no heart-rate element
    at all. *)
Theorem optional_fields_emitted (self : AppleWorkoutConverter) (w : workout)
    (world : World) :
  is_ok (fst (create_tcx self w world))
  = calories_printable w && hr_avg_finite w
    && probe_answers (fs world) (gpx_file w)
  ∧ is_ok (fst (create_tcx_no_hr self w world))
    = calories_printable w && probe_answers (fs world) (gpx_file w)
  ∧ (∀ doc, fst (create_tcx self w world) = Ok doc →
            lap_fields_emitted w doc ∧ hr_summary_emitted w doc)
  ∧ (∀ doc, fst (create_tcx_no_hr self w world) = Ok doc →
            lap_fields_emitted w doc ∧ remove_heart_rate doc = doc).
Proof.
  unfold create_tcx, create_tcx_no_hr, bind, lift, ret.
  rewrite <- calories_elems_is_ok.
  destruct (calories_elems w) as [cal|e] eqn:Hcal; simpl.
  2: { split; [reflexivity|]. split; [reflexivity|].
       split; intros doc Hdoc; discriminate Hdoc. }
  destruct (probe_answers (fs world) (gpx_file w)) eqn:Hprobe.
  2: { destruct (parse_gpx_file_raises self (gpx_file w) world Hprobe)
         as (e & world' & ->).
       rewrite andb_false_r.
       destruct (heart_rate_elems w); simpl;
         (split; [reflexivity|]); (split; [reflexivity|]);
         split; intros doc Hdoc; discriminate Hdoc. }
  rewrite andb_true_r.
  destruct (parse_gpx_file_returns self (gpx_file w) world Hprobe)
    as (tps & world' & ->).
  assert (Hno : ∀ doc,
            Ok (tcx_document w
                  (total_time_elem w :: distance_elems w ++ cal ++
                   match tps with
                   | [] => []
                   | _ :: _ => [Elem "Track" [] None (map trackpoint_elem_no_hr tps)]
                   end)) = Ok doc →
            lap_fields_emitted w doc ∧ remove_heart_rate doc = doc).
  { intros doc [= <-]. split.
    - now apply create_tcx_no_hr_fields.
    - now apply remove_no_hr_document. }
  destruct (hr_avg_finite w) eqn:Hfin.
  - destruct (heart_rate_elems_ok w Hfin) as [hr Hhr]. rewrite Hhr.
    destruct (trackpoint_loop_refines w tps Hfin) as (els & Hels & Hrem).
    destruct (trackpoint_loop_altitude w tps els Hels) as [Hf Ha].
    assert (Hyes : ∀ track,
              track = [] ∨ track = [Elem "Track" [] None els] →
              let doc := tcx_document w
                           (total_time_elem w :: distance_elems w ++ cal ++ hr ++ track) in
              lap_fields_emitted w doc ∧ hr_summary_emitted w doc).
    { intros track Htrack. split.
      - eapply lap_children_fields; eauto.
      - eapply lap_children_summary; eauto. }
    destruct tps as [|tp tps]; [|rewrite Hels]; simpl;
      (split; [reflexivity|]); (split; [reflexivity|]);
      (split; [|exact Hno]); intros doc [= <-]; apply Hyes; auto.
  - destruct (heart_rate_elems_raise w Hfin) as [e ->]. simpl.
    split; [reflexivity|]. split; [reflexivity|].
    split; [intros doc Hdoc; discriminate Hdoc | exact Hno].
Qed.

End EmissionProperties.

(** ** The conversion loop *)

Section RunProperties.
Context {R : Runtime}.

Lemma grows_ret {A} (a : A) : grows (ret a).
Proof. intros world. exists []. simpl. now rewrite app_nil_r. Qed.

Lemma grows_lift {A} (r : result A) : grows (lift r).
Proof. intros world. exists []. simpl. now rewrite app_nil_r. Qed.

Lemma grows_print (l : Line) : grows (print l).
Proof. intros world. exists [l]. reflexivity. Qed.

Lemma grows_on_fs {A} (op : FS → result A * FS) : grows (on_fs op).
Proof.
  intros world. exists []. unfold on_fs.
  destruct (op (fs world)). simpl. now rewrite app_nil_r.
Qed.

Lemma grows_bind {A B} (c : M A) (k : A → M B) :
  grows c → (∀ a, grows (k a)) → grows (bind c k).
Proof.
  intros Hc Hk world. unfold bind.
  destruct (Hc world) as [l Hl]. destruct (c world) as [[a|e] world1].
  - destruct (Hk a world1) as [l' Hl']. exists (l ++ l').
    simpl in Hl. now rewrite Hl', Hl, app_assoc.
  - exists l. exact Hl.
Qed.

Lemma grows_parse_gpx_file (self : AppleWorkoutConverter) (g : option Path) :
  grows (parse_gpx_file self g).
Proof.
  intros world. destruct g as [f|].
  - rewrite parse_gpx_file_unfold.
    destruct (path_exists (fs world) f) as [[|]|e].
    + destruct (gpx_try_block (fs world) f).
      * exists []. simpl. now rewrite app_nil_r.
      * eexists. reflexivity.
    + exists []. simpl. now rewrite app_nil_r.
    + exists []. simpl. now rewrite app_nil_r.
  - exists []. simpl. now rewrite app_nil_r.
Qed.

Ltac grows_tac :=
  repeat first
    [ apply grows_ret | apply grows_lift | apply grows_print
    | apply grows_on_fs | apply grows_parse_gpx_file
    | apply grows_bind; [|intros ?]
    | match goal with
      | |- grows (match ?x with _ => _ end) => destruct x
      | |- grows (if ?x then _ else _) => destruct x
      end ].

Lemma grows_create_tcx (self : AppleWorkoutConverter) (w : workout) :
  grows (create_tcx self w).
Proof. unfold create_tcx. grows_tac. Qed.

Lemma grows_create_tcx_no_hr (self : AppleWorkoutConverter) (w : workout) :
  grows (create_tcx_no_hr self w).
Proof. unfold create_tcx_no_hr. grows_tac. Qed.

Lemma grows_attempt (self : AppleWorkoutConverter) (od nd : Path) (w : workout) :
  grows (attempt self od nd w).
Proof.
  unfold attempt, write_no_hr, write_hr.
  destruct (heart_rate w) as [hr|];
    repeat first [ apply grows_create_tcx | apply grows_create_tcx_no_hr
                 | progress grows_tac ].
Qed.

(** The progress lines of [write_hr] come after the file is written and
    cannot raise: an attempt goes through exactly when the document was
    built and written, and leaves the same files. *)
Lemma attempt_build_and_write (self : AppleWorkoutConverter) (od nd : Path)
    (w : workout) (world : World) :
  fst (attempt self od nd w world) = fst (build_and_write self od nd w world)
  ∧ fs (snd (attempt self od nd w world))
    = fs (snd (build_and_write self od nd w world)).
Proof.
  unfold attempt, build_and_write, write_no_hr, write_hr, bind, on_fs, print, ret.
  destruct (heart_rate w) as [hr|].
  - destruct (create_tcx self w world) as [[tcx|e] world1]; [|auto].
    destruct (mkdir true (year_month od w) (fs world1)) as [[[]|e] fs1]; [|auto].
    simpl.
    destruct (ET_write (joinpath (year_month od w) (tcx_filename w)) tcx fs1)
      as [[[]|e] fs2]; [|auto].
    simpl. destruct (distance w) as [d|]; [destruct (PyFloat.truthy d)|]; auto.
  - destruct (create_tcx_no_hr self w world) as [[tcx|e] world1]; auto.
Qed.

(** The loop, from any values of its counters, against the isolated run. *)
Lemma convert_loop_isolated (self : AppleWorkoutConverter) (od nd : Path)
    (ws : list workout) (c n : Z) (world : World) :
  convert_loop self od nd ws c n world =
  (Ok (c + Z.of_nat (length (with_hr (written (fst (isolated_run self od nd ws world))))),
       n + Z.of_nat (length (without_hr (written (fst (isolated_run self od nd ws world)))))),
   snd (isolated_run self od nd ws world)).
Proof.
  revert c n world. induction ws as [|w rest IH]; intros c n world.
  - simpl. now rewrite !Z.add_0_r.
  - cbn [convert_loop isolated_run]. unfold attempt, error_line.
    destruct (heart_rate w) as [hr|] eqn:Hhr; unfold bind, try_except.
    + destruct (write_hr self od w world) as [[[]|e] world1]; simpl;
        rewrite IH;
        destruct (isolated_run self od nd rest _) as [outcomes world3];
        unfold written, with_hr, without_hr;
        cbn [List.filter map fst snd is_ok]; rewrite ?Hhr;
        cbn [length]; rewrite ?Nat2Z.inj_succ;
        f_equal; f_equal; f_equal; lia.
    + destruct (write_no_hr self nd w world) as [[[]|e] world1]; simpl;
        rewrite IH;
        destruct (isolated_run self od nd rest _) as [outcomes world3];
        unfold written, with_hr, without_hr;
        cbn [List.filter map fst snd is_ok]; rewrite ?Hhr;
        cbn [length]; rewrite ?Nat2Z.inj_succ;
        f_equal; f_equal; f_equal; lia.
Qed.

Lemma isolated_run_all (self : AppleWorkoutConverter) (od nd : Path)
    (ws : list workout) (world : World) :
  map fst (fst (isolated_run self od nd ws world)) = ws.
Proof.
  revert world. induction ws as [|w rest IH]; intros world; simpl; [reflexivity|].
  destruct (attempt self od nd w world) as [r world1].
  specialize (IH (match r with
                  | Ok _ => world1
                  | Raise e => {| stdout := stdout world1 ++ [error_line w e];
                                  fs := fs world1 |}
                  end)).
  destruct (isolated_run self od nd rest _) as [outcomes world3].
  simpl in *. now rewrite IH.
Qed.

Lemma isolated_run_grows (self : AppleWorkoutConverter) (od nd : Path)
    (ws : list workout) (world : World) :
  ∃ l, stdout (snd (isolated_run self od nd ws world)) = stdout world ++ l.
Proof.
  revert world. induction ws as [|w rest IH]; intros world; simpl.
  - exists []. now rewrite app_nil_r.
  - destruct (grows_attempt self od nd w world) as [l1 Hl1].
    destruct (attempt self od nd w world) as [r world1]. simpl in Hl1.
    match goal with |- context [isolated_run self od nd rest ?w2] =>
      destruct (IH w2) as [l2 Hl2];
      destruct (isolated_run self od nd rest w2) as [outcomes world3] end.
    simpl in *. rewrite Hl2. destruct r as [[]|e]; simpl; rewrite Hl1.
    + exists (l1 ++ l2). now rewrite app_assoc.
    + exists (l1 ++ [error_line w e] ++ l2). now rewrite <- !app_assoc.
Qed.

Lemma isolated_run_reports (self : AppleWorkoutConverter) (od nd : Path)
    (ws : list workout) (world : World) (w : workout) (e : exn) :
  In (w, Raise e) (fst (isolated_run self od nd ws world)) →
  In (error_line w e) (stdout (snd (isolated_run self od nd ws world))).
Proof.
  revert world. induction ws as [|w0 rest IH]; intros world; simpl; [tauto|].
  destruct (attempt self od nd w0 world) as [r world1].
  match goal with |- context [isolated_run self od nd rest ?w2] =>
    pose proof (IH w2) as IH2;
    destruct (isolated_run_grows self od nd rest w2) as [l2 Hl2];
    destruct (isolated_run self od nd rest w2) as [outcomes world3] end.
  simpl in *. intros [Heq | Hin]; [|auto].
  injection Heq as -> ->. rewrite Hl2. simpl.
  apply in_or_app. left. apply in_or_app. right. now left.
Qed.

(** C1.  For every list of workouts and every world, the loop of
    [convert_workouts] behaves as the isolated run: each workout of the
    list is attempted, in order, whatever happened to those before it; an
    exception raised while its document is built or written is caught and
    reported on a line of its own, and the workout is not counted.  The run
    returns, after the summary, the number of workouts whose document was
    built and written: those with a heart rate plus those without. *)
Theorem convert_all_isolates_failures (self : AppleWorkoutConverter)
    (output_dir no_hr_dir : Path) (workouts : list workout) (world : World) :
  let outcomes := fst (isolated_run self output_dir no_hr_dir workouts world) in
  let world' := snd (isolated_run self output_dir no_hr_dir workouts world) in
  let converted_count := Z.of_nat (length (with_hr (written outcomes))) in
  let no_hr_count := Z.of_nat (length (without_hr (written outcomes))) in
  convert_all self output_dir no_hr_dir workouts world
  = (Ok (converted_count + no_hr_count),
     {| stdout := stdout world'
                  ++ summary output_dir no_hr_dir converted_count no_hr_count;
        fs := fs world' |})
  ∧ converted_count + no_hr_count = Z.of_nat (length (written outcomes))
  ∧ map fst outcomes = workouts
  ∧ (∀ w e, In (w, Raise e) outcomes → In (error_line w e) (stdout world'))
  ∧ (∀ w world0,
       fst (attempt self output_dir no_hr_dir w world0)
       = fst (build_and_write self output_dir no_hr_dir w world0)
       ∧ fs (snd (attempt self output_dir no_hr_dir w world0))
         = fs (snd (build_and_write self output_dir no_hr_dir w world0))).
Proof.
  cbv zeta. split; [|split; [|split; [|split]]].
  - unfold convert_all, bind. rewrite convert_loop_isolated. simpl.
    unfold print, ret, summary. simpl. rewrite <- !app_assoc. reflexivity.
  - unfold with_hr, without_hr.
    induction (written (fst (isolated_run self output_dir no_hr_dir workouts world)))
      as [|w l IH]; simpl; [reflexivity|].
    destruct (heart_rate w); simpl; lia.
  - apply isolated_run_all.
  - apply isolated_run_reports.
  - apply attempt_build_and_write.
Qed.

End RunProperties.

(** ** Extraction *)

Section StringProperties.

Lemma startswith_spec (p s : string) :
  PyStr.startswith p s = true ↔ ∃ b : string, s = (p ++ b)%string.
Proof.
  revert s. induction p as [|a p IH]; intros s; simpl.
  - split; [intros _; exists s; reflexivity | reflexivity].
  - destruct s as [|c s].
    + split; [discriminate | intros [b Hb]; discriminate].
    + destruct (Ascii.eqb_spec a c) as [-> | Hne].
      * rewrite IH. split; intros [b Hb]; exists b.
        -- now rewrite Hb.
        -- now injection Hb.
      * split; [discriminate | intros [b Hb]; injection Hb; congruence].
Qed.

(** [needle in hay] holds exactly when [hay] is some text, then [needle],
    then some text. *)
Lemma contains_spec (needle hay : string) :
  PyStr.contains needle hay = true
  ↔ ∃ a b : string, hay = (a ++ needle ++ b)%string.
Proof.
  induction hay as [|c hay IH]; simpl.
  - rewrite orb_false_r, startswith_spec. split.
    + intros [b Hb]. exists "", b. exact Hb.
    + intros (a & b & H). destruct a as [|x a]; [eauto | discriminate].
  - rewrite orb_true_iff, startswith_spec, IH. split.
    + intros [[b Hb] | (a & b & Hab)].
      * exists "", b. exact Hb.
      * exists (String c a), b. simpl. now rewrite Hab.
    + intros (a & b & H). destruct a as [|x a].
      * left. exists b. exact H.
      * right. exists a, b. simpl in H. now injection H.
Qed.

End StringProperties.

Section ExtractionProperties.
Context {R : Runtime}.

Lemma is_apple_watch_spec (e : Element) :
  is_apple_watch e = true ↔ names_device e.
Proof.
  unfold is_apple_watch, names_device, source_name.
  rewrite orb_true_iff, !contains_spec. split.
  - intros [(a & b & H) | (a & b & H)]; exists a, b; auto.
  - intros (a & b & [H | H]); [left | right]; eauto.
Qed.

(** What [extract_workout_data] does before it reads anything else: the
    duration, then the test on the two timestamps, then their parsing. *)
Lemma extract_without_boundaries (self : AppleWorkoutConverter) (e : Element) :
  has_boundaries e = false →
  extract_workout_data self e =
  match float_get e "duration" with
  | Ok _ => Ok None
  | Raise x => Raise x
  end.
Proof.
  unfold has_boundaries, extract_workout_data, start_date, end_date.
  intros H. destruct (float_get e "duration"); simpl; [|reflexivity].
  rewrite <- negb_andb, H. reflexivity.
Qed.

Lemma float_get_raises (e : Element) (key : string) (x : exn) :
  float_get e key = Raise x → x = ValueError.
Proof.
  unfold float_get, float_str. destruct (ET.get e key) as [t|]; [|discriminate].
  destruct (float_of_str t); [discriminate | now intros [= <-]].
Qed.

Lemma extract_unparsed_boundary (self : AppleWorkoutConverter) (e : Element) :
  has_boundaries e = true → boundaries_parse e = false →
  extract_workout_data self e = Raise ValueError.
Proof.
  unfold has_boundaries, boundaries_parse, extract_workout_data,
    start_date, end_date, parse_apple_date.
  intros Hb Hp.
  destruct (float_get e "duration") as [d|x] eqn:Hd;
    [|now rewrite (float_get_raises _ _ _ Hd)].
  simpl.
  rewrite <- negb_andb, Hb. simpl.
  assert (Hve : ∀ s, is_ok (ISO.fromisoformat s) = false →
                     ISO.fromisoformat s = Raise ValueError).
  { intros s. unfold ISO.fromisoformat.
    repeat match goal with
           | |- context [if ?b then _ else _] => destruct b
           | |- context [match ?x with _ => _ end] => destruct x
           end; simpl; congruence. }
  apply andb_false_iff in Hp. destruct Hp as [Hp | Hp].
  - now rewrite (Hve _ Hp).
  - destruct (ISO.fromisoformat (ET.get_default e "startDate" "")) eqn:Hs.
    + simpl. now rewrite (Hve _ Hp).
    + rewrite Hve in Hs by (now rewrite Hs). now injection Hs as <-.
Qed.

Lemma extract_record (self : AppleWorkoutConverter) (e : Element) (w : workout) :
  extracted_from self e w →
  has_boundaries e = true ∧
  parse_apple_date (start_date e) = Ok (start_time w) ∧
  parse_apple_date (end_date e) = Ok (end_time w).
Proof.
  unfold extracted_from, has_boundaries, extract_workout_data,
    start_date, end_date.
  destruct (float_get e "duration"); simpl; [|discriminate].
  rewrite <- negb_andb.
  destruct (PyStr.truthy (ET.get_default e "startDate" "")
            && PyStr.truthy (ET.get_default e "endDate" "")); simpl;
    [|discriminate].
  destruct (parse_apple_date (ET.get_default e "startDate" "")); simpl;
    [|discriminate].
  destruct (parse_apple_date (ET.get_default e "endDate" "")); simpl;
    [|discriminate].
  destruct (extract_stats _ _) as [[[hr di] ca]|]; simpl; [|discriminate].
  destruct (ET.find_desc_attr _ _ _ e) as [el|]; simpl;
    [destruct (float_str _); simpl; [|discriminate]|];
    intros [= <-]; auto.
Qed.

Lemma extract_none (self : AppleWorkoutConverter) (e : Element) :
  extract_workout_data self e = Ok None → has_boundaries e = false.
Proof.
  destruct (has_boundaries e) eqn:Hb; [|reflexivity].
  unfold has_boundaries, start_date, end_date in Hb.
  unfold extract_workout_data.
  destruct (float_get e "duration"); simpl; [|discriminate].
  rewrite <- negb_andb, Hb. simpl.
  destruct (parse_apple_date (ET.get_default e "startDate" "")); simpl;
    [|discriminate].
  destruct (parse_apple_date (ET.get_default e "endDate" "")); simpl;
    [|discriminate].
  destruct (extract_stats _ _) as [[[hr di] ca]|]; simpl; [|discriminate].
  destruct (ET.find_desc_attr _ _ _ e) as [el|]; simpl;
    [destruct (float_str _); simpl|]; discriminate.
Qed.

(** The loop of [parse_apple_workouts] extracts the qualifying entries in
    order and stops at the first exception. *)
Lemma parse_loop_spec (self : AppleWorkoutConverter) (all : list Element)
    (i count : nat) (acc : list workout) (world : World) :
  ∃ world',
    parse_loop self i all count acc world =
    (match rmap (extract_workout_data self) (List.filter is_apple_watch all) with
     | Ok rs => Ok ((count + length (List.filter is_apple_watch all))%nat,
                    acc ++ records rs)
     | Raise e => Raise e
     end, world')
    ∧ fs world' = fs world.
Proof.
  revert i count acc world.
  induction all as [|e rest IH]; intros i count acc world; simpl.
  - exists world. rewrite Nat.add_0_r, app_nil_r. auto.
  - unfold bind at 1.
    set (world1 := snd ((if (i <? 5)%nat
                         then print (WorkoutSource i (ET.get_default e "sourceName" ""))
                         else ret tt) world)).
    assert (Hstep : (if (i <? 5)%nat
                     then print (WorkoutSource i (ET.get_default e "sourceName" ""))
                     else ret tt) world = (Ok tt, world1) ∧ fs world1 = fs world).
    { subst world1. destruct (i <? 5)%nat; auto. }
    destruct Hstep as [-> Hfs1].
    destruct (is_apple_watch e); simpl.
    + unfold bind, lift.
      destruct (extract_workout_data self e) as [[w|]|x]; simpl.
      * destruct (IH (S i) (S count) (acc ++ [w]) world1) as (world' & -> & Hfs).
        exists world'. split; [|congruence].
        destruct (rmap _ _); simpl; [|reflexivity].
        rewrite <- app_assoc. simpl. do 3 f_equal. lia.
      * destruct (IH (S i) (S count) acc world1) as (world' & -> & Hfs).
        exists world'. split; [|congruence].
        destruct (rmap _ _); simpl; [|reflexivity]. do 3 f_equal. lia.
      * exists world1. auto.
    + destruct (IH (S i) count acc world1) as (world' & -> & Hfs).
      exists world'. split; [reflexivity | congruence].
Qed.

Lemma parse_apple_workouts_spec (self : AppleWorkoutConverter) (world : World)
    (root : Element) :
  ET_parse (fs world) (export_xml self) = Ok root →
  ∃ world',
    parse_apple_workouts self world =
    (match rmap (extract_workout_data self) (qualifying root) with
     | Ok rs => Ok (records rs)
     | Raise e => Raise e
     end, world').
Proof.
  intros Hroot. unfold parse_apple_workouts, bind at 1. rewrite Hroot.
  unfold bind at 1, print at 1. unfold bind at 1.
  match goal with |- context [parse_loop self 0 ?all 0 [] ?w1] =>
    destruct (parse_loop_spec self all 0 0 [] w1) as (world' & Hloop & _) end.
  rewrite Hloop. unfold qualifying, entries.
  destruct (rmap _ _) as [rs|e]; simpl; eauto.
Qed.

(** The records of a successful extraction against the entries they come
    from. *)
Lemma records_extracted (self : AppleWorkoutConverter) (es : list Element)
    (rs : list (option workout)) :
  rmap (extract_workout_data self) es = Ok rs →
  Forall2 (extracted_from self) (List.filter has_boundaries es) (records rs).
Proof.
  revert rs. induction es as [|e es IH]; simpl; intros rs.
  - intros [= <-]. constructor.
  - destruct (extract_workout_data self e) as [r|] eqn:He; simpl; [|discriminate].
    destruct (rmap _ es) as [rs'|]; simpl; [|discriminate].
    intros [= <-]. destruct r as [w|]; simpl.
    + destruct (extract_record self e w He) as [-> _].
      constructor; [exact He | now apply IH].
    + rewrite (extract_none self e He). now apply IH.
Qed.

Lemma rmap_is_ok {A B} (f : A → result B) (l : list A) :
  is_ok (rmap f l) = forallb (fun a => is_ok (f a)) l.
Proof.
  induction l as [|a l IH]; simpl; [reflexivity|].
  destruct (f a); simpl; [|reflexivity].
  rewrite <- IH. destruct (rmap f l); reflexivity.
Qed.

Lemma filter_filter_andb {A} (p q : A → bool) (l : list A) :
  List.filter q (List.filter p l) = List.filter (fun a => p a && q a) l.
Proof.
  induction l as [|a l IH]; simpl; [reflexivity|].
  destruct (p a); simpl; [destruct (q a)|]; now rewrite IH.
Qed.

Lemma extracted_boundaries_parse (self : AppleWorkoutConverter)
    (es : list Element) (ws : list workout) :
  Forall2 (extracted_from self) es ws → forallb boundaries_parse es = true.
Proof.
  induction 1 as [|e w es ws He _ IH]; simpl; [reflexivity|].
  destruct (extract_record self e w He) as (_ & Hs & Hn).
  unfold boundaries_parse at 1. now rewrite Hs, Hn.
Qed.

(** C2, as the code has it.  A record comes only from an entry whose two
    boundary timestamps are present and parse, and it holds their parsed
    values.  An entry that lacks one of them (the attribute is missing or
    empty) is dropped without an exception, once its duration has been
    read.  An entry that has both but one does not parse is not dropped:
    [ValueError] is raised.  So, when [parse_apple_workouts] returns, the
    number of its records is the number of qualifying entries that have
    both timestamps, and all of those parse. *)
Theorem boundary_timestamps_decide_emission (self : AppleWorkoutConverter) :
  (∀ e w, extracted_from self e w →
          has_boundaries e = true ∧
          parse_apple_date (start_date e) = Ok (start_time w) ∧
          parse_apple_date (end_date e) = Ok (end_time w))
  ∧ (∀ e, has_boundaries e = false →
          is_ok (float_get e "duration") = true →
          extract_workout_data self e = Ok None)
  ∧ (∀ e, has_boundaries e = true → boundaries_parse e = false →
          extract_workout_data self e = Raise ValueError)
  ∧ (∀ world root ws world',
       ET_parse (fs world) (export_xml self) = Ok root →
       parse_apple_workouts self world = (Ok ws, world') →
       length ws = length (List.filter has_boundaries (qualifying root))
       ∧ forallb boundaries_parse
           (List.filter has_boundaries (qualifying root)) = true).
Proof.
  split; [|split; [|split]].
  - apply extract_record.
  - intros e Hb Hd. rewrite (extract_without_boundaries self e Hb).
    destruct (float_get e "duration"); [reflexivity | discriminate].
  - apply extract_unparsed_boundary.
  - intros world root ws world' Hroot Hrun.
    destruct (parse_apple_workouts_spec self world root Hroot) as [world'' Hspec].
    rewrite Hspec in Hrun.
    destruct (rmap _ (qualifying root)) as [rs|] eqn:Hrs; [|discriminate].
    injection Hrun as <- _.
    pose proof (records_extracted self _ rs Hrs) as Hall.
    split; [symmetry; eapply Forall2_length; exact Hall|].
    eapply extracted_boundaries_parse, Hall.
Qed.

(** C7, as the code has it.  An entry qualifies exactly when its source
    name contains ["Apple Watch"] or ["Bharat"]; an entry without a source
    name, or with an empty one, does not.  The extraction raises exactly
    when the extraction of a qualifying entry does; otherwise its records
    are, in document order, those of the entries that qualify and have both
    boundary timestamps, whatever their activity type: an entry that does
    not qualify is never in the output, and a qualifying entry is in it
    only when its timestamps are present. *)
Theorem source_name_decides_inclusion (self : AppleWorkoutConverter) :
  (∀ e, is_apple_watch e = true ↔ names_device e)
  ∧ (∀ e, source_name e = "" → is_apple_watch e = false)
  ∧ (∀ world root,
       ET_parse (fs world) (export_xml self) = Ok root →
       is_ok (fst (parse_apple_workouts self world))
       = forallb (fun e => is_ok (extract_workout_data self e)) (qualifying root))
  ∧ (∀ world root ws world',
       ET_parse (fs world) (export_xml self) = Ok root →
       parse_apple_workouts self world = (Ok ws, world') →
       Forall2 (extracted_from self)
         (List.filter (fun e => is_apple_watch e && has_boundaries e)
                      (entries root))
         ws).
Proof.
  split; [|split; [|split]].
  - apply is_apple_watch_spec.
  - intros e He. unfold is_apple_watch. unfold source_name in He.
    now rewrite He.
  - intros world root Hroot.
    destruct (parse_apple_workouts_spec self world root Hroot) as [world' ->].
    rewrite <- rmap_is_ok. simpl. destruct (rmap _ _); reflexivity.
  - intros world root ws world' Hroot Hrun.
    destruct (parse_apple_workouts_spec self world root Hroot) as [world'' Hspec].
    rewrite Hspec in Hrun.
    destruct (rmap _ (qualifying root)) as [rs|] eqn:Hrs; [|discriminate].
    injection Hrun as <- _.
    rewrite <- filter_filter_andb. now apply records_extracted.
Qed.

End ExtractionProperties.

(** ** The date parser *)

Section DateProperties.

Lemma digit_is_not (c x : ascii) :
  ISO.is_digit c = true → ISO.is_digit x = false → Ascii.eqb c x = false.
Proof.
  intros Hc Hx. destruct (Ascii.eqb_spec c x) as [-> | _]; congruence.
Qed.

Lemma digit_is_char (c x : ascii) :
  ISO.is_digit c = true → ISO.is_digit x = false → ISO.is_char c x = false.
Proof. apply digit_is_not. Qed.

Lemma digit_is_tz_char (c : ascii) :
  ISO.is_digit c = true → ISO.is_tz_char c = false.
Proof.
  intros H. unfold ISO.is_tz_char.
  rewrite !(digit_is_char c) by (assumption || reflexivity). reflexivity.
Qed.

Lemma digit_val_range (c : ascii) :
  ISO.is_digit c = true → 0 <= ISO.digit_val c <= 9.
Proof.
  unfold ISO.is_digit, ISO.digit_val. intros H.
  apply andb_prop in H. destruct H as [H1 H2].
  apply Nat.leb_le in H1, H2. lia.
Qed.

(** Once the fields are read, what is left of [fromisoformat] is
    arithmetic: the offset must be less than a day and the fields must
    pass the checks of the constructor. *)
Lemma shape_arithmetic (Y Mo D H Mi S OH OM sg : Z) :
  0 <= Y <= 9999 → 0 <= Mo → 0 <= D → 0 <= H → 0 <= Mi → 0 <= S →
  0 <= OH → 0 <= OM → sg = 1 ∨ sg = -1 →
  match ISO.tzinfo_from_isoformat_results
          (Some (sg * (OH * 3600 + OM * 60 + 0), sg * 0)) with
  | Some tzi =>
      if ISO.check_date_args Y Mo D && ISO.check_time_args H Mi S 0
      then Ok (mkDatetime Y Mo D H Mi S 0 tzi)
      else Raise ValueError
  | None => Raise ValueError
  end
  = if (1 <=? Y) && (1 <=? Mo) && (Mo <=? 12) && (1 <=? D) &&
       (D <=? ISO.days_in_month Y Mo) &&
       (H <=? 23) && (Mi <=? 59) && (S <=? 59) && (OH * 60 + OM <? 1440)
    then Ok (mkDatetime Y Mo D H Mi S 0
               (Some (sg * (OH * 3600 + OM * 60) * 1000000)))
    else Raise ValueError.
Proof.
  intros HY HMo HD HH HMi HS HOH HOM Hsg.
  unfold ISO.check_date_args, ISO.check_time_args.
  replace (Y <=? 9999) with true by (symmetry; apply Z.leb_le; lia).
  replace (0 <=? H) with true by (symmetry; apply Z.leb_le; lia).
  replace (0 <=? Mi) with true by (symmetry; apply Z.leb_le; lia).
  replace (0 <=? S) with true by (symmetry; apply Z.leb_le; lia).
  cbn [Z.leb Z.compare andb].
  assert (Htz : ISO.tzinfo_from_isoformat_results
                  (Some (sg * (OH * 3600 + OM * 60 + 0), sg * 0))
                = if OH * 60 + OM <? 1440
                  then Some (Some (sg * (OH * 3600 + OM * 60) * 1000000))
                  else None).
  { unfold ISO.tzinfo_from_isoformat_results.
    destruct (Z.eqb_spec (sg * (OH * 3600 + OM * 60 + 0)) 0) as [Hz | Hnz].
    - replace (OH * 60 + OM <? 1440) with true by (symmetry; apply Z.ltb_lt; lia).
      do 2 f_equal. lia.
    - destruct (Z.ltb_spec (OH * 60 + OM) 1440) as [Hlt | Hge].
      + replace (-86400000000 <? sg * (OH * 3600 + OM * 60 + 0) * 1000000 + sg * 0)
          with true by (symmetry; apply Z.ltb_lt; lia).
        replace (sg * (OH * 3600 + OM * 60 + 0) * 1000000 + sg * 0 <? 86400000000)
          with true by (symmetry; apply Z.ltb_lt; lia).
        simpl. do 2 f_equal. lia.
      + destruct Hsg as [-> | ->].
        * replace (1 * (OH * 3600 + OM * 60 + 0) * 1000000 + 1 * 0 <? 86400000000)
            with false by (symmetry; apply Z.ltb_ge; lia).
          now rewrite andb_false_r.
        * replace (-86400000000 <? -1 * (OH * 3600 + OM * 60 + 0) * 1000000 + -1 * 0)
            with false by (symmetry; apply Z.ltb_ge; lia).
          reflexivity. }
  rewrite Htz.
  destruct (OH * 60 + OM <? 1440); [|now rewrite andb_false_r].
  destruct (1 <=? Y), (1 <=? Mo), (Mo <=? 12), (1 <=? D),
    (D <=? ISO.days_in_month Y Mo), (H <=? 23), (Mi <=? 59), (S <=? 59);
    reflexivity.
Qed.

(** Take one character off a text of the shape. *)
Ltac shape_step H s :=
  destruct s as [|?c s]; [discriminate H|];
  cbn [matches apple_pattern char_matches] in H;
  apply andb_prop in H; destruct H as [?Hc H].

Ltac is_literal c := lazymatch c with Ascii _ _ _ _ _ _ _ _ => idtac end.

(** Decide one test of the parser on a character: by the shape when the
    character is a digit of the text, by computation when it is given. *)
Ltac char_step :=
  match goal with
  | H : ISO.is_digit ?c = true |- context [ISO.is_digit ?c] => rewrite H
  | H : ISO.is_digit ?c = true |- context [ISO.is_char ?c ?x] =>
      rewrite (digit_is_char c x H eq_refl)
  | H : ISO.is_digit ?c = true |- context [ISO.is_tz_char ?c] =>
      rewrite (digit_is_tz_char c H)
  | |- context [ISO.is_digit ?c] =>
      is_literal c; let v := eval vm_compute in (ISO.is_digit c) in
      change (ISO.is_digit c) with v
  | |- context [ISO.is_char ?c ?x] =>
      is_literal c; let v := eval vm_compute in (ISO.is_char c x) in
      change (ISO.is_char c x) with v
  | |- context [ISO.is_tz_char ?c] =>
      is_literal c; let v := eval vm_compute in (ISO.is_tz_char c) in
      change (ISO.is_tz_char c) with v
  | |- context [ISO.separator_width ?c] =>
      is_literal c; let v := eval vm_compute in (ISO.separator_width c) in
      change (ISO.separator_width c) with v
  end.

(** Run the parser as far as the next test on a character. *)
Ltac parser_step :=
  cbn [ISO.find_isoformat_datetime_separator ISO.parse_digits ISO.char_at
       String.get ISO.find_tzinfo ISO.hms_loop ISO.set_val ISO.skip_digits
       ISO.correction String.length
       Nat.eqb Nat.ltb Nat.leb Nat.add Nat.sub Nat.pred Nat.even
       negb andb orb nth].

(** C4, as the code has it.  On a text of the shape
    ["YYYY-MM-DD HH:MM:SS ±HHMM"], [parse_apple_date] returns the instant
    the text denotes, with its offset, when the fields are a day of the
    calendar, a time of the day and an offset of less than a day, and
    raises [ValueError] when they are not.  (It is [datetime.fromisoformat]
    and makes no promise to refuse other shapes.) *)
Theorem parse_apple_date_on_shape (s : string) :
  apple_shape s = true →
  parse_apple_date s
  = (if apple_fields_valid s then Ok (apple_instant s) else Raise ValueError)
  ∧ is_aware (apple_instant s) = true.
Proof.
  intros H. split; [|reflexivity].
  unfold apple_shape, apple_pattern in H.
  do 25 shape_step H s.
  destruct s; [|discriminate H]. clear H.
  repeat match goal with
         | H : Ascii.eqb ?c _ = true |- _ => apply Ascii.eqb_eq in H; subst c
         end.
  unfold apple_fields_valid, apple_instant, apple_offset, field.
  cbn [field_from ISO.char_at String.get].
  unfold parse_apple_date, ISO.fromisoformat.
  apply orb_prop in Hc19.
  destruct Hc19 as [Hs | Hs]; apply Ascii.eqb_eq in Hs; subst c19.
  all: unfold ISO.parse_isoformat_date, ISO.parse_isoformat_time,
         ISO.parse_hh_mm_ss_ff, ISO.NUL.
  all: repeat (parser_step; repeat char_step).
  all: repeat match goal with
              | H : ISO.is_digit ?c = true |- _ => apply digit_val_range in H
              end.
  - change ("+" =? "-")%char with false. cbv iota.
    apply shape_arithmetic; lia.
  - change ("-" =? "-")%char with true. cbv iota.
    apply shape_arithmetic; lia.
Qed.

End DateProperties.

(* ===================================================================== *)
(** * The properties at work *)
(* ===================================================================== *)

(** ** The test suite of the repository, on the model *)

(** [test_parse_apple_workouts], with the lines it prints. *)
Example test_parse_apple_workouts :
  fst (@parse_apple_workouts Sample.runtime Fixture.converter Fixture.world)
  = Ok [Fixture.running_record; Fixture.walking_record]
  ∧ stdout (snd (@parse_apple_workouts Sample.runtime Fixture.converter
                   Fixture.world))
    = [FoundTotal 3;
       WorkoutSource 0 "Bharat's Apple Watch";
       WorkoutSource 1 "Bharat's Apple Watch";
       WorkoutSource 2 "Strava";
       FoundAppleWatch 2; ParsedWithData 2].
Proof. split; reflexivity. Qed.

(** [test_parse_apple_date] *)
Example test_parse_apple_date :
  parse_apple_date "2024-01-15 10:00:00 +0000"
  = Ok (mkDatetime 2024 1 15 10 0 0 0 (Some 0)).
Proof. vm_compute. reflexivity. Qed.

(** [test_parse_gpx_file]: three points, none with a speed. *)
Example test_parse_gpx_file :
  match fst (@parse_gpx_file Sample.runtime Fixture.converter
               (Some ["export"; "workout-routes"; "route_2024-01-15_10.00am.gpx"])
               Fixture.world) with
  | Ok pts => (length pts, map speed pts)
  | Raise _ => (O, [])
  end = (3%nat, [None; None; None]).
Proof. vm_compute. reflexivity. Qed.

(** [test_parse_gpx_file_nonexistent] *)
Example test_parse_gpx_file_nonexistent :
  fst (@parse_gpx_file Sample.runtime Fixture.converter
         (Some ["export"; "workout-routes"; "nonexistent.gpx"]) Fixture.world)
  = Ok []
  ∧ stdout (snd (@parse_gpx_file Sample.runtime Fixture.converter
                   (Some ["export"; "workout-routes"; "nonexistent.gpx"])
                   Fixture.world))
    = [].
Proof. split; reflexivity. Qed.

(** [test_create_tcx_with_heart_rate]: the average and three points. *)
Example test_create_tcx_with_heart_rate :
  match fst (@create_tcx Sample.runtime Fixture.converter
               Fixture.running_record Fixture.world) with
  | Ok doc =>
      (map text (flat_map children (ET.findall_desc "AverageHeartRateBpm" doc)),
       length (ET.findall_desc "Trackpoint" doc))
  | Raise _ => ([], O)
  end = ([Some "150"], 3%nat).
Proof. vm_compute. reflexivity. Qed.

(** [test_convert_workouts_integration] and [test_activity_filter] *)
Example test_convert_workouts :
  fst (@convert_workouts Sample.runtime Fixture.converter (Some ["out"]) None
         Fixture.world)
  = Ok 2
  ∧ fst (@convert_workouts Sample.runtime Fixture.converter (Some ["out"])
           (Some "running") Fixture.world)
    = Ok 1.
Proof. split; vm_compute; reflexivity. Qed.

(** ** Instances and counterexamples *)

(** C1 on three workouts of which the second cannot be built: its
    calories are infinite.  The other two are written and counted. *)
Lemma convert_all_isolates_failures_witness :
  fst (@convert_all Sample.runtime Fixture.converter ["out"] ["out"; "no_hr"]
         [Fixture.running_record; Fixture.endless_record; Fixture.walking_record]
         Fixture.world)
  = Ok 2
  ∧ In (NoHrError (@start_time Sample.runtime Fixture.endless_record) OverflowError)
       (stdout (snd (@isolated_run Sample.runtime Fixture.converter
                       ["out"] ["out"; "no_hr"]
                       [Fixture.running_record; Fixture.endless_record;
                        Fixture.walking_record]
                       Fixture.world))).
Proof.
  pose proof (@convert_all_isolates_failures Sample.runtime Fixture.converter
                ["out"] ["out"; "no_hr"]
                [Fixture.running_record; Fixture.endless_record;
                 Fixture.walking_record]
                Fixture.world) as H.
  cbv zeta in H. destruct H as (Hrun & Hsum & _ & Hlog & _).
  assert (Hout : fst (@isolated_run Sample.runtime Fixture.converter
                        ["out"] ["out"; "no_hr"]
                        [Fixture.running_record; Fixture.endless_record;
                         Fixture.walking_record]
                        Fixture.world)
                 = [(Fixture.running_record, Ok tt);
                    (Fixture.endless_record, Raise OverflowError);
                    (Fixture.walking_record, Ok tt)])
    by reflexivity.
  split.
  - rewrite Hrun. cbn [fst]. rewrite Hsum, Hout. reflexivity.
  - apply (Hlog Fixture.endless_record OverflowError).
    rewrite Hout. right. left. reflexivity.
Defined.

(** C2 fails on an entry whose start date is written day first: both
    timestamps are present, the entry qualifies, and the extraction does not
    drop it but raises, for the entry and for the archive that holds it. *)
Lemma unparsed_boundary_is_not_dropped :
  is_apple_watch Fixture.day_first = true
  ∧ has_boundaries Fixture.day_first = true
  ∧ @extract_workout_data Sample.runtime Fixture.converter Fixture.day_first
    = Raise ValueError
  ∧ fst (@parse_apple_workouts Sample.runtime Fixture.converter
           (Fixture.world_of [Fixture.running; Fixture.day_first; Fixture.walking]))
    = Raise ValueError.
Proof. repeat split; reflexivity. Qed.

(** C2 as amended, on the entry without [endDate] (dropped), on the entry
    with a start date that does not parse (an exception) and on the archive
    of the test suite (two records for two entries with both dates). *)
Lemma boundary_timestamps_decide_emission_witness :
  @extract_workout_data Sample.runtime Fixture.converter Fixture.no_end_date
  = Ok None
  ∧ @extract_workout_data Sample.runtime Fixture.converter Fixture.day_first
    = Raise ValueError
  ∧ ∃ ws world',
      @parse_apple_workouts Sample.runtime Fixture.converter Fixture.world
      = (Ok ws, world')
      ∧ length ws = 2%nat.
Proof.
  destruct (@boundary_timestamps_decide_emission Sample.runtime Fixture.converter)
    as (_ & Hdrop & Hraise & Hcount).
  split; [|split].
  - apply Hdrop; vm_compute; reflexivity.
  - apply Hraise; vm_compute; reflexivity.
  - assert (Hok : is_ok (fst (@parse_apple_workouts Sample.runtime
                                 Fixture.converter Fixture.world)) = true)
      by (vm_compute; reflexivity).
    destruct (@parse_apple_workouts Sample.runtime Fixture.converter Fixture.world)
      as [[ws|e] world'] eqn:Hrun; [|discriminate Hok].
    exists ws, world'. split; [reflexivity|].
    destruct (Hcount Fixture.world Fixture.export_xml ws world') as [Hlen _].
    + vm_compute. reflexivity.
    + exact Hrun.
    + rewrite Hlen. vm_compute. reflexivity.
Defined.

(** C3.  [parse_gpx_file] at an input on which it propagates a fault: an
    Apple Watch entry whose route names a file of 300 characters.  The
    record extracted from the entry carries the path of that file;
    [gpx_file.exists()], which the method calls before its [try], raises
    [OSError] with [ENAMETOOLONG]; and the method raises it to its caller,
    with nothing printed and no list returned. *)
Theorem parse_gpx_file_propagates_exists_fault :
  @extract_workout_data Sample.runtime Fixture.converter Cases.long_route_walk
  = Ok (Some Cases.long_route_record)
  ∧ @gpx_file Sample.runtime Cases.long_route_record = Some Cases.long_path
  ∧ @path_exists Sample.runtime (fs Fixture.world) Cases.long_path
    = Raise (OSError Sample.ENAMETOOLONG)
  ∧ @parse_gpx_file Sample.runtime Fixture.converter (Some Cases.long_path)
      Fixture.world
    = (Raise (OSError Sample.ENAMETOOLONG), Fixture.world).
Proof. repeat split; reflexivity. Qed.

(** C4 fails in both directions: a text in another ISO 8601 form, the one
    [parse_gpx_file] itself feeds to the same function, is accepted, and a
    text of the shape that names the 30th of February is refused. *)
Lemma parse_apple_date_accepts_other_shapes :
  apple_shape "2024-01-15T10:00:00+00:00" = false
  ∧ parse_apple_date "2024-01-15T10:00:00+00:00"
    = Ok (mkDatetime 2024 1 15 10 0 0 0 (Some 0))
  ∧ apple_shape "2024-02-30 10:00:00 +0000" = true
  ∧ parse_apple_date "2024-02-30 10:00:00 +0000" = Raise ValueError.
Proof. repeat split; reflexivity. Qed.

(** C4 as amended, on the example of the source's comment. *)
Lemma parse_apple_date_on_shape_witness :
  apple_shape "2022-10-06 20:04:10 +0100" = true
  ∧ parse_apple_date "2022-10-06 20:04:10 +0100"
    = Ok (mkDatetime 2022 10 6 20 4 10 0 (Some 3600000000)).
Proof.
  assert (H : apple_shape "2022-10-06 20:04:10 +0100" = true)
    by (vm_compute; reflexivity).
  split; [exact H|].
  rewrite (proj1 (parse_apple_date_on_shape _ H)). vm_compute. reflexivity.
Defined.

(** C5 fails on a workout whose distance statistic is zero: the record
    has a distance, and neither builder gives the lap a [DistanceMeters]
    element. *)
Lemma zero_distance_is_not_emitted :
  @extract_workout_data Sample.runtime Fixture.converter Fixture.still_walk
  = Ok (Some Fixture.still_walk_record)
  ∧ @distance Sample.runtime Fixture.still_walk_record = Some (PyFloat.of_Z 0)
  ∧ lap_children_named "DistanceMeters"
      (fst (@create_tcx Sample.runtime Fixture.converter
              Fixture.still_walk_record Fixture.world))
    = Some []
  ∧ lap_children_named "DistanceMeters"
      (fst (@create_tcx_no_hr Sample.runtime Fixture.converter
              Fixture.still_walk_record Fixture.world))
    = Some [].
Proof. repeat split; reflexivity. Qed.

(** C5 as amended, on the running workout of the test suite, for which
    [create_tcx] returns a document, and on the record whose track file has
    a name that is too long, for which it returns none. *)
Lemma optional_fields_emitted_witness :
  (∃ doc,
     fst (@create_tcx Sample.runtime Fixture.converter Fixture.running_record
            Fixture.world) = Ok doc
     ∧ @lap_fields_emitted Sample.runtime Fixture.running_record doc
     ∧ @hr_summary_emitted Sample.runtime Fixture.running_record doc)
  ∧ is_ok (fst (@create_tcx Sample.runtime Fixture.converter
                  Cases.long_route_record Fixture.world)) = false.
Proof.
  split.
  - destruct (fst (@create_tcx Sample.runtime Fixture.converter
                     Fixture.running_record Fixture.world))
      as [doc|e] eqn:Hdoc; [|vm_compute in Hdoc; discriminate Hdoc].
    exists doc. split; [reflexivity|].
    exact (proj1 (proj2 (proj2
             (@optional_fields_emitted Sample.runtime Fixture.converter
                Fixture.running_record Fixture.world))) doc Hdoc).
  - rewrite (proj1 (@optional_fields_emitted Sample.runtime Fixture.converter
                      Cases.long_route_record Fixture.world)).
    vm_compute. reflexivity.
Defined.

(** C6 fails on a track of well-formed markup in which a value cannot be
    read: the file is there and parses, each of its three points has a
    timestamp child, the third one a text that is no date, and no point
    comes out. *)
Lemma unreadable_value_empties_track :
  @path_exists Sample.runtime (fs Cases.broken_world) Cases.broken_path = Ok true
  ∧ @ET_parse Sample.runtime (fs Cases.broken_world) Cases.broken_path
    = Ok Cases.broken_route
  ∧ length (List.filter has_time (track_points Cases.broken_route)) = 3%nat
  ∧ fst (@parse_gpx_file Sample.runtime Fixture.converter
           (Some Cases.broken_path) Cases.broken_world)
    = Ok []
  ∧ ¬ ∃ pts,
        fst (@parse_gpx_file Sample.runtime Fixture.converter
               (Some Cases.broken_path) Cases.broken_world)
        = Ok pts
        ∧ Forall2 (@denotes Sample.runtime)
            (List.filter has_time (track_points Cases.broken_route)) pts.
Proof.
  assert (Hrun : fst (@parse_gpx_file Sample.runtime Fixture.converter
                        (Some Cases.broken_path) Cases.broken_world)
                 = Ok [])
    by (vm_compute; reflexivity).
  assert (Hlen : length (List.filter has_time (track_points Cases.broken_route))
                 = 3%nat)
    by (vm_compute; reflexivity).
  split; [vm_compute; reflexivity|].
  split; [reflexivity|].
  split; [exact Hlen|].
  split; [exact Hrun|].
  intros (pts & Hpts & Hall). rewrite Hrun in Hpts. injection Hpts as <-.
  apply Forall2_length in Hall. rewrite Hlen in Hall. discriminate Hall.
Qed.

(** C6 as amended, on a track of three points of which the third has no
    timestamp: two points come out, with the timestamps of the first and
    of the second element. *)
Lemma parse_gpx_file_document_order_witness :
  ∃ pts,
    @parse_gpx_file Sample.runtime Fixture.converter
      (Some Fixture.missing_time_path) Fixture.missing_time_world
    = (Ok pts, Fixture.missing_time_world)
    ∧ length pts = 2%nat
    ∧ map time pts = [mkDatetime 2024 1 15 10 0 0 0 (Some 0);
                      mkDatetime 2024 1 15 10 0 10 0 (Some 0)].
Proof.
  destruct (@parse_gpx_file_document_order Sample.runtime Fixture.converter
              Fixture.missing_time_path Fixture.missing_time_world
              Fixture.route_missing_time)
    as (pts & Hrun & _ & Hthree).
  - vm_compute. reflexivity.
  - vm_compute. reflexivity.
  - vm_compute. reflexivity.
  - exists pts. split; [exact Hrun|].
    match eval vm_compute in (@track_points Fixture.route_missing_time) with
    | [?p1; ?p2; ?p3] =>
        destruct (Hthree p1 p2 p3) as (tp1 & tp2 & -> & Hd1 & Hd2);
          [vm_compute; reflexivity .. | ]
    end.
    split; [reflexivity|].
    destruct Hd1 as (_ & _ & _ & (te1 & s1 & Hte1 & Hs1 & Ht1) & _).
    destruct Hd2 as (_ & _ & _ & (te2 & s2 & Hte2 & Hs2 & Ht2) & _).
    vm_compute in Hte1. injection Hte1 as <-.
    vm_compute in Hte2. injection Hte2 as <-.
    cbn [text] in Hs1, Hs2. injection Hs1 as <-. injection Hs2 as <-.
    assert (H1 : ISO.fromisoformat (PyStr.replace "Z" "+00:00" "2024-01-15T10:00:00Z")
                 = Ok (mkDatetime 2024 1 15 10 0 0 0 (Some 0)))
      by (vm_compute; reflexivity).
    assert (H2 : ISO.fromisoformat (PyStr.replace "Z" "+00:00" "2024-01-15T10:00:10Z")
                 = Ok (mkDatetime 2024 1 15 10 0 10 0 (Some 0)))
      by (vm_compute; reflexivity).
    rewrite H1 in Ht1. rewrite H2 in Ht2. cbn [map].
    injection Ht1 as <-. injection Ht2 as <-. reflexivity.
Defined.

(** C7 fails on an Apple Watch entry without [endDate]: its source name
    contains the device name, and it is not in the output. *)
Lemma qualifying_entry_is_not_included :
  PyStr.contains "Apple Watch" (source_name Fixture.no_end_date) = true
  ∧ is_apple_watch Fixture.no_end_date = true
  ∧ fst (@parse_apple_workouts Sample.runtime Fixture.converter
           (Fixture.world_of [Fixture.no_end_date]))
    = Ok [].
Proof. repeat split; reflexivity. Qed.

(** C7 as amended, on the archive of the test suite: the two Apple Watch
    entries give the two records and the Strava entry gives none. *)
Lemma source_name_decides_inclusion_witness :
  is_apple_watch Fixture.strava = false
  ∧ ∃ w1 w2,
      fst (@parse_apple_workouts Sample.runtime Fixture.converter Fixture.world)
      = Ok [w1; w2]
      ∧ @extracted_from Sample.runtime Fixture.converter Fixture.running w1
      ∧ @extracted_from Sample.runtime Fixture.converter Fixture.walking w2.
Proof.
  destruct (@source_name_decides_inclusion Sample.runtime Fixture.converter)
    as (_ & _ & _ & Hout).
  split; [vm_compute; reflexivity|].
  assert (Hok : is_ok (fst (@parse_apple_workouts Sample.runtime
                               Fixture.converter Fixture.world)) = true)
    by (vm_compute; reflexivity).
  destruct (@parse_apple_workouts Sample.runtime Fixture.converter Fixture.world)
    as [[ws|e] world'] eqn:Hrun; [|discriminate Hok].
  assert (Hroot : @ET_parse Sample.runtime (fs Fixture.world)
                    (export_xml Fixture.converter) = Ok Fixture.export_xml)
    by (vm_compute; reflexivity).
  pose proof (Hout Fixture.world Fixture.export_xml ws world' Hroot Hrun) as Hall.
  replace (List.filter (λ e, is_apple_watch e && has_boundaries e)
             (entries Fixture.export_xml))
    with [Fixture.running; Fixture.walking] in Hall
    by (vm_compute; reflexivity).
  inversion Hall as [|? w1 ? ws1 H1 Hall1]; subst.
  inversion Hall1 as [|? w2 ? ws2 H2 Hall2]; subst.
  inversion Hall2; subst.
  exists w1, w2. auto.
Defined.

(* ===================================================================== *)
(** * Further properties of the pipeline *)
(* ===================================================================== *)

Section RunReportProperties.
Context {R : Runtime}.

Lemma quiet_ret {A} (a : A) : quiet (ret a).
Proof. intros world. exists []. simpl. now rewrite app_nil_r. Qed.

Lemma quiet_lift {A} (r : result A) : quiet (lift r).
Proof. intros world. exists []. simpl. now rewrite app_nil_r. Qed.

Lemma quiet_print (l : Line) : is_error_line l = false → quiet (print l).
Proof.
  intros Hl world. exists [l]. split; [reflexivity|].
  unfold error_lines. simpl. now rewrite Hl.
Qed.

Lemma quiet_on_fs {A} (op : FS → result A * FS) : quiet (on_fs op).
Proof.
  intros world. exists []. unfold on_fs.
  destruct (op (fs world)). simpl. now rewrite app_nil_r.
Qed.

Lemma error_lines_app (l1 l2 : list Line) :
  error_lines (l1 ++ l2) = error_lines l1 ++ error_lines l2.
Proof. apply List.filter_app. Qed.

Lemma quiet_bind {A B} (c : M A) (k : A → M B) :
  quiet c → (∀ a, quiet (k a)) → quiet (bind c k).
Proof.
  intros Hc Hk world. unfold bind.
  destruct (Hc world) as (l & Hl & Hq). destruct (c world) as [[a|e] world1].
  - destruct (Hk a world1) as (l' & Hl' & Hq'). exists (l ++ l').
    simpl in Hl. rewrite Hl', Hl, app_assoc, error_lines_app, Hq, Hq'. auto.
  - exists l. auto.
Qed.

Lemma quiet_parse_gpx_file (self : AppleWorkoutConverter) (g : option Path) :
  quiet (parse_gpx_file self g).
Proof.
  intros world. destruct g as [f|].
  - rewrite parse_gpx_file_unfold.
    destruct (path_exists (fs world) f) as [[|]|e].
    + destruct (gpx_try_block (fs world) f).
      * exists []. simpl. now rewrite app_nil_r.
      * eexists. split; reflexivity.
    + exists []. simpl. now rewrite app_nil_r.
    + exists []. simpl. now rewrite app_nil_r.
  - exists []. simpl. now rewrite app_nil_r.
Qed.

Ltac quiet_tac :=
  repeat first
    [ apply quiet_ret | apply quiet_lift | apply quiet_print; reflexivity
    | apply quiet_on_fs | apply quiet_parse_gpx_file
    | apply quiet_bind; [|intros ?]
    | match goal with
      | |- quiet (match ?x with _ => _ end) => destruct x
      | |- quiet (if ?x then _ else _) => destruct x
      end ].

Lemma quiet_attempt (self : AppleWorkoutConverter) (od nd : Path) (w : workout) :
  quiet (attempt self od nd w).
Proof.
  unfold attempt, write_no_hr, write_hr, create_tcx, create_tcx_no_hr.
  destruct (heart_rate w) as [hr|]; quiet_tac.
Qed.

Lemma is_error_line_error_line (w : workout) (e : exn) :
  is_error_line (error_line w e) = true.
Proof. unfold error_line. now destruct (heart_rate w). Qed.

(** What an isolated run prints: the lines of the attempts, with one report
    after each attempt that raised and no other report. *)
Lemma isolated_run_error_lines (self : AppleWorkoutConverter) (od nd : Path)
    (ws : list workout) (world : World) :
  ∃ l, stdout (snd (isolated_run self od nd ws world)) = stdout world ++ l
       ∧ error_lines l = reports (fst (isolated_run self od nd ws world)).
Proof.
  revert world. induction ws as [|w rest IH]; intros world; simpl.
  - exists []. now rewrite app_nil_r.
  - destruct (quiet_attempt self od nd w world) as (l1 & Hl1 & Hq1).
    destruct (attempt self od nd w world) as [r world1]. simpl in Hl1.
    match goal with |- context [isolated_run self od nd rest ?w2] =>
      destruct (IH w2) as (l2 & Hl2 & Hq2);
      destruct (isolated_run self od nd rest w2) as [outcomes world3] end.
    simpl in *. rewrite Hl2. destruct r as [[]|e]; simpl; rewrite Hl1.
    + exists (l1 ++ l2). rewrite app_assoc, error_lines_app, Hq1, Hq2. auto.
    + exists (l1 ++ [error_line w e] ++ l2).
      rewrite <- !app_assoc, !error_lines_app, Hq1, Hq2. split; [reflexivity|].
      unfold error_lines at 1. simpl. now rewrite is_error_line_error_line.
Qed.

Lemma written_reports_length (outcomes : list (workout * result unit)) :
  (length (written outcomes) + length (reports outcomes))%nat = length outcomes.
Proof.
  unfold written, reports.
  induction outcomes as [|[w [[]|e]] l IH]; simpl in *; lia.
Qed.

Lemma with_without_hr_length (ws : list workout) :
  (length (with_hr ws) + length (without_hr ws))%nat = length ws.
Proof.
  unfold with_hr, without_hr.
  induction ws as [|w l IH]; simpl; [reflexivity|].
  destruct (heart_rate w); simpl; lia.
Qed.

(** X1.  The loop of [convert_workouts] accounts for every workout once: the
    run returns a count between zero and the number of workouts, the only
    reports of a caught exception among the lines it prints are those of the
    attempts that raised, one each and in the order of the workouts, and the
    count and the number of those reports add up to the number of workouts.
    The count is the number of workouts exactly when no report is printed. *)
Theorem convert_all_accounts_for_every_workout (self : AppleWorkoutConverter)
    (output_dir no_hr_dir : Path) (workouts : list workout) (world : World) :
  ∃ n world' printed,
    convert_all self output_dir no_hr_dir workouts world = (Ok n, world')
    ∧ stdout world' = stdout world ++ printed
    ∧ error_lines printed
      = reports (fst (isolated_run self output_dir no_hr_dir workouts world))
    ∧ 0 <= n <= Z.of_nat (length workouts)
    ∧ n + Z.of_nat (length (error_lines printed)) = Z.of_nat (length workouts)
    ∧ (n = Z.of_nat (length workouts) ↔ error_lines printed = []).
Proof.
  destruct (isolated_run_error_lines self output_dir no_hr_dir workouts world)
    as (l & Hl & Hq).
  pose proof (isolated_run_all self output_dir no_hr_dir workouts world) as Hall.
  pose proof (written_reports_length
                (fst (isolated_run self output_dir no_hr_dir workouts world))) as Hlen.
  pose proof (with_without_hr_length
                (written (fst (isolated_run self output_dir no_hr_dir workouts world))))
    as Hsplit.
  apply (f_equal (@length _)) in Hall. rewrite length_map in Hall.
  eexists _, _, (l ++ _). split; [|split; [|split]].
  - unfold convert_all, bind. rewrite convert_loop_isolated. simpl.
    unfold print, ret. simpl. reflexivity.
  - cbn [stdout]. rewrite Hl, <- !app_assoc. reflexivity.
  - rewrite error_lines_app, Hq. simpl. now rewrite app_nil_r.
  - rewrite error_lines_app, Hq. simpl. rewrite app_nil_r.
    split; [lia|]. split; [lia|]. split.
    + intros Hn. apply length_zero_iff_nil. lia.
    + intros Hr. rewrite Hr in Hlen. simpl in Hlen. lia.
Qed.

End RunReportProperties.

Section ArchiveLogProperties.
Context {R : Runtime}.

Lemma world_eta (world : World) :
  {| stdout := stdout world; fs := fs world |} = world.
Proof. now destruct world. Qed.

(** The loop over the entries when no extraction raises: the counters, and
    the lines printed from index [i] on. *)
Lemma parse_loop_log (self : AppleWorkoutConverter) (all : list Element)
    (i count : nat) (acc : list workout) (world : World)
    (rs : list (option workout)) :
  rmap (extract_workout_data self) (List.filter is_apple_watch all) = Ok rs →
  parse_loop self i all count acc world =
  (Ok ((count + length (List.filter is_apple_watch all))%nat, acc ++ records rs),
   {| stdout := stdout world ++
                imap (fun j e => WorkoutSource (i + j) (source_name e))
                     (take (5 - i) all);
      fs := fs world |}).
Proof.
  revert i count acc world rs.
  induction all as [|e rest IH]; intros i count acc world rs Hrs.
  - simpl in Hrs. injection Hrs as <-. cbn [parse_loop ret List.filter length records].
    rewrite take_nil, Nat.add_0_r, !app_nil_r. simpl. rewrite ?app_nil_r.
    now rewrite world_eta.
  - cbn [parse_loop List.filter] in *. unfold bind at 1.
    assert (Hprint :
      (if (i <? 5)%nat then print (WorkoutSource i (source_name e)) else ret tt) world
      = (Ok tt, {| stdout := stdout world ++
                     (if (i <? 5)%nat then [WorkoutSource i (source_name e)] else []);
                   fs := fs world |})).
    { destruct (i <? 5)%nat; [reflexivity|].
      unfold ret. now rewrite app_nil_r, world_eta. }
    change (ET.get_default e "sourceName" "") with (source_name e).
    rewrite Hprint. clear Hprint.
    assert (Htake : ∀ l : list Line,
      (if (i <? 5)%nat then [WorkoutSource i (source_name e)] else []) ++
      imap (fun j x => WorkoutSource (S i + j) (source_name x)) (take (5 - S i) rest)
      = imap (fun j x => WorkoutSource (i + j) (source_name x)) (take (5 - i) (e :: rest))).
    { intros _. destruct (i <? 5)%nat eqn:Hi.
      - apply Nat.ltb_lt in Hi. replace (5 - i)%nat with (S (5 - S i)) by lia.
        cbn [take imap]. rewrite Nat.add_0_r. simpl. f_equal.
        apply imap_ext. intros j x _. simpl. f_equal. lia.
      - apply Nat.ltb_ge in Hi. replace (5 - i)%nat with 0%nat by lia.
        replace (5 - S i)%nat with 0%nat by lia. reflexivity. }
    specialize (Htake []).
    destruct (is_apple_watch e).
    + cbn [rmap] in Hrs. unfold rbind in Hrs. unfold bind, lift.
      destruct (extract_workout_data self e) as [r|x]; [|discriminate].
      destruct (rmap (extract_workout_data self) (List.filter is_apple_watch rest))
        as [rs'|x] eqn:Hrest; [|discriminate].
      injection Hrs as <-.
      rewrite (IH (S i) (S count) _ _ rs' eq_refl). cbn [stdout fs length].
      rewrite <- app_assoc, Htake.
      replace (S count + length (List.filter is_apple_watch rest))%nat
        with (count + S (length (List.filter is_apple_watch rest)))%nat by lia.
      destruct r; simpl; [now rewrite <- app_assoc|reflexivity].
    + rewrite (IH (S i) count acc _ rs Hrs). cbn [stdout fs].
      now rewrite <- app_assoc, Htake.
Qed.

Lemma records_length (rs : list (option workout)) :
  (length (records rs) <= length rs)%nat.
Proof. induction rs as [|[w|] rs IH]; simpl; lia. Qed.

Lemma rmap_length {A B} (f : A → result B) (l : list A) (bs : list B) :
  rmap f l = Ok bs → length bs = length l.
Proof.
  revert bs. induction l as [|a l IH]; intros bs H; simpl in H.
  - now injection H as <-.
  - unfold rbind in H. destruct (f a); [|discriminate].
    destruct (rmap f l) as [bs'|]; [|discriminate].
    injection H as <-. simpl. now rewrite (IH bs' eq_refl).
Qed.

(** The run of [parse_apple_workouts] on an archive that is read and whose
    qualifying entries are all extracted. *)
Lemma parse_apple_workouts_reads (self : AppleWorkoutConverter) (world : World)
    (root : Element) (rs : list (option workout)) :
  ET_parse (fs world) (export_xml self) = Ok root →
  rmap (extract_workout_data self) (qualifying root) = Ok rs →
  parse_apple_workouts self world
  = (Ok (records rs),
     {| stdout := stdout world ++ archive_log root rs; fs := fs world |}).
Proof.
  intros Hroot Hrs.
  unfold parse_apple_workouts, bind at 1. rewrite Hroot.
  unfold bind at 1. unfold print at 1.
  unfold bind at 1. unfold qualifying, entries in Hrs.
  rewrite (parse_loop_log self _ 0 0 [] _ rs Hrs).
  unfold bind, print, ret. cbn [stdout fs fst snd app].
  unfold archive_log, source_lines, qualifying, entries.
  rewrite <- !app_assoc. reflexivity.
Qed.

(** X3.  What [parse_apple_workouts] prints and leaves behind.  When the
    archive cannot be read the exception is raised before anything is
    printed.  When it is read and no extraction raises, the method returns the
    records and has printed the number of entries, the source names of the
    first five entries with their indices, the number of qualifying entries
    and the number of records, in this order; the three numbers decrease, and
    the file system is the one it started from. *)
Theorem parse_apple_workouts_log (self : AppleWorkoutConverter) (world : World) :
  (∀ e, ET_parse (fs world) (export_xml self) = Raise e →
        parse_apple_workouts self world = (Raise e, world))
  ∧ (∀ root rs,
       ET_parse (fs world) (export_xml self) = Ok root →
       rmap (extract_workout_data self) (qualifying root) = Ok rs →
       parse_apple_workouts self world
       = (Ok (records rs),
          {| stdout := stdout world ++ archive_log root rs; fs := fs world |})
       ∧ (length (records rs) <= length (qualifying root)
          <= length (entries root))%nat).
Proof.
  split.
  - intros e He. unfold parse_apple_workouts, bind. now rewrite He.
  - intros root rs Hroot Hrs. split.
    + now apply parse_apple_workouts_reads.
    + split.
      * rewrite <- (rmap_length _ _ _ Hrs). apply records_length.
      * unfold qualifying. apply List.filter_length_le.
Qed.

End ArchiveLogProperties.

Section PreludeProperties.
Context {R : Runtime}.

(** An extraction that raises ends [parse_apple_workouts] with its
    exception; the file system is left as it was. *)
Lemma parse_apple_workouts_raises (self : AppleWorkoutConverter) (world : World)
    (root : Element) (e : exn) :
  ET_parse (fs world) (export_xml self) = Ok root →
  rmap (extract_workout_data self) (qualifying root) = Raise e →
  ∃ world', parse_apple_workouts self world = (Raise e, world')
            ∧ fs world' = fs world.
Proof.
  intros Hroot Hrs. unfold parse_apple_workouts, bind at 1. rewrite Hroot.
  unfold bind at 1. unfold print at 1. unfold bind at 1.
  match goal with |- context [parse_loop self 0 ?all 0 [] ?w] =>
    destruct (parse_loop_spec self all 0 0 [] w) as (world' & Hloop & Hfs);
    rewrite Hloop end.
  unfold qualifying, entries in Hrs. rewrite Hrs.
  exists world'. split; [reflexivity|]. exact Hfs.
Qed.

(** X2.  What precedes the loop of [convert_workouts] is not guarded: an
    exception raised while the output directory is created, while the archive
    is read or while one of its qualifying entries is extracted ends the whole
    run with that exception.  Nothing is converted then: the file system is
    the one the first [mkdir] left. *)
Theorem convert_workouts_prelude_faults (self : AppleWorkoutConverter)
    (output_dir : option Path) (activity_filter : option string) (world : World) :
  let out := output_root self output_dir in
  (∀ e fs1,
     mkdir false out (fs world) = (Raise e, fs1) →
     convert_workouts self output_dir activity_filter world
     = (Raise e, {| stdout := stdout world; fs := fs1 |}))
  ∧ (∀ e fs1,
       mkdir false out (fs world) = (Ok tt, fs1) →
       ET_parse fs1 (export_xml self) = Raise e →
       convert_workouts self output_dir activity_filter world
       = (Raise e, {| stdout := stdout world; fs := fs1 |}))
  ∧ (∀ e fs1 root,
       mkdir false out (fs world) = (Ok tt, fs1) →
       ET_parse fs1 (export_xml self) = Ok root →
       rmap (extract_workout_data self) (qualifying root) = Raise e →
       ∃ world',
         convert_workouts self output_dir activity_filter world = (Raise e, world')
         ∧ fs world' = fs1).
Proof.
  cbv zeta. unfold output_root. split; [|split].
  - intros e fs1 Hmk. unfold convert_workouts, bind at 1. unfold on_fs at 1.
    now rewrite Hmk.
  - intros e fs1 Hmk Hparse. unfold convert_workouts, bind at 1.
    unfold on_fs at 1. rewrite Hmk. unfold bind at 1.
    unfold parse_apple_workouts, bind at 1. cbn [fs]. now rewrite Hparse.
  - intros e fs1 root Hmk Hparse Hrs. unfold convert_workouts, bind at 1.
    unfold on_fs at 1. rewrite Hmk. unfold bind at 1.
    destruct (parse_apple_workouts_raises self
                {| stdout := stdout world; fs := fs1 |} root e Hparse Hrs)
      as (world' & Hrun & Hfs).
    rewrite Hrun. exists world'. split; [reflexivity|exact Hfs].
Qed.

Lemma selected_lower (f g : string) (ws : list workout) :
  PyStr.truthy f = true → PyStr.truthy g = true →
  str_lower f = str_lower g →
  selected (Some f) ws = selected (Some g) ws.
Proof. intros Hf Hg H. unfold selected. now rewrite Hf, Hg, H. Qed.

Lemma selected_sublist (a : option string) (ws : list workout) :
  (length (selected a ws) <= length ws)%nat.
Proof.
  unfold selected. destruct a as [f|]; [|lia].
  destruct (PyStr.truthy f); [apply List.filter_length_le|lia].
Qed.

Lemma convert_workouts_selected (self : AppleWorkoutConverter)
    (output_dir : option Path) (a : option string) (world : World) :
  convert_workouts self output_dir a world =
  (let out := output_root self output_dir in
   let* _ := on_fs (mkdir false out) in
   let* workouts := parse_apple_workouts self in
   let* _ := on_fs (mkdir false (joinpath out "no_heart_rate")) in
   convert_all self out (joinpath out "no_heart_rate") (selected a workouts))%io
  world.
Proof. reflexivity. Qed.

Lemma convert_all_count_bound (self : AppleWorkoutConverter) (od nd : Path)
    (ws : list workout) (world : World) :
  ∃ n world', convert_all self od nd ws world = (Ok n, world')
              ∧ 0 <= n <= Z.of_nat (length ws).
Proof.
  unfold convert_all, bind at 1. rewrite convert_loop_isolated.
  eexists _, _. split; [reflexivity|].
  pose proof (isolated_run_all self od nd ws world) as Hall.
  apply (f_equal (@length _)) in Hall. rewrite length_map in Hall.
  pose proof (written_reports_length (fst (isolated_run self od nd ws world))).
  pose proof (with_without_hr_length
                (written (fst (isolated_run self od nd ws world)))).
  lia.
Qed.

(** X4.  The activity filter of [convert_workouts].  No filter and the empty
    filter keep every workout; two filters that are not empty and have the
    same lower-case form give the same run; and a run that gets past the
    directories and the archive returns normally, with a count of at most the
    number of records whose sport, in lower case, contains the filter in
    lower case. *)
Theorem convert_workouts_activity_filter (self : AppleWorkoutConverter)
    (output_dir : option Path) (world : World) :
  convert_workouts self output_dir (Some "") world
  = convert_workouts self output_dir None world
  ∧ (∀ f g, PyStr.truthy f = true → PyStr.truthy g = true →
            str_lower f = str_lower g →
            convert_workouts self output_dir (Some f) world
            = convert_workouts self output_dir (Some g) world)
  ∧ (∀ a fs1 root rs fs2,
       let out := output_root self output_dir in
       mkdir false out (fs world) = (Ok tt, fs1) →
       ET_parse fs1 (export_xml self) = Ok root →
       rmap (extract_workout_data self) (qualifying root) = Ok rs →
       mkdir false (joinpath out "no_heart_rate") fs1 = (Ok tt, fs2) →
       ∃ n world',
         convert_workouts self output_dir a world = (Ok n, world')
         ∧ 0 <= n <= Z.of_nat (length (selected a (records rs)))
         ∧ (length (selected a (records rs)) <= length (records rs))%nat).
Proof.
  split; [reflexivity|]. split.
  - intros f g Hf Hg H. rewrite !convert_workouts_selected. unfold bind.
    destruct (on_fs (mkdir false (output_root self output_dir)) world)
      as [[[]|e] w1]; [|reflexivity].
    destruct (parse_apple_workouts self w1) as [[ws|e] w2]; [|reflexivity].
    destruct (on_fs _ w2) as [[[]|e] w3]; [|reflexivity].
    now rewrite (selected_lower f g ws Hf Hg H).
  - intros a fs1 root rs fs2 out Hmk Hparse Hrs Hmk2.
    rewrite convert_workouts_selected. fold out. cbv zeta.
    unfold bind at 1. unfold on_fs at 1. rewrite Hmk.
    unfold bind at 1.
    rewrite (parse_apple_workouts_reads self
               {| stdout := stdout world; fs := fs1 |} root rs Hparse Hrs).
    unfold bind at 1. unfold on_fs at 1. cbn [fs]. rewrite Hmk2.
    match goal with |- context [convert_all self ?od ?nd ?ws ?w] =>
      destruct (convert_all_count_bound self od nd ws w) as (n & world' & Hrun & Hn)
    end.
    exists n, world'. split; [exact Hrun|]. split; [exact Hn|].
    apply selected_sublist.
Qed.

End PreludeProperties.

Section StringReplaceProperties.

Lemma startswith_refl (s : string) : PyStr.startswith s s = true.
Proof. induction s as [|c s IH]; simpl; [reflexivity|]. now rewrite Ascii.eqb_refl. Qed.

(** Bytes still to be skipped are dropped whatever they are. *)
Lemma replace_from_skip (old new : string) (s1 s2 : string) :
  PyStr.replace_from old new (String.length s1) (s1 ++ s2)
  = PyStr.replace_from old new 0 s2.
Proof.
  induction s1 as [|c s1 IH]; simpl.
  - destruct s2; reflexivity.
  - exact IH.
Qed.

(** A text in which the first byte of [old] does not occur is copied. *)
Lemma replace_from_absent (c : ascii) (old' new : string) (n s : string) :
  PyStr.contains (String c "") n = false →
  PyStr.replace_from (String c old') new 0 (n ++ s)
  = (n ++ PyStr.replace_from (String c old') new 0 s)%string.
Proof.
  induction n as [|a n IH]; intros Hn; [reflexivity|].
  cbn [PyStr.contains PyStr.startswith] in Hn.
  apply orb_false_iff in Hn. destruct Hn as [Ha Hn].
  destruct (Ascii.eqb c a) eqn:Hca; [discriminate|].
  change (String a n ++ s)%string with (String a (n ++ s)).
  change (String a n ++ ?t)%string with (String a (n ++ t)).
  cbn [PyStr.replace_from PyStr.startswith]. rewrite Hca.
  now rewrite (IH Hn).
Qed.

(** One occurrence of [old] after such a text is replaced, and the scan
    goes on behind it. *)
Lemma replace_occurrence (c : ascii) (old' new : string) (n rest : string) :
  PyStr.contains (String c "") n = false →
  PyStr.replace (String c old') new (n ++ String c old' ++ rest)
  = (n ++ new ++ PyStr.replace (String c old') new rest)%string.
Proof.
  intros Hn. unfold PyStr.replace. rewrite (replace_from_absent c old' new n _ Hn).
  f_equal. change (String c old' ++ rest)%string with (String c (old' ++ rest)).
  cbn [PyStr.replace_from].
  replace (PyStr.startswith (String c old') (String c (old' ++ rest))) with true.
  2:{ symmetry. apply startswith_spec. now exists rest. }
  f_equal.
  replace (String.length (String c old') - 1)%nat with (String.length old')
    by (simpl; lia).
  apply replace_from_skip.
Qed.

Lemma append_empty_r (s : string) : (s ++ "")%string = s.
Proof.
  induction s as [|c s IH]; [reflexivity|].
  change (String c s ++ "")%string with (String c (s ++ "")). now rewrite IH.
Qed.

Lemma replace_absent (c : ascii) (old' new : string) (n : string) :
  PyStr.contains (String c "") n = false →
  PyStr.replace (String c old') new n = n.
Proof.
  intros Hn. unfold PyStr.replace.
  rewrite <- (append_empty_r n) at 1.
  rewrite (replace_from_absent c old' new n "" Hn).
  cbn [PyStr.replace_from]. apply append_empty_r.
Qed.

End StringReplaceProperties.

Section StatisticsProperties.
Context {R : Runtime}.

Lemma last_of_kind_cons (k : stat_kind) (stat : Element) (stats : list Element) :
  last_of_kind k (stat :: stats) =
  match last_of_kind k stats with
  | Some s => Some s
  | None => if is_kind k stat then Some stat else None
  end.
Proof.
  unfold last_of_kind. cbn [List.filter].
  destruct (is_kind k stat); [|now destruct (last _)].
  rewrite last_cons. reflexivity.
Qed.

(** The loop over the statistics, from any value of the three fields. *)
Lemma extract_stats_last (stats : list Element)
    (hr0 hr : option HeartRate.t) (d0 d c0 c : option float) :
  extract_stats stats (hr0, d0, c0) = Ok (hr, d, c) →
  field_from_last heart_rate_of HeartRateStat stats hr0 hr
  ∧ field_from_last sum_of DistanceStat stats d0 d
  ∧ field_from_last sum_of EnergyStat stats c0 c.
Proof.
  unfold field_from_last.
  revert hr0 d0 c0. induction stats as [|stat stats IH]; intros hr0 d0 c0 H.
  - simpl in H. injection H as <- <- <-. unfold last_of_kind. simpl. auto.
  - cbn [extract_stats] in H. unfold rbind at 1 in H.
    destruct (extract_stat stat (hr0, d0, c0)) as [[[hr1 d1] c1]|x] eqn:Hstat;
      [|discriminate].
    specialize (IH hr1 d1 c1 H). destruct IH as (IHh & IHd & IHc).
    rewrite !last_of_kind_cons.
    unfold extract_stat in Hstat. unfold is_kind, kind_of. cbv zeta.
    destruct (PyStr.contains "HeartRate" (ET.get_default stat "type" "")).
    { unfold rbind in Hstat.
      destruct (float_get stat "average") as [a|] eqn:Ha; [|discriminate].
      destruct (int_get stat "minimum") as [mn|] eqn:Hmn; [|discriminate].
      destruct (int_get stat "maximum") as [mx|] eqn:Hmx; [|discriminate].
      injection Hstat as <- <- <-. cbn [stat_kind_eqb].
      split; [|split].
      - destruct (last_of_kind HeartRateStat stats); [exact IHh|].
        exists (HeartRate.mk a mn mx). split; [|exact IHh].
        unfold heart_rate_of. simpl. auto.
      - destruct (last_of_kind DistanceStat stats); exact IHd.
      - destruct (last_of_kind EnergyStat stats); exact IHc. }
    destruct (PyStr.contains "DistanceWalkingRunning" (ET.get_default stat "type" "")).
    { unfold rbind in Hstat.
      destruct (float_get stat "sum") as [x|] eqn:Hx; [|discriminate].
      injection Hstat as <- <- <-. cbn [stat_kind_eqb].
      split; [|split].
      - destruct (last_of_kind HeartRateStat stats); exact IHh.
      - destruct (last_of_kind DistanceStat stats); [exact IHd|].
        exists x. split; [exact Hx|exact IHd].
      - destruct (last_of_kind EnergyStat stats); exact IHc. }
    destruct (PyStr.contains "ActiveEnergyBurned" (ET.get_default stat "type" "")).
    { unfold rbind in Hstat.
      destruct (float_get stat "sum") as [x|] eqn:Hx; [|discriminate].
      injection Hstat as <- <- <-. cbn [stat_kind_eqb].
      split; [|split].
      - destruct (last_of_kind HeartRateStat stats); exact IHh.
      - destruct (last_of_kind DistanceStat stats); exact IHd.
      - destruct (last_of_kind EnergyStat stats); [exact IHc|].
        exists x. split; [exact Hx|exact IHc]. }
    injection Hstat as <- <- <-.
    split; [|split].
    + destruct (last_of_kind HeartRateStat stats); exact IHh.
    + destruct (last_of_kind DistanceStat stats); exact IHd.
    + destruct (last_of_kind EnergyStat stats); exact IHc.
Qed.

(** The steps of a successful extraction, one by one. *)
Lemma extract_steps (self : AppleWorkoutConverter) (e : Element) (w : workout) :
  extracted_from self e w →
  sport w = convert_activity_type (ET.get_default e "workoutActivityType" "")
  ∧ float_get e "duration" = Ok (duration_minutes w)
  ∧ extract_stats (statistics e) (None, None, None)
    = Ok (heart_rate w, distance w, calories w)
  ∧ match elevation_entry e with
    | Some m =>
        ∃ cm, float_str (PyStr.replace " cm" "" (ET.get_default m "value" "0 cm"))
              = Ok cm
              ∧ elevation_gain w = Some (PyFloat.div cm (PyFloat.of_Z 100))
    | None => elevation_gain w = None
    end
  ∧ gpx_file w =
    match route_reference e with
    | Some r =>
        if PyStr.startswith "/workout-routes/" (ET.get_default r "path" "")
        then Some (joinpath (routes_dir self)
                     (PyStr.replace "/workout-routes/" "" (ET.get_default r "path" "")))
        else None
    | None => None
    end.
Proof.
  unfold extracted_from, extract_workout_data, statistics, elevation_entry,
    route_reference. cbv zeta. unfold rbind at 1.
  destruct (float_get e "duration") as [dur|]; [|discriminate].
  destruct (negb _ || negb _); [discriminate|].
  unfold rbind at 1.
  destruct (parse_apple_date (ET.get_default e "startDate" "")); [|discriminate].
  unfold rbind at 1.
  destruct (parse_apple_date (ET.get_default e "endDate" "")); [|discriminate].
  unfold rbind at 1.
  destruct (extract_stats _ _) as [[[hr d] c]|]; [|discriminate].
  unfold rbind at 1.
  destruct (ET.find_desc_attr "MetadataEntry" "key" "HKElevationAscended" e) as [m|].
  - unfold rbind at 1.
    destruct (float_str _) as [cm|] eqn:Hcm; [|discriminate].
    intros H. injection H as <-. cbn. repeat split; eauto.
  - intros H. injection H as <-. cbn. repeat split; eauto.
Qed.

(** X5.  The statistics of an extracted record.  Each of the three optional
    fields comes from the last statistic of its kind in document order, and
    is absent when the entry has no statistic of that kind; a statistic
    counts as heart rate before distance and as distance before energy, and a
    statistic of no kind changes nothing. *)
Theorem statistics_last_of_kind_wins (self : AppleWorkoutConverter)
    (e : Element) (w : workout) :
  extracted_from self e w →
  field_from_last heart_rate_of HeartRateStat (statistics e) None (heart_rate w)
  ∧ field_from_last sum_of DistanceStat (statistics e) None (distance w)
  ∧ field_from_last sum_of EnergyStat (statistics e) None (calories w).
Proof.
  intros H. apply extract_steps in H. destruct H as (_ & _ & Hstats & _).
  now apply extract_stats_last.
Qed.

(** X6.  The elevation gain of an extracted record.  Without a metadata
    entry for the elevation ascended the field is absent.  With one, whose
    value is a number followed by [" cm"], the field is that number of
    centimetres divided by 100; a missing value counts as zero
    centimetres. *)
Theorem elevation_gain_in_metres (self : AppleWorkoutConverter)
    (e : Element) (w : workout) :
  extracted_from self e w →
  match elevation_entry e with
  | None => elevation_gain w = None
  | Some m =>
      (∀ n, ET.get m "value" = Some (n ++ " cm")%string →
            PyStr.contains " " n = false →
            ∃ cm, float_of_str n = Some cm
                  ∧ elevation_gain w = Some (PyFloat.div cm (PyFloat.of_Z 100)))
      ∧ (ET.get m "value" = None →
         ∃ cm, float_of_str "0" = Some cm
               ∧ elevation_gain w = Some (PyFloat.div cm (PyFloat.of_Z 100)))
  end.
Proof.
  intros H. apply extract_steps in H. destruct H as (_ & _ & _ & Hel & _).
  destruct (elevation_entry e) as [m|]; [|exact Hel].
  destruct Hel as (cm & Hcm & Hgain). unfold ET.get_default in Hcm.
  split.
  - intros n Hval Hn. rewrite Hval in Hcm.
    change (n ++ " cm")%string with (n ++ " cm" ++ "")%string in Hcm.
    rewrite (replace_occurrence " " "cm" "" n "" Hn) in Hcm.
    change (PyStr.replace " cm" "" "") with "" in Hcm.
    change ("" ++ "")%string with "" in Hcm. rewrite append_empty_r in Hcm.
    unfold float_str in Hcm. exists cm.
    destruct (float_of_str n); [|discriminate]. injection Hcm as ->. auto.
  - intros Hval. rewrite Hval in Hcm. exists cm.
    change (PyStr.replace " cm" "" "0 cm") with "0" in Hcm.
    unfold float_str in Hcm.
    destruct (float_of_str "0"); [|discriminate]. injection Hcm as ->. auto.
Qed.

(** X7.  The track file of an extracted record.  Only the first file
    reference of the routes of the entry is looked at.  A path that is
    ["/workout-routes/"] followed by a file name gives that name under the
    routes directory of the converter; a path that does not start with that
    prefix, and an entry without a file reference, give no track file. *)
Theorem gpx_file_under_routes_dir (self : AppleWorkoutConverter)
    (e : Element) (w : workout) :
  extracted_from self e w →
  match route_reference e with
  | None => gpx_file w = None
  | Some r =>
      (∀ name, ET.get r "path" = Some ("/workout-routes/" ++ name)%string →
               PyStr.contains "/" name = false →
               gpx_file w = Some (joinpath (routes_dir self) name))
      ∧ (PyStr.startswith "/workout-routes/" (ET.get_default r "path" "") = false →
         gpx_file w = None)
      ∧ (ET.get r "path" = None → gpx_file w = None)
  end.
Proof.
  intros H. apply extract_steps in H. destruct H as (_ & _ & _ & _ & Hgpx).
  destruct (route_reference e) as [r|]; [|exact Hgpx].
  split; [|split].
  - intros name Hpath Hname. rewrite Hgpx. unfold ET.get_default. rewrite Hpath.
    replace (PyStr.startswith "/workout-routes/" ("/workout-routes/" ++ name)) with true.
    2:{ symmetry. apply startswith_spec. now exists name. }
    change ("/workout-routes/" ++ name)%string
      with ("" ++ "/workout-routes/" ++ name)%string.
    rewrite (replace_occurrence "/" "workout-routes/" "" "" name eq_refl).
    cbn [String.append]. now rewrite (replace_absent "/" "workout-routes/" "" name Hname).
  - intros Hpre. now rewrite Hgpx, Hpre.
  - intros Hpath. rewrite Hgpx. unfold ET.get_default. now rewrite Hpath.
Qed.

End StatisticsProperties.

Section SportProperties.
Context {R : Runtime}.

Lemma convert_activity_type_in_categories (t : string) :
  convert_activity_type t ∈ categories.
Proof.
  destruct (decide (t ∈ known_types)) as [Hin | Hout].
  - unfold known_types in Hin.
    repeat (apply elem_of_cons in Hin; destruct Hin as [-> | Hin]);
      [ .. | now apply elem_of_nil in Hin ];
      vm_compute;
      repeat first [ apply list_elem_of_here | apply list_elem_of_further ].
  - unfold convert_activity_type. rewrite (mapping_unknown t Hout).
    unfold categories. simpl.
    repeat first [ apply list_elem_of_here | apply list_elem_of_further ].
Qed.

Lemma convert_activity_type_inverse (t : string) :
  convert_activity_type t ≠ "Other" →
  t = apple_type_of (convert_activity_type t).
Proof.
  destruct (decide (t ∈ known_types)) as [Hin | Hout].
  - unfold known_types in Hin.
    repeat (apply elem_of_cons in Hin; destruct Hin as [-> | Hin]);
      [ .. | now apply elem_of_nil in Hin ];
      first [ intros _; vm_compute; reflexivity
            | intros H; exfalso; apply H; vm_compute; reflexivity ].
  - unfold convert_activity_type. rewrite (mapping_unknown t Hout).
    intros H. exfalso. apply H. reflexivity.
Qed.

(** X8.  The sport of an extracted record is one of the five categories of
    the output format; and a sport other than ["Other"] tells which activity
    type the entry had: the identifier of that sport, with ["Cycling"] for
    ["Biking"]. *)
Theorem sport_of_extracted_record (self : AppleWorkoutConverter)
    (e : Element) (w : workout) :
  extracted_from self e w →
  sport w ∈ categories
  ∧ (sport w ≠ "Other" →
     ET.get e "workoutActivityType" = Some (apple_type_of (sport w))).
Proof.
  intros H. apply extract_steps in H. destruct H as (Hsport & _).
  rewrite Hsport. split; [apply convert_activity_type_in_categories|].
  intros Hne. pose proof (convert_activity_type_inverse _ Hne) as Hinv.
  unfold ET.get_default in *.
  destruct (ET.get e "workoutActivityType") as [t|].
  - now rewrite <- Hinv.
  - exfalso. apply Hne. reflexivity.
Qed.

End SportProperties.

Section DocumentProperties.
Context {R : Runtime}.

Lemma int_of_float_value (x : float) (z : Z) :
  int_of_float x = Ok z → z = PyFloat.trunc x.
Proof. destruct x; simpl; congruence. Qed.

(** The loop over the points in [create_tcx], when it goes through. *)
Lemma trackpoint_loop_children (w : workout) (pts : list trackpoint)
    (els : list Element) :
  rmap (trackpoint_elem w) pts = Ok els →
  els = map (fun p => Elem "Trackpoint" [] None
                        (trackpoint_base p ++ trackpoint_heart_rate w)) pts.
Proof.
  revert els. induction pts as [|p pts IH]; intros els H; simpl in H.
  - now injection H as <-.
  - unfold rbind in H.
    destruct (trackpoint_elem w p) as [el|] eqn:Hel; [|discriminate].
    destruct (rmap (trackpoint_elem w) pts) as [els'|]; [|discriminate].
    injection H as <-. cbn [map]. f_equal; [|now apply IH].
    unfold trackpoint_elem, trackpoint_heart_rate in *.
    destruct (heart_rate w) as [hr|].
    + unfold rbind in Hel.
      destruct (int_of_float (HeartRate.avg hr)) as [a|] eqn:Ha; [|discriminate].
      apply int_of_float_value in Ha. subst a. now injection Hel as <-.
    + injection Hel as <-. now rewrite app_nil_r.
Qed.

Lemma filter_trackpoints (f : trackpoint → list Element) (pts : list trackpoint) :
  List.filter (ET.has_tag "Trackpoint")
    (map (fun p => Elem "Trackpoint" [] None (f p)) pts)
  = map (fun p => Elem "Trackpoint" [] None (f p)) pts.
Proof. induction pts as [|p pts IH]; simpl; [reflexivity|]. now rewrite IH. Qed.

(** The children of a lap other than its track are not tracks. *)
Lemma lap_track (w : workout) (cal hr track : list Element) :
  calories_elems w = Ok cal →
  (hr = [] ∨ heart_rate_elems w = Ok hr) →
  List.filter (ET.has_tag "Track")
    (total_time_elem w :: distance_elems w ++ cal ++ hr ++ track)
  = List.filter (ET.has_tag "Track") track.
Proof.
  intros Hcal Hhr. cbn [List.filter total_time_elem leaf ET.has_tag tag].
  change ("TotalTimeSeconds" =? "Track")%string with false. cbv iota.
  rewrite !List.filter_app.
  assert (Hd : List.filter (ET.has_tag "Track") (distance_elems w) = []).
  { unfold distance_elems. destruct (distance w) as [d|]; [|reflexivity].
    now destruct (PyFloat.truthy d). }
  assert (Hc : List.filter (ET.has_tag "Track") cal = []).
  { unfold calories_elems in Hcal. destruct (calories w) as [c|].
    - destruct (PyFloat.truthy c).
      + unfold rbind in Hcal. destruct (int_of_float c); [|discriminate].
        now injection Hcal as <-.
      + now injection Hcal as <-.
    - now injection Hcal as <-. }
  assert (Hh : List.filter (ET.has_tag "Track") hr = []).
  { destruct Hhr as [-> | Hhr]; [reflexivity|].
    unfold heart_rate_elems in Hhr. destruct (heart_rate w) as [h|].
    - unfold rbind in Hhr. destruct (int_of_float (HeartRate.avg h)); [|discriminate].
      now injection Hhr as <-.
    - now injection Hhr as <-. }
  now rewrite Hd, Hc, Hh.
Qed.

Lemma lap_of_tcx_document (w : workout) (lap_children : list Element) :
  lap_of (tcx_document w lap_children)
  = Some (Elem "Lap" [("StartTime", strftime_tcx (start_time w))] None lap_children).
Proof. reflexivity. Qed.

Lemma says_point_map (hr : list Element) (pts : list trackpoint) :
  Forall2 (says_point hr) pts
    (map (fun p => Elem "Trackpoint" [] None (trackpoint_base p ++ hr)) pts).
Proof.
  induction pts as [|p pts IH]; cbn [map]; constructor; [|exact IH].
  split; reflexivity.
Qed.

Lemma track_mirrors_document (w : workout) (extra : list Element)
    (pts : list trackpoint) (cal hr : list Element) :
  calories_elems w = Ok cal →
  (hr = [] ∨ heart_rate_elems w = Ok hr) →
  track_mirrors extra pts
    (tcx_document w
       (total_time_elem w :: distance_elems w ++ cal ++ hr ++
        match pts with
        | [] => []
        | _ :: _ => [Elem "Track" [] None
                       (map (fun p => Elem "Trackpoint" [] None
                                        (trackpoint_base p ++ extra)) pts)]
        end)).
Proof.
  intros Hcal Hhr. eexists. split; [apply lap_of_tcx_document|].
  unfold trackpoints_of, ET.findall_child. cbn [children].
  rewrite (lap_track w cal hr _ Hcal Hhr).
  destruct pts as [|p pts]; [split; [reflexivity|constructor]|].
  cbn [List.filter].
  change (ET.has_tag "Track" (Elem "Track" [] None ?x)) with true. cbv iota.
  split; [reflexivity|].
  cbn [flat_map children].
  rewrite app_nil_r,
    (filter_trackpoints (fun p => trackpoint_base p ++ extra) (p :: pts)).
  apply says_point_map.
Qed.

(** X9.  The track of a built document mirrors the points read from the
    track file, for both builders: the document is built from the points
    [parse_gpx_file] returns in the world the builder starts in; its lap has
    no [Track] when there is no point and one [Track] otherwise, with one
    [Trackpoint] for each point, in order, whose children are the time of
    the point, its position (latitude, then longitude) and its altitude.
    [create_tcx] adds to each of them, as the last child, the same heart
    rate: the average of the whole workout as an integer.
    [create_tcx_no_hr] adds nothing. *)
Theorem track_mirrors_points (self : AppleWorkoutConverter) (w : workout)
    (world world' : World) (doc : Element) :
  (create_tcx self w world = (Ok doc, world') →
   ∃ pts, parse_gpx_file self (gpx_file w) world = (Ok pts, world')
          ∧ track_mirrors (trackpoint_heart_rate w) pts doc)
  ∧ (create_tcx_no_hr self w world = (Ok doc, world') →
     ∃ pts, parse_gpx_file self (gpx_file w) world = (Ok pts, world')
            ∧ track_mirrors [] pts doc).
Proof.
  split.
  - unfold create_tcx, bind, lift, ret.
    destruct (calories_elems w) as [cal|] eqn:Hcal; [|discriminate].
    destruct (heart_rate_elems w) as [hr|] eqn:Hhr; [|discriminate].
    destruct (parse_gpx_file self (gpx_file w) world) as [[pts|] world1];
      [|discriminate].
    destruct pts as [|p pts].
    + intros H. injection H as <- <-. exists []. split; [reflexivity|].
      apply (track_mirrors_document w _ [] cal hr Hcal (or_intror Hhr)).
    + destruct (rmap (trackpoint_elem w) (p :: pts)) as [els|] eqn:Hels;
        [|discriminate].
      intros H. injection H as <- <-. exists (p :: pts). split; [reflexivity|].
      apply trackpoint_loop_children in Hels. subst els.
      apply (track_mirrors_document w _ (p :: pts) cal hr Hcal (or_intror Hhr)).
  - unfold create_tcx_no_hr, bind, lift, ret.
    destruct (calories_elems w) as [cal|] eqn:Hcal; [|discriminate].
    destruct (parse_gpx_file self (gpx_file w) world) as [[pts|] world1];
      [|discriminate].
    intros H. injection H as <- <-. exists pts. split; [reflexivity|].
    pose proof (track_mirrors_document w [] pts cal [] Hcal
                  (or_introl eq_refl)) as Hdoc.
    assert (Hmap : map (fun p => Elem "Trackpoint" [] None (trackpoint_base p ++ []))
                     pts
                   = map trackpoint_elem_no_hr pts).
    { apply map_ext. intros p. unfold trackpoint_elem_no_hr.
      now rewrite app_nil_r. }
    rewrite Hmap in Hdoc. destruct pts; exact Hdoc.
Qed.

Lemma has_frame_document (w : workout) (rest : list Element) :
  List.filter (ET.has_tag "TotalTimeSeconds") rest = [] →
  has_frame w (tcx_document w (total_time_elem w :: rest)).
Proof.
  intros Hrest. split; [reflexivity|].
  eexists _, _, _. repeat split.
  unfold ET.findall_child. cbn [children List.filter total_time_elem leaf ET.has_tag tag].
  change ("TotalTimeSeconds" =? "TotalTimeSeconds")%string with true. cbv iota.
  now rewrite Hrest.
Qed.

Lemma no_total_time_distance (w : workout) :
  List.filter (ET.has_tag "TotalTimeSeconds") (distance_elems w) = [].
Proof.
  unfold distance_elems. destruct (distance w) as [d|]; [|reflexivity].
  now destruct (PyFloat.truthy d).
Qed.

Lemma no_total_time_calories (w : workout) (cal : list Element) :
  calories_elems w = Ok cal →
  List.filter (ET.has_tag "TotalTimeSeconds") cal = [].
Proof.
  unfold calories_elems. destruct (calories w) as [c|].
  - destruct (PyFloat.truthy c).
    + unfold rbind. destruct (int_of_float c); [|discriminate].
      intros H. now injection H as <-.
    + intros H. now injection H as <-.
  - intros H. now injection H as <-.
Qed.

Lemma no_total_time_heart_rate (w : workout) (hr : list Element) :
  heart_rate_elems w = Ok hr →
  List.filter (ET.has_tag "TotalTimeSeconds") hr = [].
Proof.
  unfold heart_rate_elems. destruct (heart_rate w) as [h|].
  - unfold rbind. destruct (int_of_float (HeartRate.avg h)); [|discriminate].
    intros H. now injection H as <-.
  - intros H. now injection H as <-.
Qed.

(** X10.  Every document either builder returns has the same frame: a
    [TrainingCenterDatabase] with one [Activities], one [Activity] whose
    [Sport] is the sport of the record, and in it the [Id], one [Lap] and the
    [Creator], in this order.  The [Id] and the [StartTime] of the lap are the
    same text, the start time of the record; the lap begins with its only
    [TotalTimeSeconds], the duration of the record times 60. *)
Theorem built_document_frame (self : AppleWorkoutConverter) (w : workout)
    (world : World) (doc : Element) :
  fst (create_tcx self w world) = Ok doc
  ∨ fst (create_tcx_no_hr self w world) = Ok doc →
  has_frame w doc
  ∧ total_time_elem w
    = leaf "TotalTimeSeconds"
        (str_of_float (PyFloat.mul (duration_minutes w) (PyFloat.of_Z 60))).
Proof.
  intros H. split; [|reflexivity]. destruct H as [H | H].
  - unfold create_tcx, bind, lift, ret in H.
    destruct (calories_elems w) as [cal|] eqn:Hcal; [|discriminate].
    destruct (heart_rate_elems w) as [hr|] eqn:Hhr; [|discriminate].
    destruct (parse_gpx_file self (gpx_file w) world) as [[pts|] world1];
      [|discriminate].
    destruct pts as [|p pts].
    + simpl in H. injection H as <-. apply has_frame_document.
      rewrite !List.filter_app, no_total_time_distance,
        (no_total_time_calories w cal Hcal), (no_total_time_heart_rate w hr Hhr).
      reflexivity.
    + destruct (rmap (trackpoint_elem w) (p :: pts)) as [els|]; [|discriminate].
      simpl in H. injection H as <-. apply has_frame_document.
      rewrite !List.filter_app, no_total_time_distance,
        (no_total_time_calories w cal Hcal), (no_total_time_heart_rate w hr Hhr).
      reflexivity.
  - unfold create_tcx_no_hr, bind, lift, ret in H.
    destruct (calories_elems w) as [cal|] eqn:Hcal; [|discriminate].
    destruct (parse_gpx_file self (gpx_file w) world) as [[pts|] world1];
      [|discriminate].
    simpl in H. injection H as <-. apply has_frame_document.
    rewrite !List.filter_app, no_total_time_distance,
      (no_total_time_calories w cal Hcal).
    now destruct pts.
Qed.

(** X11.  The builders and the loop never read the end time or the elevation
    gain of a record: with any other values for the two fields, both builders
    return the same document and the attempt of the loop writes the same file
    and prints the same lines. *)
Theorem end_time_and_elevation_gain_unread (self : AppleWorkoutConverter)
    (w : workout) (end_time' : datetime) (elevation_gain' : option float)
    (output_dir no_hr_dir : Path) (world : World) :
  create_tcx self (set_unread end_time' elevation_gain' w) world
  = create_tcx self w world
  ∧ create_tcx_no_hr self (set_unread end_time' elevation_gain' w) world
    = create_tcx_no_hr self w world
  ∧ attempt self output_dir no_hr_dir (set_unread end_time' elevation_gain' w) world
    = attempt self output_dir no_hr_dir w world
  ∧ error_line (set_unread end_time' elevation_gain' w)
    = error_line w.
Proof. repeat split. Qed.

End DocumentProperties.

Section RenderingProperties.

Lemma digit_of_val (c : ascii) :
  ISO.is_digit c = true → PyInt.digit (ISO.digit_val c) = c.
Proof.
  unfold ISO.is_digit, ISO.digit_val, PyInt.digit. intros H.
  apply andb_prop in H. destruct H as [H1 H2]. apply Nat.leb_le in H1, H2.
  replace (48 + Z.to_nat (Z.of_nat (nat_of_ascii c) - 48))%nat
    with (nat_of_ascii c) by lia.
  apply ascii_nat_embedding.
Qed.

Lemma pad_two (a b : Z) :
  0 <= a <= 9 → 0 <= b <= 9 →
  PyInt.pad 2 ((0 * 10 + a) * 10 + b) ""
  = String (PyInt.digit a) (String (PyInt.digit b) "").
Proof.
  intros Ha Hb. cbn [PyInt.pad].
  replace (((0 * 10 + a) * 10 + b) mod 10) with b
    by (Z.div_mod_to_equations; lia).
  replace (((0 * 10 + a) * 10 + b) / 10 mod 10) with a
    by (Z.div_mod_to_equations; lia).
  reflexivity.
Qed.

Lemma pad_four (a b c d : Z) :
  0 <= a <= 9 → 0 <= b <= 9 → 0 <= c <= 9 → 0 <= d <= 9 →
  PyInt.pad 4 ((((0 * 10 + a) * 10 + b) * 10 + c) * 10 + d) ""
  = String (PyInt.digit a) (String (PyInt.digit b)
      (String (PyInt.digit c) (String (PyInt.digit d) ""))).
Proof.
  intros Ha Hb Hc Hd. cbn [PyInt.pad].
  set (z := (((0 * 10 + a) * 10 + b) * 10 + c) * 10 + d).
  replace (z mod 10) with d by (subst z; Z.div_mod_to_equations; lia).
  replace (z / 10 mod 10) with c by (subst z; Z.div_mod_to_equations; lia).
  replace (z / 10 / 10 mod 10) with b by (subst z; Z.div_mod_to_equations; lia).
  replace (z / 10 / 10 / 10 mod 10) with a by (subst z; Z.div_mod_to_equations; lia).
  reflexivity.
Qed.

(** [str] of a number of [k + 1] digits is its field of that width. *)
Lemma digits_pad (k fuel : nat) (z : Z) (acc : string) :
  (k < fuel)%nat → 10 ^ Z.of_nat k <= z < 10 ^ Z.of_nat (S k) →
  PyInt.digits fuel z acc = PyInt.pad (S k) z acc.
Proof.
  revert fuel z acc. induction k as [|k IH]; intros fuel z acc Hf Hz.
  - destruct fuel as [|fuel]; [lia|]. cbn [PyInt.digits PyInt.pad].
    change (10 ^ Z.of_nat 1) with 10 in Hz.
    replace (z <? 10) with true by (symmetry; apply Z.ltb_lt; lia).
    reflexivity.
  - destruct fuel as [|fuel]; [lia|].
    rewrite !Nat2Z.inj_succ, !Z.pow_succ_r in Hz by lia.
    cbn [PyInt.digits].
    assert (0 < 10 ^ Z.of_nat k) by (apply Z.pow_pos_nonneg; lia).
    replace (z <? 10) with false by (symmetry; apply Z.ltb_ge; lia).
    rewrite IH.
    + reflexivity.
    + lia.
    + rewrite Nat2Z.inj_succ, Z.pow_succ_r by lia.
      split.
      * apply Z.div_le_lower_bound; lia.
      * apply Z.div_lt_upper_bound; lia.
Qed.

Lemma str_four (z : Z) :
  1000 <= z <= 9999 → PyInt.str z = PyInt.pad 4 z "".
Proof.
  intros Hz. unfold PyInt.str, PyInt.str_nonneg.
  replace (z <? 0) with false by (symmetry; apply Z.ltb_ge; lia).
  apply (digits_pad 3).
  - assert (Z.log2 512 <= Z.log2 z) by (apply Z.log2_le_mono; lia).
    change (Z.log2 512) with 9 in *. lia.
  - change (10 ^ Z.of_nat 3) with 1000. change (10 ^ Z.of_nat 4) with 10000. lia.
Qed.

Lemma str_one (z : Z) : 0 <= z <= 9 → PyInt.str z = String (PyInt.digit z) "".
Proof.
  intros Hz. unfold PyInt.str, PyInt.str_nonneg.
  replace (z <? 0) with false by (symmetry; apply Z.ltb_ge; lia).
  cbn [PyInt.digits].
  replace (z <? 10) with true by (symmetry; apply Z.ltb_lt; lia).
  now rewrite Z.mod_small by lia.
Qed.

Lemma str_two (z : Z) : 10 <= z <= 99 → PyInt.str z = PyInt.pad 2 z "".
Proof.
  intros Hz. unfold PyInt.str, PyInt.str_nonneg.
  replace (z <? 0) with false by (symmetry; apply Z.ltb_ge; lia).
  apply (digits_pad 1).
  - assert (Z.log2 8 <= Z.log2 z) by (apply Z.log2_le_mono; lia).
    change (Z.log2 8) with 3 in *. lia.
  - change (10 ^ Z.of_nat 1) with 10. change (10 ^ Z.of_nat 2) with 100. lia.
Qed.

(** [f"{z:02d}"] of a number of two digits is the two digits. *)
Lemma format_02d_two (a b : Z) :
  0 <= a <= 9 → 0 <= b <= 9 →
  format_02d ((0 * 10 + a) * 10 + b)
  = String (PyInt.digit a) (String (PyInt.digit b) "").
Proof.
  intros Ha Hb. unfold format_02d.
  destruct (Z.eq_dec a 0) as [-> | Hne].
  - replace ((0 * 10 + 0) * 10 + b) with b by lia.
    replace ((0 <=? b) && (b <? 10)) with true
      by (symmetry; apply andb_true_intro; split;
          [apply Z.leb_le | apply Z.ltb_lt]; lia).
    now rewrite str_one by lia.
  - replace ((0 <=? (0 * 10 + a) * 10 + b) && ((0 * 10 + a) * 10 + b <? 10))
      with false
      by (symmetry; apply andb_false_intro2; apply Z.ltb_ge; lia).
    rewrite str_two by lia. now apply pad_two.
Qed.

End RenderingProperties.


Section TimestampProperties.

Ltac take_char H s :=
  destruct s as [|?c s]; [discriminate H|];
  cbn [matches char_matches] in H;
  apply andb_prop in H; destruct H as [?Hc H].

Ltac literal_char c := lazymatch c with Ascii _ _ _ _ _ _ _ _ => idtac end.

Ltac decide_char :=
  match goal with
  | H : ISO.is_digit ?c = true |- context [ISO.is_digit ?c] => rewrite H
  | H : ISO.is_digit ?c = true |- context [ISO.is_char ?c ?x] =>
      rewrite (digit_is_char c x H eq_refl)
  | H : ISO.is_digit ?c = true |- context [ISO.is_tz_char ?c] =>
      rewrite (digit_is_tz_char c H)
  | |- context [ISO.is_digit ?c] =>
      literal_char c; let v := eval vm_compute in (ISO.is_digit c) in
      change (ISO.is_digit c) with v
  | |- context [ISO.is_char ?c ?x] =>
      literal_char c; let v := eval vm_compute in (ISO.is_char c x) in
      change (ISO.is_char c x) with v
  | |- context [ISO.is_tz_char ?c] =>
      literal_char c; let v := eval vm_compute in (ISO.is_tz_char c) in
      change (ISO.is_tz_char c) with v
  | |- context [ISO.separator_width ?c] =>
      literal_char c; let v := eval vm_compute in (ISO.separator_width c) in
      change (ISO.separator_width c) with v
  end.

Ltac run_parser :=
  cbn [ISO.find_isoformat_datetime_separator ISO.parse_digits ISO.char_at
       String.get ISO.find_tzinfo ISO.hms_loop ISO.set_val ISO.skip_digits
       ISO.correction String.length
       Nat.eqb Nat.ltb Nat.leb Nat.add Nat.sub Nat.pred Nat.even
       negb andb orb nth].

Lemma not_z_digit (c : ascii) :
  ISO.is_digit c = true → Ascii.eqb "Z" c = false.
Proof.
  intros H. rewrite Ascii.eqb_sym. now apply digit_is_not.
Qed.

(** A byte that does not start a match is copied. *)
Lemma replace_from_copy (a c : ascii) (old' new s : string) :
  Ascii.eqb a c = false →
  PyStr.replace_from (String a old') new 0 (String c s)
  = String c (PyStr.replace_from (String a old') new 0 s).
Proof. intros H. cbn [PyStr.replace_from PyStr.startswith]. now rewrite H. Qed.

(** A timestamp of the shape, once its [Z] is replaced, parses to the
    instant it denotes when its fields are valid, and is refused otherwise. *)
Lemma gpx_timestamp_parses (s : string) :
  gpx_time_shape s = true →
  ISO.fromisoformat (PyStr.replace "Z" "+00:00" s)
  = (if wall_clock_valid s then Ok (gpx_instant s) else Raise ValueError).
Proof.
  intros H. unfold gpx_time_shape, gpx_time_pattern in H.
  do 20 take_char H s.
  destruct s; [|discriminate H]. clear H.
  repeat match goal with
         | H : Ascii.eqb ?c _ = true |- _ => apply Ascii.eqb_eq in H; subst c
         end.
  unfold PyStr.replace.
  repeat (rewrite replace_from_copy
            by first [ apply not_z_digit; assumption | reflexivity ]).
  change (PyStr.replace_from "Z" "+00:00" 0 "Z") with "+00:00".
  unfold wall_clock_valid, gpx_instant, field.
  cbn [field_from ISO.char_at String.get].
  unfold ISO.fromisoformat.
  unfold ISO.parse_isoformat_date, ISO.parse_isoformat_time,
         ISO.parse_hh_mm_ss_ff, ISO.NUL.
  repeat (run_parser; unfold ISO.NUL; repeat decide_char).
  repeat match goal with
         | H : ISO.is_digit ?c = true |- _ => apply digit_val_range in H
         end.
  change (ISO.digit_val "0") with 0.
  etransitivity; [apply shape_arithmetic; lia|].
  change ((0 * 10 + 0) * 10 + 0) with 0.
  change (0 * 60 + 0 <? 1440) with true. rewrite andb_true_r.
  reflexivity.
Qed.

Ltac digit_ranges :=
  repeat match goal with
         | H : ISO.is_digit ?c = true |- _ =>
             lazymatch goal with
             | _ : 0 <= ISO.digit_val c <= 9 |- _ => fail
             | _ => pose proof (digit_val_range c H)
             end
         end.

Lemma gpx_instant_rendered (s : string) :
  gpx_time_shape s = true → 1000 <= field s 0 4 →
  strftime_tcx (gpx_instant s) = (substring 0 19 s ++ ".000000Z")%string.
Proof.
  intros H. unfold gpx_time_shape, gpx_time_pattern in H.
  do 20 take_char H s.
  destruct s; [|discriminate H]. clear H.
  repeat match goal with
         | H : Ascii.eqb ?c _ = true |- _ => apply Ascii.eqb_eq in H; subst c
         end.
  unfold strftime_tcx, gpx_instant, field.
  cbn [field_from ISO.char_at String.get year month day hour minute second
       microsecond].
  intros Hy. digit_ranges.
  rewrite str_four by lia. rewrite pad_four by lia. rewrite !pad_two by lia.
  rewrite !digit_of_val by assumption.
  reflexivity.
Qed.

Lemma apple_date_parses (s : string) :
  apple_shape s = true →
  parse_apple_date s
  = (if apple_fields_valid s then Ok (apple_instant s) else Raise ValueError).
Proof.
  intros H. unfold apple_shape, apple_pattern in H.
  do 25 take_char H s.
  destruct s; [|discriminate H]. clear H.
  repeat match goal with
         | H : Ascii.eqb ?c _ = true |- _ => apply Ascii.eqb_eq in H; subst c
         end.
  unfold apple_fields_valid, apple_instant, apple_offset, field.
  cbn [field_from ISO.char_at String.get].
  unfold parse_apple_date, ISO.fromisoformat.
  apply orb_prop in Hc19.
  destruct Hc19 as [Hs | Hs]; apply Ascii.eqb_eq in Hs; subst c19.
  all: unfold ISO.parse_isoformat_date, ISO.parse_isoformat_time,
         ISO.parse_hh_mm_ss_ff, ISO.NUL.
  all: repeat (run_parser; unfold ISO.NUL; repeat decide_char).
  all: repeat match goal with
              | H : ISO.is_digit ?c = true |- _ => apply digit_val_range in H
              end.
  - change ("+" =? "-")%char with false. cbv iota.
    apply shape_arithmetic; lia.
  - change ("-" =? "-")%char with true. cbv iota.
    apply shape_arithmetic; lia.
Qed.

Lemma apple_instant_rendered (s : string) :
  apple_shape s = true → 1000 <= field s 0 4 →
  strftime_tcx (apple_instant s)
  = (substring 0 10 s ++ "T" ++ substring 11 8 s ++ ".000000Z")%string
  ∧ strftime_file (apple_instant s)
    = (substring 0 10 s ++ "_" ++ substring 11 2 s ++ substring 14 2 s
       ++ substring 17 2 s)%string
  ∧ PyInt.str (year (apple_instant s)) = substring 0 4 s
  ∧ format_02d (month (apple_instant s)) = substring 5 2 s.
Proof.
  intros H. unfold apple_shape, apple_pattern in H.
  do 25 take_char H s.
  destruct s; [|discriminate H]. clear H Hc19.
  repeat match goal with
         | H : Ascii.eqb ?c _ = true |- _ => apply Ascii.eqb_eq in H; subst c
         end.
  unfold strftime_tcx, strftime_file, apple_instant, field.
  cbn [field_from ISO.char_at String.get year month day hour minute second
       microsecond].
  intros Hy. digit_ranges.
  rewrite str_four by lia. rewrite pad_four by lia. rewrite !pad_two by lia.
  rewrite format_02d_two by lia.
  rewrite !digit_of_val by assumption.
  repeat split; reflexivity.
Qed.

End TimestampProperties.

Section TrackpointProperties.
Context {R : Runtime}.

Lemma head_filter_Some {A} (p : A → bool) (l : list A) (x : A) :
  head (List.filter p l) = Some x → In x l ∧ p x = true.
Proof.
  induction l as [|a l IH]; simpl; [discriminate|].
  destruct (p a) eqn:Hp.
  - simpl. intros H. injection H as <-. auto.
  - intros H. destruct (IH H). auto.
Qed.

(** The steps of one pass of the loop of [parse_gpx_file] that gives a
    point, one by one. *)
Lemma read_from_steps (trkpt : Element) (tp : trackpoint) :
  read_from trkpt tp →
  float_get trkpt "lat" = Ok (lat tp)
  ∧ float_get trkpt "lon" = Ok (lon tp)
  ∧ match ET.find_child gpx_ele trkpt with
    | Some ele_elem => ∃ x, float_text ele_elem = Ok x ∧ elevation tp = NFloat x
    | None => elevation tp = NInt 0
    end
  ∧ (∃ time_elem s,
       ET.find_child gpx_time trkpt = Some time_elem ∧ text time_elem = Some s
       ∧ ISO.fromisoformat (PyStr.replace "Z" "+00:00" s) = Ok (time tp))
  ∧ match ET.find_child gpx_extensions trkpt with
    | Some extensions =>
        match ET.find_child "speed" extensions with
        | Some speed_elem => ∃ x, float_text speed_elem = Ok x ∧ speed tp = Some x
        | None => speed tp = None
        end
    | None => speed tp = None
    end.
Proof.
  unfold read_from, parse_trkpt. unfold rbind at 1.
  destruct (float_get trkpt "lat") as [la|]; [|discriminate].
  unfold rbind at 1.
  destruct (float_get trkpt "lon") as [lo|]; [|discriminate].
  unfold rbind at 1.
  destruct (ET.find_child gpx_ele trkpt) as [ele_elem|].
  - unfold rbind at 1.
    destruct (float_text ele_elem) as [x|] eqn:Hx; [|discriminate].
    destruct (ET.find_child gpx_time trkpt) as [time_elem|]; [|discriminate].
    unfold rbind at 1.
    destruct (text time_elem) as [s|] eqn:Hs; [|discriminate].
    destruct (ISO.fromisoformat _) as [ts|] eqn:Hts; [|discriminate].
    unfold rbind at 1.
    destruct (ET.find_child gpx_extensions trkpt) as [ext|].
    + destruct (ET.find_child "speed" ext) as [sp|].
      * unfold rbind. destruct (float_text sp) as [v|] eqn:Hv; [|discriminate].
        intros H. injection H as <-. cbn. repeat split; eauto 6.
      * intros H. injection H as <-. cbn. repeat split; eauto 6.
    + intros H. injection H as <-. cbn. repeat split; eauto 6.
  - destruct (ET.find_child gpx_time trkpt) as [time_elem|]; [|discriminate].
    unfold rbind at 1.
    destruct (text time_elem) as [s|] eqn:Hs; [|discriminate].
    destruct (ISO.fromisoformat _) as [ts|] eqn:Hts; [|discriminate].
    unfold rbind at 1.
    destruct (ET.find_child gpx_extensions trkpt) as [ext|].
    + destruct (ET.find_child "speed" ext) as [sp|].
      * unfold rbind. destruct (float_text sp) as [v|] eqn:Hv; [|discriminate].
        intros H. injection H as <-. cbn. repeat split; eauto 6.
      * intros H. injection H as <-. cbn. repeat split; eauto 6.
    + intros H. injection H as <-. cbn. repeat split; eauto 6.
Qed.

(** X12.  What a track point gets when its element leaves a value out.  A
    missing latitude or longitude is read as [0.0]; a missing elevation is
    the integer zero, which the builders print as ["0"]; and a speed is there
    only when the [extensions] child of the point has a child whose tag is
    the bare name [speed], without a namespace. *)
Theorem trackpoint_defaults (trkpt : Element) (tp : trackpoint) :
  read_from trkpt tp →
  (ET.get trkpt "lat" = None → lat tp = PyFloat.of_Z 0)
  ∧ (ET.get trkpt "lon" = None → lon tp = PyFloat.of_Z 0)
  ∧ (ET.find_child gpx_ele trkpt = None →
     elevation tp = NInt 0
     ∧ ET.findall_child "AltitudeMeters" (trackpoint_elem_no_hr tp)
       = [leaf "AltitudeMeters" "0"])
  ∧ (∀ x, speed tp = Some x →
          ∃ extensions speed_elem,
            ET.find_child gpx_extensions trkpt = Some extensions
            ∧ In speed_elem (children extensions)
            ∧ tag speed_elem = "speed"
            ∧ float_text speed_elem = Ok x).
Proof.
  intros H. apply read_from_steps in H.
  destruct H as (Hlat & Hlon & Hele & _ & Hspeed).
  split; [|split; [|split]].
  - intros Hnone. unfold float_get in Hlat. rewrite Hnone in Hlat. congruence.
  - intros Hnone. unfold float_get in Hlon. rewrite Hnone in Hlon. congruence.
  - intros Hnone. rewrite Hnone in Hele. split; [exact Hele|].
    unfold trackpoint_elem_no_hr, trackpoint_base, ET.findall_child.
    rewrite Hele. reflexivity.
  - intros x Hx.
    destruct (ET.find_child gpx_extensions trkpt) as [ext|]; [|congruence].
    destruct (ET.find_child "speed" ext) as [sp|] eqn:Hsp; [|congruence].
    destruct Hspeed as (v & Hv & Hs). exists ext, sp.
    apply head_filter_Some in Hsp. destruct Hsp as [Hin Htag].
    apply String.eqb_eq in Htag.
    repeat split; auto. congruence.
Qed.

(** X13.  A timestamp of a track file written ["YYYY-MM-DDTHH:MM:SSZ"] goes
    through the converter unchanged: the point read from it holds the instant
    the text denotes, in UTC, and for a year of four digits the [Time] the
    builders write for the point is the text itself with the microseconds
    [".000000"] put before the [Z]. *)
Theorem gpx_timestamp_round_trip (trkpt time_elem : Element) (tp : trackpoint)
    (s : string) :
  read_from trkpt tp →
  ET.find_child gpx_time trkpt = Some time_elem →
  text time_elem = Some s →
  gpx_time_shape s = true →
  wall_clock_valid s = true
  ∧ time tp = gpx_instant s
  ∧ (1000 <= field s 0 4 →
     head (trackpoint_base tp)
     = Some (leaf "Time" (substring 0 19 s ++ ".000000Z"))).
Proof.
  intros H Htime Htext Hshape. apply read_from_steps in H.
  destruct H as (_ & _ & _ & (te & s' & Hte & Hs' & Hparse) & _).
  rewrite Htime in Hte. injection Hte as <-.
  rewrite Htext in Hs'. injection Hs' as <-.
  rewrite (gpx_timestamp_parses s Hshape) in Hparse.
  destruct (wall_clock_valid s); [|discriminate].
  injection Hparse as Hparse. split; [reflexivity|]. split; [now symmetry|].
  intros Hy. unfold trackpoint_base. cbn [head]. rewrite <- Hparse.
  now rewrite (gpx_instant_rendered s Hshape Hy).
Qed.

(** X14.  The start of a workout is written as the wall clock of the
    archive, not as UTC.  For a start date of the shape
    ["YYYY-MM-DD HH:MM:SS ±HHMM"] with a year of four digits, the record keeps
    the offset, but the text the builders write as [Id] and [StartTime] is
    the date and the time of the archive with a literal [Z], whatever the
    offset is; the name of the output file is made of the same digits and
    the sport, and the file goes to the directory of the year and, under it,
    of the month, both written as in the archive. *)
Theorem start_time_written_as_wall_clock (self : AppleWorkoutConverter)
    (e : Element) (w : workout) :
  extracted_from self e w →
  apple_shape (start_date e) = true →
  1000 <= field (start_date e) 0 4 →
  tzinfo (start_time w) = Some (apple_offset (start_date e) * 1000000)
  ∧ strftime_tcx (start_time w)
    = (substring 0 10 (start_date e) ++ "T" ++ substring 11 8 (start_date e)
       ++ ".000000Z")%string
  ∧ tcx_filename w
    = ((substring 0 10 (start_date e) ++ "_" ++ substring 11 2 (start_date e)
        ++ substring 14 2 (start_date e) ++ substring 17 2 (start_date e))
       ++ "_" ++ sport w ++ ".tcx")%string
  ∧ (∀ base, year_month base w
             = joinpath (joinpath base (substring 0 4 (start_date e)))
                        (substring 5 2 (start_date e))).
Proof.
  intros H Hshape Hy. apply extract_record in H. destruct H as (_ & Hstart & _).
  rewrite (apple_date_parses _ Hshape) in Hstart.
  destruct (apple_fields_valid (start_date e)); [|discriminate].
  injection Hstart as Hstart.
  destruct (apple_instant_rendered _ Hshape Hy) as (Htcx & Hfile & Hyear & Hmonth).
  unfold tcx_filename, year_month.
  rewrite <- Hstart, Htcx, Hfile, Hyear, Hmonth. auto.
Qed.

End TrackpointProperties.

Section ProgressProperties.
Context {R : Runtime}.

(** [parse_gpx_file] leaves the files alone and prints at most its report. *)
Lemma parse_gpx_file_world (self : AppleWorkoutConverter) (g : option Path)
    (world : World) :
  ∃ l, snd (parse_gpx_file self g world)
       = {| stdout := stdout world ++ l; fs := fs world |}
       ∧ track_report l.
Proof.
  destruct g as [f|].
  - rewrite parse_gpx_file_unfold.
    destruct (path_exists (fs world) f) as [[|]|e].
    + destruct (gpx_try_block (fs world) f).
      * exists []. rewrite app_nil_r, world_eta. split; [reflexivity|now left].
      * eexists. split; [reflexivity|]. right. eauto.
    + exists []. rewrite app_nil_r, world_eta. split; [reflexivity|now left].
    + exists []. rewrite app_nil_r, world_eta. split; [reflexivity|now left].
  - exists []. rewrite app_nil_r, world_eta. split; [reflexivity|now left].
Qed.

(** So do the two builders, whether they return a document or raise. *)
Lemma create_tcx_world (self : AppleWorkoutConverter) (w : workout)
    (world : World) :
  ∃ l, snd (create_tcx self w world)
       = {| stdout := stdout world ++ l; fs := fs world |}
       ∧ track_report l.
Proof.
  unfold create_tcx, bind, lift, ret.
  destruct (calories_elems w) as [cal|].
  2:{ exists []. rewrite app_nil_r, world_eta. split; [reflexivity|now left]. }
  destruct (heart_rate_elems w) as [hr|].
  2:{ exists []. rewrite app_nil_r, world_eta. split; [reflexivity|now left]. }
  destruct (parse_gpx_file_world self (gpx_file w) world) as (l & Hl & Hrep).
  destruct (parse_gpx_file self (gpx_file w) world) as [[pts|e] world1];
    simpl in Hl; subst world1.
  - exists l. split; [|exact Hrep].
    destruct pts as [|p pts]; [reflexivity|].
    now destruct (rmap (trackpoint_elem w) (p :: pts)).
  - exists l. split; [reflexivity|exact Hrep].
Qed.

Lemma create_tcx_no_hr_world (self : AppleWorkoutConverter) (w : workout)
    (world : World) :
  ∃ l, snd (create_tcx_no_hr self w world)
       = {| stdout := stdout world ++ l; fs := fs world |}
       ∧ track_report l.
Proof.
  unfold create_tcx_no_hr, bind, lift, ret.
  destruct (calories_elems w) as [cal|].
  2:{ exists []. rewrite app_nil_r, world_eta. split; [reflexivity|now left]. }
  destruct (parse_gpx_file_world self (gpx_file w) world) as (l & Hl & Hrep).
  destruct (parse_gpx_file self (gpx_file w) world) as [[pts|e] world1];
    simpl in Hl; subst world1; exists l; split; auto.
Qed.

(** X15.  The progress lines of [convert_workouts].  The attempt of a
    workout prints, after the report of an unreadable track file if there is
    one, the progress lines of the workout when it goes through and nothing
    when it raises.  The progress lines are printed only for a workout with
    heart rate: a workout without heart rate is written silently. *)
Theorem attempt_progress_lines (self : AppleWorkoutConverter)
    (output_dir no_hr_dir : Path) (w : workout) (world : World) :
  ∃ report,
    track_report report
    ∧ stdout (snd (attempt self output_dir no_hr_dir w world))
      = stdout world ++ report ++
        (if is_ok (fst (attempt self output_dir no_hr_dir w world))
         then progress_lines w else [])
    ∧ (heart_rate w = None → progress_lines w = []).
Proof.
  unfold attempt, progress_lines, present_nonzero.
  destruct (heart_rate w) as [hr|] eqn:Hhr.
  - unfold write_hr, bind, on_fs, print, ret. rewrite Hhr.
    destruct (create_tcx_world self w world) as (l & Hl & Hrep).
    destruct (create_tcx self w world) as [[tcx|e] world1];
      simpl in Hl; subst world1; exists l; (split; [exact Hrep|]);
      (split; [|discriminate]).
    2:{ cbn [snd fst is_ok stdout]. now rewrite app_nil_r. }
    cbn [fs stdout].
    destruct (mkdir true (year_month output_dir w) (fs world)) as [[[]|e] fs1].
    2:{ cbn [snd fst is_ok stdout]. now rewrite app_nil_r. }
    cbn [fs stdout].
    destruct (ET_write _ tcx fs1) as [[[]|e] fs2].
    2:{ cbn [snd fst is_ok stdout]. now rewrite app_nil_r. }
    cbn [stdout fs].
    destruct (distance w) as [d|]; [destruct (PyFloat.truthy d)|];
      cbn [snd fst is_ok stdout]; rewrite <- ?app_assoc; reflexivity.
  - unfold write_no_hr, bind, on_fs.
    destruct (create_tcx_no_hr_world self w world) as (l & Hl & Hrep).
    destruct (create_tcx_no_hr self w world) as [[tcx|e] world1];
      simpl in Hl; subst world1; exists l; (split; [exact Hrep|]);
      (split; [|reflexivity]).
    2:{ cbn [snd fst is_ok stdout]. now rewrite app_nil_r. }
    cbn [fs stdout].
    destruct (mkdir true (year_month no_hr_dir w) (fs world)) as [[[]|e] fs1].
    2:{ cbn [snd fst is_ok stdout]. now rewrite app_nil_r. }
    cbn [fs stdout].
    destruct (ET_write _ tcx fs1) as [[[]|e] fs2];
      cbn [snd fst is_ok stdout]; now rewrite app_nil_r.
Qed.

End ProgressProperties.

Section AllOrNothingProperties.
Context {R : Runtime}.

Lemma Forall2_length_eq {A B} (P : A → B → Prop) (l : list A) (k : list B) :
  Forall2 P l k → length l = length k.
Proof. induction 1; simpl; congruence. Qed.

(** X16.  A track file gives all of its points or none.  For a file that is
    there and is read, [parse_gpx_file] returns one point for each element
    that has a timestamp when every point of the document is well formed, and
    otherwise returns no point at all, whatever the number of well-formed
    points before the first that is not, and prints one report. *)
Theorem track_file_all_or_nothing (self : AppleWorkoutConverter) (f : Path)
    (world : World) (root : Element) :
  path_exists (fs world) f = Ok true →
  ET_parse (fs world) f = Ok root →
  ∃ pts world',
    parse_gpx_file self (Some f) world = (Ok pts, world')
    ∧ fs world' = fs world
    ∧ if well_formed_track root
      then length pts = length (List.filter has_time (track_points root))
           ∧ stdout world' = stdout world
      else pts = [] ∧ ∃ e, stdout world' = stdout world ++ [GpxError f e].
Proof.
  intros Hex Hroot. rewrite parse_gpx_file_unfold, Hex.
  unfold gpx_try_block, rbind. rewrite Hroot. unfold parse_gpx_root.
  fold (track_points root). unfold well_formed_track.
  destruct (forallb well_formed_trkpt (track_points root)) eqn:Hwf.
  - destruct (trkpt_loop_well_formed (track_points root) [] Hwf)
      as (pts & Hloop & Hall).
    rewrite Hloop. exists pts, world. repeat split.
    symmetry. exact (Forall2_length_eq _ _ _ Hall).
  - destruct (trkpt_loop_ill_formed (track_points root) [] Hwf) as (e & Hloop).
    rewrite Hloop. eexists [], _. repeat split. exists e. reflexivity.
Qed.

End AllOrNothingProperties.

Section FileNameProperties.

Lemma append_cons (c : ascii) (s t : string) :
  (String c s ++ t)%string = String c (s ++ t).
Proof. reflexivity. Qed.

Lemma append_nil (t : string) : ("" ++ t)%string = t.
Proof. reflexivity. Qed.

Lemma append_assoc (s t u : string) :
  ((s ++ t) ++ u)%string = (s ++ t ++ u)%string.
Proof.
  induction s as [|c s IH]; [reflexivity|].
  rewrite !append_cons. now rewrite IH.
Qed.

Lemma append_length (s t : string) :
  String.length (s ++ t) = (String.length s + String.length t)%nat.
Proof.
  induction s as [|c s IH]; [reflexivity|].
  rewrite append_cons. simpl. now rewrite IH.
Qed.

Lemma append_inv_tail (s1 s2 t : string) :
  (s1 ++ t)%string = (s2 ++ t)%string → s1 = s2.
Proof.
  revert s2. induction s1 as [|c s1 IH]; intros [|c2 s2] H.
  - reflexivity.
  - apply (f_equal String.length) in H.
    rewrite append_nil, append_cons in H. simpl in H.
    rewrite append_length in H. lia.
  - apply (f_equal String.length) in H.
    rewrite append_nil, append_cons in H. simpl in H.
    rewrite append_length in H. lia.
  - rewrite !append_cons in H. injection H as -> H. f_equal. now apply IH.
Qed.

Lemma val_of_digit (d : Z) :
  0 <= d <= 9 → ISO.is_digit (PyInt.digit d) = true
                ∧ ISO.digit_val (PyInt.digit d) = d.
Proof.
  intros Hd. unfold ISO.is_digit, ISO.digit_val, PyInt.digit.
  rewrite nat_ascii_embedding by lia. split.
  - apply andb_true_intro. split; apply Nat.leb_le; lia.
  - lia.
Qed.

Lemma digit_inj (a b : Z) :
  0 <= a <= 9 → 0 <= b <= 9 → PyInt.digit a = PyInt.digit b → a = b.
Proof.
  intros Ha Hb H. apply (f_equal ISO.digit_val) in H.
  now rewrite (proj2 (val_of_digit a Ha)), (proj2 (val_of_digit b Hb)) in H.
Qed.

(** [str] writes a number that is not negative with digits only, and the
    digits give the number back. *)
Lemma digits_spec (fuel : nat) (z : Z) (acc : string) :
  0 <= z < 2 ^ Z.of_nat fuel →
  ∃ ds, PyInt.digits fuel z acc = (ds ++ acc)%string
        ∧ all_digits ds = true
        ∧ ∀ v, digits_value ds v = v * 10 ^ Z.of_nat (String.length ds) + z.
Proof.
  revert z acc. induction fuel as [|fuel IH]; intros z acc Hz.
  - change (2 ^ Z.of_nat 0) with 1 in Hz. assert (z = 0) as -> by lia.
    exists "". split; [reflexivity|]. split; [reflexivity|].
    intros v. cbn [digits_value String.length]. change (10 ^ Z.of_nat 0) with 1. lia.
  - cbn [PyInt.digits].
    assert (Hm : 0 <= z mod 10 <= 9) by (pose proof (Z.mod_pos_bound z 10); lia).
    destruct (val_of_digit _ Hm) as [Hdig Hval].
    destruct (Z.ltb_spec z 10) as [Hlt | Hge].
    + exists (String (PyInt.digit (z mod 10)) ""). split; [reflexivity|].
      split; [cbn [all_digits]; now rewrite Hdig|].
      intros v. cbn [digits_value String.length]. rewrite Hval.
      rewrite Z.mod_small by lia. change (10 ^ Z.of_nat 1) with 10. lia.
    + rewrite Nat2Z.inj_succ, Z.pow_succ_r in Hz by lia.
      destruct (IH (z / 10) (String (PyInt.digit (z mod 10)) acc))
        as (ds & Hds & Hall & Hv).
      { split; [apply Z.div_pos; lia|].
        apply Z.div_lt_upper_bound; lia. }
      exists (ds ++ String (PyInt.digit (z mod 10)) "")%string.
      split; [|split].
      * rewrite Hds, append_assoc. reflexivity.
      * clear Hds Hv Hz IH. induction ds as [|c ds IHds].
        -- rewrite append_nil. cbn [all_digits]. now rewrite Hdig.
        -- cbn [all_digits] in Hall. apply andb_prop in Hall.
           destruct Hall as [Hc Hall].
           rewrite append_cons. cbn [all_digits]. now rewrite Hc, IHds.
      * intros v.
        assert (Hsplit : ∀ (s : string) (c : ascii) (u : Z),
                  digits_value (s ++ String c "") u
                  = digits_value s u * 10 + ISO.digit_val c).
        { induction s as [|a s IHs]; intros c u; [reflexivity|].
          rewrite append_cons. cbn [digits_value]. apply IHs. }
        rewrite Hsplit, Hv, Hval, append_length.
        cbn [String.length]. rewrite Nat.add_1_r, Nat2Z.inj_succ, Z.pow_succ_r by lia.
        pose proof (Z.div_mod z 10). lia.
Qed.

Lemma str_digits (z : Z) :
  0 <= z →
  ∃ ds, PyInt.str z = ds ∧ all_digits ds = true
        ∧ digits_value ds 0 = z.
Proof.
  intros Hz. unfold PyInt.str, PyInt.str_nonneg.
  replace (z <? 0) with false by (symmetry; apply Z.ltb_ge; lia).
  destruct (digits_spec (S (Z.to_nat (Z.log2 z))) z "") as (ds & Hds & Hall & Hv).
  - split; [lia|]. rewrite Nat2Z.inj_succ, Z2Nat.id by apply Z.log2_nonneg.
    destruct (Z.eq_dec z 0) as [-> | Hne]; [reflexivity|].
    apply Z.log2_spec. lia.
  - exists ds. rewrite Hds.
    assert (Hnil : ∀ s : string, (s ++ "")%string = s).
    { induction s as [|c s IH]; [reflexivity|].
      rewrite append_cons. now rewrite IH. }
    rewrite Hnil. split; [reflexivity|]. split; [exact Hall|].
    rewrite Hv. lia.
Qed.

(** Two texts that begin with digits and a hyphen and are equal begin with
    the same digits. *)
Lemma digits_then_hyphen (d1 d2 r1 r2 : string) :
  all_digits d1 = true → all_digits d2 = true →
  (d1 ++ String "-" r1)%string = (d2 ++ String "-" r2)%string →
  d1 = d2 ∧ r1 = r2.
Proof.
  revert d2. induction d1 as [|c d1 IH]; intros [|c2 d2] H1 H2 H.
  - rewrite !append_nil in H. injection H as ->. auto.
  - rewrite append_nil, append_cons in H. injection H as <- _.
    simpl in H2. discriminate.
  - rewrite append_nil, append_cons in H. injection H as -> _.
    simpl in H1. discriminate.
  - rewrite !append_cons in H. injection H as -> H.
    simpl in H1, H2. apply andb_prop in H1, H2.
    destruct (IH d2 (proj2 H1) (proj2 H2) H) as [-> ->]. auto.
Qed.

Lemma pad_two_chars (z : Z) :
  PyInt.pad 2 z ""
  = String (PyInt.digit (z / 10 mod 10)) (String (PyInt.digit (z mod 10)) "").
Proof. reflexivity. Qed.

Lemma two_digits_inj (x y : Z) :
  0 <= x <= 99 → 0 <= y <= 99 →
  PyInt.digit (x / 10 mod 10) = PyInt.digit (y / 10 mod 10) →
  PyInt.digit (x mod 10) = PyInt.digit (y mod 10) →
  x = y.
Proof.
  intros Hx Hy H1 H2.
  apply digit_inj in H1; [|pose proof (Z.mod_pos_bound (x / 10) 10); lia
                          |pose proof (Z.mod_pos_bound (y / 10) 10); lia].
  apply digit_inj in H2; [|pose proof (Z.mod_pos_bound x 10); lia
                          |pose proof (Z.mod_pos_bound y 10); lia].
  rewrite !Z.mod_small in H1
    by (split; [apply Z.div_pos; lia | apply Z.div_lt_upper_bound; lia]).
  pose proof (Z.div_mod x 10). pose proof (Z.div_mod y 10). lia.
Qed.

Lemma is_datetime_ranges (d : datetime) :
  is_datetime d = true →
  1 <= year d ∧ 0 <= month d <= 99 ∧ 0 <= day d <= 99 ∧
  0 <= hour d <= 99 ∧ 0 <= minute d <= 99 ∧ 0 <= second d <= 99.
Proof.
  unfold is_datetime, ISO.check_date_args, ISO.check_time_args. intros H.
  repeat (apply andb_prop in H; destruct H as [H ?]).
  repeat match goal with
         | H : (_ <=? _) = true |- _ => apply Z.leb_le in H
         end.
  assert (ISO.days_in_month (year d) (month d) <= 31).
  { unfold ISO.days_in_month, ISO.days_in_month_table.
    destruct ((month d =? 2) && ISO.is_leap (year d)); [lia|].
    assert (Hm : month d = 1 ∨ month d = 2 ∨ month d = 3 ∨ month d = 4 ∨
                 month d = 5 ∨ month d = 6 ∨ month d = 7 ∨ month d = 8 ∨
                 month d = 9 ∨ month d = 10 ∨ month d = 11 ∨ month d = 12) by lia.
    repeat (destruct Hm as [-> | Hm]; [simpl; lia|]). rewrite Hm. simpl. lia. }
  lia.
Qed.

End FileNameProperties.

Section FileNameTheorem.
Context {R : Runtime}.

(** X17.  The name of the output file tells the start second and the sport
    apart.  Two records, whatever else they hold, get the same file name
    exactly when their start times show the same second on the wall clock
    and their sports are the same; the microseconds and the offsets of the
    start times play no part. *)
Theorem tcx_filename_injective (w1 w2 : workout) :
  is_datetime (start_time w1) = true →
  is_datetime (start_time w2) = true →
  tcx_filename w1 = tcx_filename w2
  ↔ same_wall_clock_second (start_time w1) (start_time w2) ∧ sport w1 = sport w2.
Proof.
  intros Hd1 Hd2. split.
  - apply is_datetime_ranges in Hd1, Hd2.
    destruct Hd1 as (Hy1 & Hm1 & Hda1 & Hh1 & Hmi1 & Hs1).
    destruct Hd2 as (Hy2 & Hm2 & Hda2 & Hh2 & Hmi2 & Hs2).
    unfold tcx_filename, strftime_file, same_wall_clock_second.
    destruct (str_digits (year (start_time w1))) as (y1 & -> & Hall1 & Hv1); [lia|].
    destruct (str_digits (year (start_time w2))) as (y2 & -> & Hall2 & Hv2); [lia|].
    rewrite !pad_two_chars, !append_assoc, !append_cons, !append_nil.
    intros H. apply digits_then_hyphen in H; [|assumption..].
    destruct H as [-> H].
    rewrite ?append_cons, ?append_nil in H.
    injection H as HM1 HM2 HD1 HD2 Hh Hh' Hm Hm' Hs Hs' Hsport.
    apply append_inv_tail in Hsport.
    repeat split; try (apply two_digits_inj; assumption); [lia|exact Hsport].
  - intros [(Hy & Hm & Hd & Hh & Hmi & Hs) Hsp].
    unfold tcx_filename, strftime_file. now rewrite Hy, Hm, Hd, Hh, Hmi, Hs, Hsp.
Qed.

End FileNameTheorem.

(** ** Further instances *)

(** X1 on three workouts of which the second cannot be built: two are
    counted and one report is printed. *)
Lemma convert_all_accounts_for_every_workout_witness :
  ∃ n world' printed,
    @convert_all Sample.runtime Fixture.converter ["out"] ["out"; "no_hr"]
      Cases.three_workouts Fixture.world = (Ok n, world')
    ∧ stdout world' = stdout Fixture.world ++ printed
    ∧ n + Z.of_nat (length (error_lines printed)) = 3.
Proof.
  destruct (@convert_all_accounts_for_every_workout Sample.runtime
              Fixture.converter ["out"] ["out"; "no_hr"]
              Cases.three_workouts Fixture.world)
    as (n & world' & printed & Hrun & Hout & _ & _ & Hsum & _).
  exists n, world', printed. split; [exact Hrun|]. split; [exact Hout|exact Hsum].
Defined.

(** X2 on the archive with an entry whose start date is written day first:
    the run ends with the [ValueError] of that entry. *)
Lemma convert_workouts_prelude_faults_witness :
  fst (@convert_workouts Sample.runtime Fixture.converter (Some ["out"]) None
         (Fixture.world_of [Fixture.running; Fixture.day_first; Fixture.walking]))
  = Raise ValueError.
Proof.
  destruct (@convert_workouts_prelude_faults Sample.runtime Fixture.converter
              (Some ["out"]) None
              (Fixture.world_of [Fixture.running; Fixture.day_first; Fixture.walking]))
    as (_ & _ & Hfault).
  destruct (Hfault ValueError
              (snd (@mkdir Sample.runtime false ["out"]
                      (fs (Fixture.world_of
                             [Fixture.running; Fixture.day_first; Fixture.walking]))))
              (Elem "HealthData" [] None
                 [Fixture.running; Fixture.day_first; Fixture.walking]))
    as (world' & Hrun & _).
  - reflexivity.
  - reflexivity.
  - reflexivity.
  - rewrite Hrun. reflexivity.
Defined.

(** X3 on the archive of the test suite. *)
Lemma parse_apple_workouts_log_witness :
  fst (@parse_apple_workouts Sample.runtime Fixture.converter Fixture.world)
  = Ok [Fixture.running_record; Fixture.walking_record]
  ∧ stdout (snd (@parse_apple_workouts Sample.runtime Fixture.converter
                   Fixture.world))
    = [FoundTotal 3;
       WorkoutSource 0 "Bharat's Apple Watch";
       WorkoutSource 1 "Bharat's Apple Watch";
       WorkoutSource 2 "Strava";
       FoundAppleWatch 2; ParsedWithData 2].
Proof.
  destruct (proj2 (@parse_apple_workouts_log Sample.runtime Fixture.converter
                     Fixture.world)
              Fixture.export_xml
              [Some Fixture.running_record; Some Fixture.walking_record])
    as [Hrun _].
  - reflexivity.
  - reflexivity.
  - rewrite Hrun. split; reflexivity.
Defined.

(** X4 on the filter of the test suite, in capitals: it has the lower-case
    form of the filter of the test, and gives the same count. *)
Lemma convert_workouts_activity_filter_witness :
  fst (@convert_workouts Sample.runtime Fixture.converter (Some ["out"])
         (Some "RUNNING") Fixture.world)
  = Ok 1.
Proof.
  rewrite (proj1 (proj2 (@convert_workouts_activity_filter Sample.runtime
                           Fixture.converter (Some ["out"]) Fixture.world))
             "RUNNING" "running" eq_refl eq_refl eq_refl).
  vm_compute. reflexivity.
Defined.

(** X5 on the evening ride: the second of its two heart-rate statistics
    is the one the record holds. *)
Lemma statistics_last_of_kind_wins_witness :
  @extracted_from Sample.runtime Fixture.converter Cases.evening_ride
    Cases.evening_ride_record
  ∧ field_from_last (@heart_rate_of Sample.runtime) HeartRateStat
      (statistics Cases.evening_ride) None
      (Some (HeartRate.mk (PyFloat.of_Z 150) 110 170)).
Proof.
  assert (H : @extracted_from Sample.runtime Fixture.converter Cases.evening_ride
                Cases.evening_ride_record) by reflexivity.
  split; [exact H|].
  exact (proj1 (@statistics_last_of_kind_wins Sample.runtime Fixture.converter
                  Cases.evening_ride Cases.evening_ride_record H)).
Defined.

(** X6 on the running workout of the test suite: 500 cm are 5 m. *)
Lemma elevation_gain_in_metres_witness :
  ∃ cm,
    @float_of_str Sample.runtime "500" = Some cm
    ∧ @elevation_gain Sample.runtime Fixture.running_record
      = Some (PyFloat.div cm (PyFloat.of_Z 100)).
Proof.
  assert (H : @extracted_from Sample.runtime Fixture.converter Fixture.running
                Fixture.running_record) by reflexivity.
  pose proof (@elevation_gain_in_metres Sample.runtime Fixture.converter
                Fixture.running Fixture.running_record H) as Hel.
  change (elevation_entry Fixture.running)
    with (Some (Elem "MetadataEntry"
                  [("key", "HKElevationAscended"); ("value", "500 cm")] None []))
    in Hel.
  destruct Hel as [Hcm _]. exact (Hcm "500" eq_refl eq_refl).
Defined.

(** X7 on the running workout of the test suite. *)
Lemma gpx_file_under_routes_dir_witness :
  @gpx_file Sample.runtime Fixture.running_record
  = Some (@joinpath Sample.runtime (routes_dir Fixture.converter)
            "route_2024-01-15_10.00am.gpx").
Proof.
  assert (H : @extracted_from Sample.runtime Fixture.converter Fixture.running
                Fixture.running_record) by reflexivity.
  pose proof (@gpx_file_under_routes_dir Sample.runtime Fixture.converter
                Fixture.running Fixture.running_record H) as Hgpx.
  change (route_reference Fixture.running)
    with (Some (Elem "FileReference"
                  [("path", "/workout-routes/route_2024-01-15_10.00am.gpx")]
                  None []))
    in Hgpx.
  destruct Hgpx as [Hname _].
  exact (Hname "route_2024-01-15_10.00am.gpx" eq_refl eq_refl).
Defined.

(** X8 on the evening ride: a bike ride was a cycling workout. *)
Lemma sport_of_extracted_record_witness :
  @sport Sample.runtime Cases.evening_ride_record ∈ categories
  ∧ ET.get Cases.evening_ride "workoutActivityType"
    = Some "HKWorkoutActivityTypeCycling".
Proof.
  assert (H : @extracted_from Sample.runtime Fixture.converter Cases.evening_ride
                Cases.evening_ride_record) by reflexivity.
  destruct (@sport_of_extracted_record Sample.runtime Fixture.converter
              Cases.evening_ride Cases.evening_ride_record H) as [Hcat Htype].
  split; [exact Hcat|]. apply Htype. discriminate.
Defined.

(** X9 on the running workout of the test suite: three points, three
    [Trackpoint] elements. *)
Lemma track_mirrors_points_witness :
  ∃ doc pts,
    fst (@create_tcx Sample.runtime Fixture.converter Fixture.running_record
           Fixture.world) = Ok doc
    ∧ length pts = 3%nat
    ∧ @track_mirrors Sample.runtime
        [Elem "HeartRateBpm" [] None [Elem "Value" [] (Some "150") []]]
        pts doc.
Proof.
  assert (Hok : is_ok (fst (@create_tcx Sample.runtime Fixture.converter
                             Fixture.running_record Fixture.world)) = true)
    by (vm_compute; reflexivity).
  assert (Hlen : match fst (@parse_gpx_file Sample.runtime Fixture.converter
                              (@gpx_file Sample.runtime Fixture.running_record)
                              Fixture.world) with
                 | Ok pts => length pts
                 | Raise _ => O
                 end = 3%nat)
    by (vm_compute; reflexivity).
  destruct (@create_tcx Sample.runtime Fixture.converter Fixture.running_record
              Fixture.world) as [[doc|e] world'] eqn:Hrun; [|discriminate Hok].
  destruct (proj1 (@track_mirrors_points Sample.runtime Fixture.converter
                     Fixture.running_record Fixture.world world' doc) Hrun)
    as (pts & Hpts & Hmirror).
  rewrite Hpts in Hlen. exists doc, pts. auto.
Defined.

(** X10 on the walking workout of the test suite. *)
Lemma built_document_frame_witness :
  ∃ doc,
    fst (@create_tcx_no_hr Sample.runtime Fixture.converter Fixture.walking_record
           Fixture.world) = Ok doc
    ∧ @has_frame Sample.runtime Fixture.walking_record doc.
Proof.
  assert (Hok : is_ok (fst (@create_tcx_no_hr Sample.runtime Fixture.converter
                             Fixture.walking_record Fixture.world)) = true)
    by (vm_compute; reflexivity).
  destruct (fst (@create_tcx_no_hr Sample.runtime Fixture.converter
                   Fixture.walking_record Fixture.world))
    as [doc|e] eqn:Hdoc; [|discriminate Hok].
  exists doc. split; [reflexivity|].
  exact (proj1 (@built_document_frame Sample.runtime Fixture.converter
                  Fixture.walking_record Fixture.world doc (or_intror Hdoc))).
Defined.

(** X12 on a point with nothing but its timestamp. *)
Lemma trackpoint_defaults_witness :
  @read_from Sample.runtime Cases.bare_trkpt Cases.bare_point
  ∧ lat Cases.bare_point = PyFloat.of_Z 0
  ∧ @ET.findall_child "AltitudeMeters"
      (@trackpoint_elem_no_hr Sample.runtime Cases.bare_point)
    = [@leaf "AltitudeMeters" "0"].
Proof.
  assert (H : @read_from Sample.runtime Cases.bare_trkpt Cases.bare_point)
    by reflexivity.
  destruct (@trackpoint_defaults Sample.runtime Cases.bare_trkpt Cases.bare_point H)
    as (Hlat & _ & Hele & _).
  split; [exact H|]. split.
  - apply Hlat. reflexivity.
  - apply Hele. reflexivity.
Defined.

(** X13 on the same point. *)
Lemma gpx_timestamp_round_trip_witness :
  @read_from Sample.runtime Cases.bare_trkpt Cases.bare_point
  ∧ head (@trackpoint_base Sample.runtime Cases.bare_point)
    = Some (@leaf "Time" "2024-01-15T10:00:00.000000Z").
Proof.
  assert (H : @read_from Sample.runtime Cases.bare_trkpt Cases.bare_point)
    by reflexivity.
  split; [exact H|].
  destruct (@gpx_timestamp_round_trip Sample.runtime Cases.bare_trkpt
              (Elem gpx_time [] (Some "2024-01-15T10:00:00Z") [])
              Cases.bare_point "2024-01-15T10:00:00Z" H eq_refl eq_refl eq_refl)
    as (_ & _ & Htime).
  apply Htime. vm_compute. discriminate.
Defined.

(** X14 on the evening ride: eight in the evening an hour east of UTC is
    written as eight in the evening with a [Z]. *)
Lemma start_time_written_as_wall_clock_witness :
  strftime_tcx (@start_time Sample.runtime Cases.evening_ride_record)
  = "2022-10-06T20:04:10.000000Z"
  ∧ @tcx_filename Sample.runtime Cases.evening_ride_record
    = "2022-10-06_200410_Biking.tcx"
  ∧ @year_month Sample.runtime ["out"] Cases.evening_ride_record
    = ["out"; "2022"; "10"].
Proof.
  assert (H : @extracted_from Sample.runtime Fixture.converter Cases.evening_ride
                Cases.evening_ride_record) by reflexivity.
  destruct (@start_time_written_as_wall_clock Sample.runtime Fixture.converter
              Cases.evening_ride Cases.evening_ride_record H)
    as (_ & Htcx & Hfile & Hdir).
  - reflexivity.
  - vm_compute. discriminate.
  - split; [exact Htcx|]. split; [exact Hfile|]. exact (Hdir ["out"]).
Defined.

(** X15 on the walking workout of the test suite: it has no heart rate and
    is written without a line. *)
Lemma attempt_progress_lines_witness :
  @progress_lines Sample.runtime Fixture.walking_record = [].
Proof.
  destruct (@attempt_progress_lines Sample.runtime Fixture.converter
              ["out"] ["out"; "no_hr"] Fixture.walking_record Fixture.world)
    as (report & _ & _ & Hsilent).
  apply Hsilent. reflexivity.
Defined.

(** X16 on a track whose third point has a timestamp that is not one: the
    two points before it are lost with it. *)
Lemma track_file_all_or_nothing_witness :
  fst (@parse_gpx_file Sample.runtime Fixture.converter (Some Cases.broken_path)
         Cases.broken_world)
  = Ok []
  ∧ ∃ e, stdout (snd (@parse_gpx_file Sample.runtime Fixture.converter
                        (Some Cases.broken_path) Cases.broken_world))
         = [@GpxError Sample.runtime Cases.broken_path e].
Proof.
  destruct (@track_file_all_or_nothing Sample.runtime Fixture.converter
              Cases.broken_path Cases.broken_world Cases.broken_route)
    as (pts & world' & Hrun & _ & Hcase).
  - vm_compute. reflexivity.
  - vm_compute. reflexivity.
  - rewrite Hrun.
    replace (@well_formed_track Sample.runtime Cases.broken_route) with false
      in Hcase by (vm_compute; reflexivity).
    destruct Hcase as [-> [e He]]. split; [reflexivity|].
    exists e. exact He.
Defined.

(** X17 on the two workouts of the test suite: another sport, another
    file name. *)
Lemma tcx_filename_injective_witness :
  @tcx_filename Sample.runtime Fixture.running_record
  ≠ @tcx_filename Sample.runtime Fixture.walking_record.
Proof.
  intros Heq.
  apply (proj1 (@tcx_filename_injective Sample.runtime Fixture.running_record
                  Fixture.walking_record eq_refl eq_refl)) in Heq.
  destruct Heq as [_ Hsport]. discriminate Hsport.
Defined.

